(** * jap: a client for the JustAnotherPanel order API (src/jap.go)

    The Go package is a thin adapter: every public method builds a small
    request struct, hands it to [post] (json.Marshal, http.NewRequest,
    http.Client.Do, io.ReadAll) and decodes the reply with json.Unmarshal.

    The development embeds
    - Go values as the code has them: [string] and [[]byte] as byte strings,
      [int] as [Z] (64-bit), [*int] as [option Z], a slice as [option (list _)]
      ([None] is the nil slice), a [map[string]T] as [option (gmap string T)],
      a [(T, error)] result as a pair with an [option error];
    - the parts of encoding/json, strconv and unicode/utf8 that the methods
      reach: the struct encoder with [omitempty], the string escaper, the
      scanner (validity automaton) and the type-directed decoder;
    - net/http as an environment: [url.Parse]'s verdict on the endpoint and
      the round trip are parameters of the section that holds the client. *)

From Stdlib Require Import ZArith List String Ascii Bool Lia.
From stdpp Require Import base option strings gmap.

#[local] Arguments String.append !_ _ : simpl nomatch.

Local Open Scope string_scope.
Local Open Scope list_scope.
Local Open Scope Z_scope.

(** ** Bytes *)

Definition code (c : ascii) : Z := Z.of_N (N_of_ascii c).
Definition chr (z : Z) : ascii := ascii_of_N (Z.to_N z).

Definition dquote : ascii := "034"%char.
Definition backslash : ascii := "\"%char.

(** JSON texts in examples are written with apostrophes in place of the
    double quotes; [jtext] puts the double quotes back. *)
Fixpoint jtext (s : string) : string :=
  match s with
  | EmptyString => EmptyString
  | String c s' => String (if Ascii.eqb c "'" then dquote else c) (jtext s')
  end.

(** The rest of a string after its first byte (the string itself when it is
    empty), and after the [size - 1] bytes that follow the leading byte of a
    rune of width [size]. *)
Definition tail (s : string) : string :=
  match s with
  | EmptyString => s
  | String _ t => t
  end.

Definition after_rune (size : Z) (rest : string) : string :=
  match size with
  | 2 => tail rest
  | 3 => tail (tail rest)
  | 4 => tail (tail (tail rest))
  | _ => rest
  end.

Fixpoint take (n : nat) (s : string) : string :=
  match n, s with
  | S n', String c s' => String c (take n' s')
  | _, _ => EmptyString
  end.

(** ** strconv *)

Module strconv.

Definition digit (d : Z) : ascii := chr (48 + d).

(** [formatBits] for base 10: the digits of [u], least significant first,
    are pushed in front of [acc].  The library emits them two at a time from
    a table; the text produced is the same. *)
Fixpoint formatBits (fuel : nat) (u : Z) (acc : string) : string :=
  match fuel with
  | O => acc
  | S fuel' =>
      let acc' := String (digit (u mod 10)) acc in
      if u <? 10 then acc' else formatBits fuel' (u / 10) acc'
  end.

Definition FormatUint (u : Z) : string :=
  formatBits (S (Z.to_nat (Z.log2 u))) u EmptyString.

(** [FormatInt(i, 10)]; [Itoa(i)] is [FormatInt(int64(i), 10)]. *)
Definition FormatInt (i : Z) : string :=
  if i <? 0 then String "-" (FormatUint (- i)) else FormatUint i.

Definition Itoa (i : Z) : string := FormatInt i.

Definition isDigit (c : ascii) : bool := (48 <=? code c) && (code c <=? 57).

Fixpoint parseDigits (s : string) (acc : Z) : option Z :=
  match s with
  | EmptyString => Some acc
  | String c s' =>
      if isDigit c then parseDigits s' (acc * 10 + (code c - 48)) else None
  end.

(** [ParseUint(s, 10, 64)] before its range check: [None] is ErrSyntax. *)
Definition ParseUint (s : string) : option Z :=
  match s with
  | EmptyString => None
  | _ => parseDigits s 0
  end.

(** [ParseInt(s, 10, 64)]: [None] stands for both ErrSyntax and ErrRange
    (the JSON decoder treats them alike). *)
Definition ParseInt (s : string) : option Z :=
  match s with
  | EmptyString => None
  | String c s' =>
      let '(neg, s0) :=
        if Ascii.eqb c "+" then (false, s')
        else if Ascii.eqb c "-" then (true, s')
        else (false, s) in
      match ParseUint s0 with
      | None => None
      | Some un =>
          let cutoff := 2 ^ 63 in
          if negb neg && (cutoff <=? un) then None
          else if neg && (cutoff <? un) then None
          else Some (if neg then - un else un)
      end
  end.

End strconv.

(** ** unicode/utf8 and unicode/utf16 *)

Module utf8.

Definition RuneError : Z := 65533.   (* U+FFFD *)
Definition RuneSelf : Z := 128.
Definition MaxRune : Z := 1114111.   (* U+10FFFF *)

(** The table [first] together with [acceptRanges]: for a leading byte, the
    length of the sequence and the range accepted for its second byte; [None]
    for the bytes marked [xx] (never a leading byte).  ASCII is handled by
    the callers. *)
Definition first (p0 : Z) : option (Z * Z * Z) :=
  if p0 <? 194 then None                          (* 80..C1 *)
  else if p0 <=? 223 then Some (2, 128, 191)      (* C2..DF *)
  else if p0 =? 224 then Some (3, 160, 191)       (* E0 *)
  else if p0 <=? 236 then Some (3, 128, 191)      (* E1..EC *)
  else if p0 =? 237 then Some (3, 128, 159)       (* ED *)
  else if p0 <=? 239 then Some (3, 128, 191)      (* EE..EF *)
  else if p0 =? 240 then Some (4, 144, 191)       (* F0 *)
  else if p0 <=? 243 then Some (4, 128, 191)      (* F1..F3 *)
  else if p0 =? 244 then Some (4, 128, 143)       (* F4 *)
  else None.                                      (* F5..FF *)

Definition locb : Z := 128.
Definition hicb : Z := 191.
Definition maskx : Z := 63.

(** [DecodeRune(p)]: the first rune of [p] and its width in bytes;
    [(RuneError, 1)] on an invalid encoding, [(RuneError, 0)] on empty input. *)
Definition DecodeRune (p : string) : Z * Z :=
  match p with
  | EmptyString => (RuneError, 0)
  | String c0 p1 =>
      let p0 := code c0 in
      if p0 <? RuneSelf then (p0, 1) else
      match first p0 with
      | None => (RuneError, 1)
      | Some (sz, lo, hi) =>
          if Z.of_nat (String.length p) <? sz then (RuneError, 1) else
          match p1 with
          | EmptyString => (RuneError, 1)
          | String c1 p2 =>
              let b1 := code c1 in
              if (b1 <? lo) || (hi <? b1) then (RuneError, 1) else
              if sz <=? 2 then
                (Z.lor (Z.shiftl (Z.land p0 31) 6) (Z.land b1 maskx), 2)
              else
              match p2 with
              | EmptyString => (RuneError, 1)
              | String c2 p3 =>
                  let b2 := code c2 in
                  if (b2 <? locb) || (hicb <? b2) then (RuneError, 1) else
                  if sz <=? 3 then
                    (Z.lor (Z.lor (Z.shiftl (Z.land p0 15) 12)
                                  (Z.shiftl (Z.land b1 maskx) 6))
                           (Z.land b2 maskx), 3)
                  else
                  match p3 with
                  | EmptyString => (RuneError, 1)
                  | String c3 _ =>
                      let b3 := code c3 in
                      if (b3 <? locb) || (hicb <? b3) then (RuneError, 1) else
                      (Z.lor (Z.lor (Z.lor (Z.shiftl (Z.land p0 7) 18)
                                           (Z.shiftl (Z.land b1 maskx) 12))
                                    (Z.shiftl (Z.land b2 maskx) 6))
                             (Z.land b3 maskx), 4)
                  end
              end
          end
      end
  end.

Definition enc3 (r : Z) : string :=
  String (chr (Z.lor 224 (Z.shiftr r 12)))
    (String (chr (Z.lor 128 (Z.land (Z.shiftr r 6) maskx)))
       (String (chr (Z.lor 128 (Z.land r maskx))) EmptyString)).

(** [EncodeRune]: the UTF-8 bytes of [r]; surrogates and values out of
    range are written as U+FFFD. *)
Definition EncodeRune (r : Z) : string :=
  if (0 <=? r) && (r <=? 127) then String (chr r) EmptyString
  else if (0 <=? r) && (r <=? 2047) then
    String (chr (Z.lor 192 (Z.shiftr r 6)))
      (String (chr (Z.lor 128 (Z.land r maskx))) EmptyString)
  else if (r <? 0) || (MaxRune <? r) || ((55296 <=? r) && (r <=? 57343)) then
    enc3 RuneError
  else if r <=? 65535 then enc3 r
  else
    String (chr (Z.lor 240 (Z.shiftr r 18)))
      (String (chr (Z.lor 128 (Z.land (Z.shiftr r 12) maskx)))
         (String (chr (Z.lor 128 (Z.land (Z.shiftr r 6) maskx)))
            (String (chr (Z.lor 128 (Z.land r maskx))) EmptyString))).

(** [ValidString(s)]: no position of [s] decodes to the error rune of
    width one. *)
Fixpoint ValidString (s : string) : bool :=
  match s with
  | EmptyString => true
  | String c rest =>
      if code c <? RuneSelf then ValidString rest
      else
        let '(r, size) := DecodeRune s in
        if (r =? RuneError) && (size =? 1) then false
        else ValidString (after_rune size rest)
  end.

End utf8.

Module utf16.

Definition IsSurrogate (r : Z) : bool := (55296 <=? r) && (r <? 57344).

(** [DecodeRune(r1, r2)]: the code point of a surrogate pair, U+FFFD when
    the pair is not a high surrogate followed by a low one. *)
Definition DecodeRune (r1 r2 : Z) : Z :=
  if (55296 <=? r1) && (r1 <? 56320) && (56320 <=? r2) && (r2 <? 57344)
  then Z.lor (Z.shiftl (r1 - 55296) 10) (r2 - 56320) + 65536
  else 65533.

End utf16.

(** ** Errors

    Go's [error] values, as far as the client can tell them apart.  The
    errors of net/url, net/http and io come from the environment and are
    carried as opaque messages. *)
Inductive error : Type :=
| SyntaxError                          (* *json.SyntaxError *)
| UnmarshalTypeError (Value : string)  (* *json.UnmarshalTypeError *)
| PhasePanic                           (* the decoder's "out of sync" panic *)
| EnvError (msg : string).             (* url.Parse, Client.Do, io.ReadAll *)

(** ** encoding/json: encoding *)

Module json.

Definition hex (d : Z) : ascii :=
  match String.get (Z.to_nat d) "0123456789abcdef" with
  | Some c => c
  | None => "0"%char
  end.

(** [htmlSafeSet]: the ASCII bytes that are written to a JSON string as
    they are when HTML escaping is on (json.Marshal's default). *)
Definition htmlSafeSet (b : Z) : bool :=
  (32 <=? b) && (b <? 128)
  && negb (b =? 34) && negb (b =? 38) && negb (b =? 60)
  && negb (b =? 62) && negb (b =? 92).

(** The escape written for an ASCII byte outside [htmlSafeSet] (as of
    Go 1.22; older releases write the bytes 08 and 0C as [\u0008] and
    [\u000c]). *)
Definition escapeByte (b : Z) : string :=
  if (b =? 92) || (b =? 34) then String backslash (String (chr b) EmptyString)
  else if b =? 8 then String backslash "b"
  else if b =? 12 then String backslash "f"
  else if b =? 10 then String backslash "n"
  else if b =? 13 then String backslash "r"
  else if b =? 9 then String backslash "t"
  else String backslash
         ("u00" +:+ String (hex (Z.shiftr b 4))
                      (String (hex (Z.land b 15)) EmptyString)).

(** The body of [appendString]'s loop: the bytes written between the two
    quotes for [src]. *)
Fixpoint appendString_loop (src : string) : string :=
  match src with
  | EmptyString => EmptyString
  | String c rest =>
      let b := code c in
      if b <? utf8.RuneSelf then
        if htmlSafeSet b then String c (appendString_loop rest)
        else escapeByte b +:+ appendString_loop rest
      else
        let '(r, size) := utf8.DecodeRune src in
        if (r =? utf8.RuneError) && (size =? 1) then
          String backslash "ufffd" +:+ appendString_loop rest
        else if (r =? 8232) || (r =? 8233) then
          String backslash "u202" +:+
          String (hex (Z.land r 15)) (appendString_loop (after_rune size rest))
        else
          take (Z.to_nat size) src +:+ appendString_loop (after_rune size rest)
  end.

(** [appendString(dst, src, escapeHTML = true)], on an empty [dst]. *)
Definition appendString (src : string) : string :=
  String dquote (appendString_loop src +:+ String dquote EmptyString).

(** The [reflect.Value]s that occur as fields of the request structs. *)
Inductive value : Type :=
| VString (s : string)
| VInt (i : Z)
| VPtrInt (p : option Z).

(** A struct field as the encoder caches it: the name from the [json]
    tag, the tag's [omitempty] option and the field's value. *)
Record field : Type := Field {
  name : string;
  omitEmpty : bool;
  fv : value
}.

Definition isEmptyValue (v : value) : bool :=
  match v with
  | VString s => match s with EmptyString => true | _ => false end  (* Len() == 0 *)
  | VInt i => i =? 0                                                (* IsZero() *)
  | VPtrInt p => match p with None => true | Some _ => false end    (* IsZero() *)
  end.

(** [stringEncoder], [intEncoder] and [ptrEncoder] over [intEncoder]. *)
Definition valueEncoder (v : value) : string :=
  match v with
  | VString s => appendString s
  | VInt i => strconv.FormatInt i
  | VPtrInt None => "null"
  | VPtrInt (Some i) => strconv.FormatInt i
  end.

(** [nameEscHTML]: the quoted name followed by a colon.  The names of this
    package's tags hold nothing that HTML escaping would change. *)
Definition nameEscHTML (f : field) : string :=
  String dquote (name f +:+ String dquote ":").

(** [structEncoder.encode]'s field loop; [next] is the byte to write
    before the next field that is kept. *)
Fixpoint encodeFields (fs : list field) (next : ascii) : string * ascii :=
  match fs with
  | [] => (EmptyString, next)
  | f :: fs' =>
      if omitEmpty f && isEmptyValue (fv f) then encodeFields fs' next
      else
        let '(out, next') := encodeFields fs' ","%char in
        (String next (nameEscHTML f +:+ valueEncoder (fv f) +:+ out), next')
  end.

Definition structEncoder (fs : list field) : string :=
  let '(out, next) := encodeFields fs "{"%char in
  if Ascii.eqb next "{" then "{}" else out +:+ "}".

(** [json.Marshal] of a struct whose fields are strings, ints and int
    pointers: no encoder of these kinds reports an error. *)
Definition Marshal (fs : list field) : string * option error :=
  (structEncoder fs, None).

(** ** encoding/json: the scanner

    [checkValid] feeds the input to the scanner one byte at a time; the
    scanner is an automaton whose state is the current step function and a
    stack of parse states.  The decoder then walks the same input with the
    same automaton.  Here one pass does both: the automaton is that of
    encoding/json, and it also keeps the syntax tree read so far (string and
    number literals as written, members in input order, duplicates kept) for
    the decoder. *)

#[local] Set Warnings "-register-all".

Inductive node : Type :=
| JNull
| JBool (b : bool)
| JNumber (lit : string)    (* the literal as written *)
| JString (lit : string)    (* the bytes between the quotes, escapes unprocessed *)
| JArray (elems : list node)
| JObject (members : list (string * node)).   (* keys as [JString] literals *)

Inductive stepfn : Type :=
| stateBeginValue | stateBeginValueOrEmpty | stateBeginStringOrEmpty
| stateBeginString | stateEndValue | stateEndTop
| stateInString | stateInStringEsc
| stateInStringEscU | stateInStringEscU1 | stateInStringEscU12 | stateInStringEscU123
| stateNeg | state1 | state0 | stateDot | stateDot0 | stateE | stateESign | stateE0
| stateT | stateTr | stateTru
| stateF | stateFa | stateFal | stateFals
| stateN | stateNu | stateNul
| stateError.

(** The three parse states, each with what has been read of its composite
    value: the members (or elements) completed so far and, once the colon is
    read, the key of the member being read. *)
Inductive frame : Type :=
| parseObjectKey (ms : list (string * node))
| parseObjectValue (ms : list (string * node)) (key : string)
| parseArrayValue (es : list node).

Record scanner : Type := Scanner {
  step : stepfn;
  parseState : list frame;   (* innermost first *)
  lit : string;              (* bytes of the literal being read *)
  val : option node          (* the value completed last *)
}.

Definition maxNestingDepth : Z := 10000.

Definition isSpace (c : ascii) : bool :=
  Ascii.eqb c " " || (code c =? 9) || (code c =? 13) || (code c =? 10).

Definition isHex (c : ascii) : bool :=
  let b := code c in
  ((48 <=? b) && (b <=? 57)) || ((97 <=? b) && (b <=? 102))
  || ((65 <=? b) && (b <=? 70)).

Definition is19 (c : ascii) : bool := (49 <=? code c) && (code c <=? 57).

Definition snoc (l : string) (c : ascii) : string := l +:+ String c EmptyString.

Definition reset : scanner :=
  Scanner stateBeginValue [] EmptyString None.

Definition scanError (s : scanner) : scanner :=
  Scanner stateError (parseState s) EmptyString None.

(** Move to step [st]; [c] joins the literal being read. *)
Definition continue (st : stepfn) (s : scanner) (c : ascii) : scanner :=
  Scanner st (parseState s) (snoc (lit s) c) (val s).

(** [c] begins a literal that is read from step [st] on. *)
Definition beginLiteral (st : stepfn) (s : scanner) (c : ascii) : scanner :=
  Scanner st (parseState s) (String c EmptyString) None.

Definition pushParseState (s : scanner) (f : frame) (successState : stepfn) : scanner :=
  let stack := f :: parseState s in
  if Z.of_nat (length stack) <=? maxNestingDepth
  then Scanner successState stack EmptyString None
  else scanError s.

(** [popParseState], the composite value just closed being [v]. *)
Definition popParseState (stack : list frame) (v : node) : scanner :=
  match stack with
  | [] => Scanner stateEndTop stack EmptyString (Some v)
  | _ => Scanner stateEndValue stack EmptyString (Some v)
  end.

Definition stateEndTop_step (s : scanner) (c : ascii) : scanner :=
  if isSpace c then s else scanError s.

Definition stateEndValue_step (s : scanner) (c : ascii) : scanner :=
  match parseState s with
  | [] =>
      stateEndTop_step (Scanner stateEndTop [] EmptyString (val s)) c
  | ps :: stack =>
      if isSpace c then Scanner stateEndValue (parseState s) EmptyString (val s)
      else
        match ps, val s with
        | parseObjectKey ms, Some (JString k) =>
            if Ascii.eqb c ":"
            then Scanner stateBeginValue (parseObjectValue ms k :: stack) EmptyString None
            else scanError s
        | parseObjectValue ms k, Some v =>
            if Ascii.eqb c ","
            then Scanner stateBeginString
                   (parseObjectKey (ms ++ [(k, v)]) :: stack) EmptyString None
            else if Ascii.eqb c "}"
            then popParseState stack (JObject (ms ++ [(k, v)]))
            else scanError s
        | parseArrayValue es, Some v =>
            if Ascii.eqb c ","
            then Scanner stateBeginValue
                   (parseArrayValue (es ++ [v]) :: stack) EmptyString None
            else if Ascii.eqb c "]"
            then popParseState stack (JArray (es ++ [v]))
            else scanError s
        | _, _ => scanError s
        end
  end.

(** A literal ends: the scanner is at [stateEndValue] with that value. *)
Definition endLiteral (s : scanner) (v : node) : scanner :=
  Scanner stateEndValue (parseState s) EmptyString (Some v).

(** A number ends at the first byte [c] that cannot continue it; [c] is
    then handled by [stateEndValue]. *)
Definition endNumber (s : scanner) (c : ascii) : scanner :=
  stateEndValue_step (endLiteral s (JNumber (lit s))) c.

Definition stateBeginValue_step (s : scanner) (c : ascii) : scanner :=
  if isSpace c then s
  else if Ascii.eqb c "{" then
    pushParseState s (parseObjectKey []) stateBeginStringOrEmpty
  else if Ascii.eqb c "[" then
    pushParseState s (parseArrayValue []) stateBeginValueOrEmpty
  else if Ascii.eqb c dquote then Scanner stateInString (parseState s) EmptyString None
  else if Ascii.eqb c "-" then beginLiteral stateNeg s c
  else if Ascii.eqb c "0" then beginLiteral state0 s c
  else if Ascii.eqb c "t" then beginLiteral stateT s c
  else if Ascii.eqb c "f" then beginLiteral stateF s c
  else if Ascii.eqb c "n" then beginLiteral stateN s c
  else if is19 c then beginLiteral state1 s c
  else scanError s.

Definition stateBeginString_step (s : scanner) (c : ascii) : scanner :=
  if isSpace c then s
  else if Ascii.eqb c dquote then Scanner stateInString (parseState s) EmptyString None
  else scanError s.

Definition state0_step (s : scanner) (c : ascii) : scanner :=
  if Ascii.eqb c "." then continue stateDot s c
  else if Ascii.eqb c "e" || Ascii.eqb c "E" then continue stateE s c
  else endNumber s c.

Definition stateESign_step (s : scanner) (c : ascii) : scanner :=
  if strconv.isDigit c then continue stateE0 s c else scanError s.

(** The word literals: [c] must be [want]; [next] is the step after it,
    [None] when [c] ends the literal, whose value is [v]. *)
Definition stateWord (s : scanner) (c want : ascii) (next : option stepfn) (v : node) : scanner :=
  if Ascii.eqb c want then
    match next with
    | Some st => continue st s c
    | None => endLiteral s v
    end
  else scanError s.

(** [s.step(s, c)]. *)
Definition step_byte (s : scanner) (c : ascii) : scanner :=
  match step s with
  | stateBeginValue => stateBeginValue_step s c
  | stateBeginValueOrEmpty =>
      if isSpace c then s
      else if Ascii.eqb c "]" then
        match parseState s with
        | parseArrayValue es :: stack => popParseState stack (JArray es)
        | _ => scanError s
        end
      else stateBeginValue_step s c
  | stateBeginStringOrEmpty =>
      if isSpace c then s
      else if Ascii.eqb c "}" then
        match parseState s with
        | parseObjectKey ms :: stack => popParseState stack (JObject ms)
        | _ => scanError s
        end
      else stateBeginString_step s c
  | stateBeginString => stateBeginString_step s c
  | stateEndValue => stateEndValue_step s c
  | stateEndTop => stateEndTop_step s c
  | stateInString =>
      if Ascii.eqb c dquote then endLiteral s (JString (lit s))
      else if Ascii.eqb c backslash then continue stateInStringEsc s c
      else if code c <? 32 then scanError s
      else continue stateInString s c
  | stateInStringEsc =>
      if Ascii.eqb c "b" || Ascii.eqb c "f" || Ascii.eqb c "n" || Ascii.eqb c "r"
         || Ascii.eqb c "t" || Ascii.eqb c backslash || Ascii.eqb c "/"
         || Ascii.eqb c dquote
      then continue stateInString s c
      else if Ascii.eqb c "u" then continue stateInStringEscU s c
      else scanError s
  | stateInStringEscU =>
      if isHex c then continue stateInStringEscU1 s c else scanError s
  | stateInStringEscU1 =>
      if isHex c then continue stateInStringEscU12 s c else scanError s
  | stateInStringEscU12 =>
      if isHex c then continue stateInStringEscU123 s c else scanError s
  | stateInStringEscU123 =>
      if isHex c then continue stateInString s c else scanError s
  | stateNeg =>
      if Ascii.eqb c "0" then continue state0 s c
      else if is19 c then continue state1 s c
      else scanError s
  | state1 =>
      if strconv.isDigit c then continue state1 s c else state0_step s c
  | state0 => state0_step s c
  | stateDot =>
      if strconv.isDigit c then continue stateDot0 s c else scanError s
  | stateDot0 =>
      if strconv.isDigit c then continue stateDot0 s c
      else if Ascii.eqb c "e" || Ascii.eqb c "E" then continue stateE s c
      else endNumber s c
  | stateE =>
      if Ascii.eqb c "+" || Ascii.eqb c "-" then continue stateESign s c
      else stateESign_step s c
  | stateESign => stateESign_step s c
  | stateE0 =>
      if strconv.isDigit c then continue stateE0 s c else endNumber s c
  | stateT => stateWord s c "r" (Some stateTr) JNull
  | stateTr => stateWord s c "u" (Some stateTru) JNull
  | stateTru => stateWord s c "e" None (JBool true)
  | stateF => stateWord s c "a" (Some stateFa) JNull
  | stateFa => stateWord s c "l" (Some stateFal) JNull
  | stateFal => stateWord s c "s" (Some stateFals) JNull
  | stateFals => stateWord s c "e" None (JBool false)
  | stateN => stateWord s c "u" (Some stateNu) JNull
  | stateNu => stateWord s c "l" (Some stateNul) JNull
  | stateNul => stateWord s c "l" None JNull
  | stateError => s
  end.

(** The scanner after the bytes of [data]. *)
Fixpoint scan (s : scanner) (data : string) : scanner :=
  match data with
  | EmptyString => s
  | String c data' => scan (step_byte s c) data'
  end.

Definition is_stateError (s : scanner) : bool :=
  match step s with stateError => true | _ => false end.

Definition endTop (s : scanner) : bool :=
  match step s with stateEndTop => true | _ => false end.

(** [scanner.eof]: the value read when the input is complete, [None] for
    "unexpected end of JSON input" and for an error met earlier. *)
Definition eof (s : scanner) : option node :=
  if is_stateError s then None
  else if endTop s then val s
  else
    let s' := step_byte s " " in
    if endTop s' then val s' else None.

(** [checkValid(data)], with the syntax tree of valid input. *)
Definition checkValid (data : string) : option node :=
  eof (scan reset data).

(** ** encoding/json: decoding *)

(** [getu4(s)]: the code unit of the escape [\uXXXX] that [s] begins with,
    [-1] when [s] does not begin with one. *)
Definition hexval (c : ascii) : option Z :=
  let b := code c in
  if (48 <=? b) && (b <=? 57) then Some (b - 48)
  else if (97 <=? b) && (b <=? 102) then Some (b - 97 + 10)
  else if (65 <=? b) && (b <=? 70) then Some (b - 65 + 10)
  else None.

Definition getu4 (s : string) : Z :=
  match s with
  | String e (String u (String h1 (String h2 (String h3 (String h4 _))))) =>
      if Ascii.eqb e backslash && Ascii.eqb u "u" then
        match hexval h1, hexval h2, hexval h3, hexval h4 with
        | Some d1, Some d2, Some d3, Some d4 =>
            ((d1 * 16 + d2) * 16 + d3) * 16 + d4
        | _, _, _, _ => -1
        end
      else -1
  | _ => -1
  end.

Definition tail4 (s : string) : string := tail (tail (tail (tail s))).

Definition cons_byte (c : ascii) (r : option string) : option string :=
  String c <$> r.

Definition prepend (p : string) (r : option string) : option string :=
  String.append p <$> r.

(** [unquoteBytes] on the bytes between the quotes: escapes are replaced
    and the text is coerced to well-formed UTF-8; [None] is the result
    [ok = false].  (The library first looks for a prefix that needs no
    change and copies it; the result is the same.) *)
Fixpoint unquote (s : string) : option string :=
  match s with
  | EmptyString => Some EmptyString
  | String c rest =>
      if Ascii.eqb c backslash then
        match rest with
        | EmptyString => None
        | String e rest1 =>
            if Ascii.eqb e dquote || Ascii.eqb e backslash || Ascii.eqb e "/"
               || Ascii.eqb e "'"
            then cons_byte e (unquote rest1)
            else if Ascii.eqb e "b" then cons_byte (chr 8) (unquote rest1)
            else if Ascii.eqb e "f" then cons_byte (chr 12) (unquote rest1)
            else if Ascii.eqb e "n" then cons_byte (chr 10) (unquote rest1)
            else if Ascii.eqb e "r" then cons_byte (chr 13) (unquote rest1)
            else if Ascii.eqb e "t" then cons_byte (chr 9) (unquote rest1)
            else if Ascii.eqb e "u" then
              let rr := getu4 s in
              if rr <? 0 then None
              else
                let rest6 := tail4 rest1 in
                if utf16.IsSurrogate rr then
                  let dec := utf16.DecodeRune rr (getu4 rest6) in
                  if negb (dec =? utf8.RuneError)
                  then prepend (utf8.EncodeRune dec)
                         (unquote (tail (tail (tail4 rest6))))
                  else prepend (utf8.EncodeRune utf8.RuneError) (unquote rest6)
                else prepend (utf8.EncodeRune rr) (unquote rest6)
            else None
        end
      else if Ascii.eqb c dquote || (code c <? 32) then None
      else if code c <? utf8.RuneSelf then cons_byte c (unquote rest)
      else
        let '(rr, size) := utf8.DecodeRune s in
        prepend (utf8.EncodeRune rr) (unquote (after_rune size rest))
  end.

(** [foldName]: the key under which names are compared when no field has
    exactly the name read.  ASCII letters are put in upper case; a rune
    outside ASCII is replaced by the least rune of its simple case-folding
    orbit.  Every name of this package's tags is ASCII, so only the runes
    that fold into ASCII matter: U+017F (long s) folds to S and U+212A
    (Kelvin sign) to K; any other rune outside ASCII is kept, which keeps
    the folded key apart from every ASCII name. *)
Fixpoint foldName (s : string) : string :=
  match s with
  | EmptyString => EmptyString
  | String c rest =>
      let b := code c in
      if b <? utf8.RuneSelf then
        String (if (97 <=? b) && (b <=? 122) then chr (b - 32) else c)
               (foldName rest)
      else
        let '(r, size) := utf8.DecodeRune s in
        if r =? 383 then String "S" (foldName (after_rune size rest))
        else if r =? 8490 then String "K" (foldName (after_rune size rest))
        else utf8.EncodeRune r +:+ foldName (after_rune size rest)
  end.

(** Decoding a value into a variable of type [A]: the variable's new
    content and the error saved, if any.  The decoder goes on after a type
    error and reports the first one at the end ([saveError]). *)
Definition store (A : Type) : Type := node -> A -> A * option error.

Definition saveError (saved new : option error) : option error :=
  match saved with
  | Some _ => saved
  | None => new
  end.

(** The [Value] of the [UnmarshalTypeError] for a value that cannot be
    stored in a variable of the kind at hand (never asked for [null], which
    every kind takes). *)
Definition mismatch (n : node) : error :=
  match n with
  | JNull => UnmarshalTypeError "null"
  | JBool _ => UnmarshalTypeError "bool"
  | JNumber _ => UnmarshalTypeError "number"
  | JString _ => UnmarshalTypeError "string"
  | JArray _ => UnmarshalTypeError "array"
  | JObject _ => UnmarshalTypeError "object"
  end.

(** [literalStore] and [d.array], [d.object] for a [string] variable. *)
Definition storeString : store string :=
  fun n v =>
    match n with
    | JNull => (v, None)
    | JString l =>
        match unquote l with
        | Some s => (s, None)
        | None => (v, Some PhasePanic)
        end
    | _ => (v, Some (mismatch n))
    end.

Definition storeBool : store bool :=
  fun n v =>
    match n with
    | JNull => (v, None)
    | JBool b => (b, None)
    | _ => (v, Some (mismatch n))
    end.

(** For an [int] variable: the literal must pass [strconv.ParseInt(_, 10, 64)]. *)
Definition storeInt : store Z :=
  fun n v =>
    match n with
    | JNull => (v, None)
    | JNumber l =>
        match strconv.ParseInt l with
        | Some i => (i, None)
        | None => (v, Some (UnmarshalTypeError ("number " +:+ l)))
        end
    | _ => (v, Some (mismatch n))
    end.

(** A struct field as the decoder sees it: its name and how a value is
    stored in that field of a struct of type [S]. *)
Record dfield (S : Type) : Type := DField {
  dname : string;
  dstore : store S
}.
Arguments DField {S} _ _.
Arguments dname {S} _.
Arguments dstore {S} _.

(** The field for a key: the one with exactly that name, or else the first
    whose name is the same after case folding. *)
Definition findField {S : Type} (fields : list (dfield S)) (key : string)
  : option (dfield S) :=
  match List.find (fun f => String.eqb (dname f) key) fields with
  | Some f => Some f
  | None =>
      List.find (fun f => String.eqb (foldName (dname f)) (foldName key)) fields
  end.

(** [d.object]'s loop for a struct. *)
Fixpoint storeMembers {S : Type} (fields : list (dfield S))
    (ms : list (string * node)) (v : S) (saved : option error) : S * option error :=
  match ms with
  | [] => (v, saved)
  | (k, n) :: ms' =>
      match unquote k with
      | None => (v, saveError saved (Some PhasePanic))
      | Some key =>
          match findField fields key with
          | Some f =>
              let '(v', e) := dstore f n v in
              storeMembers fields ms' v' (saveError saved e)
          | None => storeMembers fields ms' v saved
          end
      end
  end.

Definition storeStruct {S : Type} (fields : list (dfield S)) : store S :=
  fun n v =>
    match n with
    | JNull => (v, None)
    | JObject ms => storeMembers fields ms v None
    | _ => (v, Some (mismatch n))
    end.

(** [d.array]'s loop for a slice: element [i] of the input is stored in
    element [i] of the slice, which is the zero value where the slice had
    to grow. *)
Fixpoint storeElems {A : Type} (zero : A) (elem : store A)
    (es : list node) (old : list A) (saved : option error)
  : list A * option error :=
  match es with
  | [] => ([], saved)
  | n :: es' =>
      let '(x, e) := elem n (List.hd zero old) in
      let '(xs, saved') :=
        storeElems zero elem es' (List.tl old) (saveError saved e) in
      (x :: xs, saved')
  end.

Definition storeSlice {A : Type} (zero : A) (elem : store A)
  : store (option (list A)) :=
  fun n v =>
    match n with
    | JNull => (None, None)
    | JArray es =>
        let '(xs, e) := storeElems zero elem es (default [] v) None in
        (Some xs, e)
    | _ => (v, Some (mismatch n))
    end.

(** [d.object]'s loop for a [map[string]A]: every member is decoded into
    a fresh zero element, which is then put in the map under its key. *)
Fixpoint storeEntries {A : Type} (zero : A) (elem : store A)
    (ms : list (string * node)) (m : gmap string A) (saved : option error)
  : gmap string A * option error :=
  match ms with
  | [] => (m, saved)
  | (k, n) :: ms' =>
      match unquote k with
      | None => (m, saveError saved (Some PhasePanic))
      | Some key =>
          let '(x, e) := elem n zero in
          storeEntries zero elem ms' (<[key := x]> m) (saveError saved e)
      end
  end.

Definition storeMap {A : Type} (zero : A) (elem : store A)
  : store (option (gmap string A)) :=
  fun n v =>
    match n with
    | JNull => (None, None)
    | JObject ms =>
        let '(m, e) := storeEntries zero elem ms (default ∅ v) None in
        (Some m, e)
    | _ => (v, Some (mismatch n))
    end.

(** [json.Unmarshal(data, &v)]: the content of [v] afterwards and the error
    returned.  Invalid input leaves [v] as it was. *)
Definition Unmarshal {A : Type} (st : store A) (data : string) (v : A)
  : A * option error :=
  match checkValid data with
  | None => (v, Some SyntaxError)
  | Some n => st n v
  end.

End json.

(** ** net/http and io, as far as [post] uses them *)

Module http.

Record Request : Type := mkRequest {
  Method : string;
  URL : string;
  Header : list (string * string);
  Body : string
}.

(** A response: its status code and what [io.ReadAll] gives for its body
    (the bytes read, and the error that ended the reading, if any). *)
Record Response : Type := mkResponse {
  StatusCode : Z;
  ReadAll : string * option error
}.

(** [Header.Set]: the value replaces those stored under the key. *)
Definition Header_Set (req : Request) (k v : string) : Request :=
  mkRequest (Method req) (URL req)
    ((k, v) :: List.filter (fun kv => negb (String.eqb (fst kv) k)) (Header req))
    (Body req).

End http.

(** ** The client (src/jap.go) *)

(** JAPClient is a client for the JustAnotherPanel API. *)
Record JAPClient : Type := mkJAPClient {
  key : string;
  endpoint : string
}.

(** New creates a new JAPClient with the given API key. *)
Definition New (key : string) : JAPClient :=
  {| key := key; endpoint := "https://justanotherpanel.com/api/v2" |}.

(** Service represents the structure of each service in the API response. *)
Record Service : Type := mkService {
  Service_Service : string;
  Service_Name : string;
  Service_Type : string;
  Service_Category : string;
  Service_Rate : string;
  Service_Min : string;
  Service_Max : string;
  Service_Refill : bool;
  Service_Cancel : bool
}.

(** OrderStatus details for an order. *)
Record OrderStatus : Type := mkOrderStatus {
  OrderStatus_Charge : string;
  OrderStatus_StartCount : string;
  OrderStatus_Status : string;
  OrderStatus_Remains : string;
  OrderStatus_Currency : string;
  OrderStatus_Error : string
}.

(** OrderStatusResponse: the reply to the order status request. *)
Record OrderStatusResponse : Type := mkOrderStatusResponse {
  OrderStatusResponse_OrderStatus : option (gmap string OrderStatus)
}.

(** UserBalanceResponse: the reply to the user balance request. *)
Record UserBalanceResponse : Type := mkUserBalanceResponse {
  UserBalanceResponse_Balance : string;
  UserBalanceResponse_Currency : string
}.

(** The struct that AddOrder decodes its reply into. *)
Record orderResponse : Type := mkOrderResponse {
  OrderID : Z
}.

(** Zero values. *)
Definition Service_zero : Service :=
  mkService EmptyString EmptyString EmptyString EmptyString EmptyString
    EmptyString EmptyString false false.
Definition OrderStatus_zero : OrderStatus :=
  mkOrderStatus EmptyString EmptyString EmptyString EmptyString EmptyString
    EmptyString.
Definition OrderStatusResponse_zero : OrderStatusResponse :=
  mkOrderStatusResponse None.
Definition UserBalanceResponse_zero : UserBalanceResponse :=
  mkUserBalanceResponse EmptyString EmptyString.
Definition orderResponse_zero : orderResponse := mkOrderResponse 0.

(** The decoder's view of a struct field of type [A] in a struct [S]: the
    name from its [json] tag, and the field read and written in place. *)
Definition fieldOf {S A : Type} (name : string) (get : S -> A)
    (set : A -> S -> S) (st : json.store A) : json.dfield S :=
  json.DField name
    (fun n v => let '(x, e) := st n (get v) in (set x v, e)).

Definition Service_fields : list (json.dfield Service) :=
  [ fieldOf "service" Service_Service
      (fun x v => mkService x (Service_Name v) (Service_Type v)
         (Service_Category v) (Service_Rate v) (Service_Min v) (Service_Max v)
         (Service_Refill v) (Service_Cancel v)) json.storeString;
    fieldOf "name" Service_Name
      (fun x v => mkService (Service_Service v) x (Service_Type v)
         (Service_Category v) (Service_Rate v) (Service_Min v) (Service_Max v)
         (Service_Refill v) (Service_Cancel v)) json.storeString;
    fieldOf "type" Service_Type
      (fun x v => mkService (Service_Service v) (Service_Name v) x
         (Service_Category v) (Service_Rate v) (Service_Min v) (Service_Max v)
         (Service_Refill v) (Service_Cancel v)) json.storeString;
    fieldOf "category" Service_Category
      (fun x v => mkService (Service_Service v) (Service_Name v) (Service_Type v)
         x (Service_Rate v) (Service_Min v) (Service_Max v)
         (Service_Refill v) (Service_Cancel v)) json.storeString;
    fieldOf "rate" Service_Rate
      (fun x v => mkService (Service_Service v) (Service_Name v) (Service_Type v)
         (Service_Category v) x (Service_Min v) (Service_Max v)
         (Service_Refill v) (Service_Cancel v)) json.storeString;
    fieldOf "min" Service_Min
      (fun x v => mkService (Service_Service v) (Service_Name v) (Service_Type v)
         (Service_Category v) (Service_Rate v) x (Service_Max v)
         (Service_Refill v) (Service_Cancel v)) json.storeString;
    fieldOf "max" Service_Max
      (fun x v => mkService (Service_Service v) (Service_Name v) (Service_Type v)
         (Service_Category v) (Service_Rate v) (Service_Min v) x
         (Service_Refill v) (Service_Cancel v)) json.storeString;
    fieldOf "refill" Service_Refill
      (fun x v => mkService (Service_Service v) (Service_Name v) (Service_Type v)
         (Service_Category v) (Service_Rate v) (Service_Min v) (Service_Max v)
         x (Service_Cancel v)) json.storeBool;
    fieldOf "cancel" Service_Cancel
      (fun x v => mkService (Service_Service v) (Service_Name v) (Service_Type v)
         (Service_Category v) (Service_Rate v) (Service_Min v) (Service_Max v)
         (Service_Refill v) x) json.storeBool ].

Definition OrderStatus_fields : list (json.dfield OrderStatus) :=
  [ fieldOf "charge" OrderStatus_Charge
      (fun x v => mkOrderStatus x (OrderStatus_StartCount v) (OrderStatus_Status v)
         (OrderStatus_Remains v) (OrderStatus_Currency v) (OrderStatus_Error v))
      json.storeString;
    fieldOf "start_count" OrderStatus_StartCount
      (fun x v => mkOrderStatus (OrderStatus_Charge v) x (OrderStatus_Status v)
         (OrderStatus_Remains v) (OrderStatus_Currency v) (OrderStatus_Error v))
      json.storeString;
    fieldOf "status" OrderStatus_Status
      (fun x v => mkOrderStatus (OrderStatus_Charge v) (OrderStatus_StartCount v) x
         (OrderStatus_Remains v) (OrderStatus_Currency v) (OrderStatus_Error v))
      json.storeString;
    fieldOf "remains" OrderStatus_Remains
      (fun x v => mkOrderStatus (OrderStatus_Charge v) (OrderStatus_StartCount v)
         (OrderStatus_Status v) x (OrderStatus_Currency v) (OrderStatus_Error v))
      json.storeString;
    fieldOf "currency" OrderStatus_Currency
      (fun x v => mkOrderStatus (OrderStatus_Charge v) (OrderStatus_StartCount v)
         (OrderStatus_Status v) (OrderStatus_Remains v) x (OrderStatus_Error v))
      json.storeString;
    fieldOf "error" OrderStatus_Error
      (fun x v => mkOrderStatus (OrderStatus_Charge v) (OrderStatus_StartCount v)
         (OrderStatus_Status v) (OrderStatus_Remains v) (OrderStatus_Currency v) x)
      json.storeString ].

Definition OrderStatusResponse_fields : list (json.dfield OrderStatusResponse) :=
  [ fieldOf "orderStatus" OrderStatusResponse_OrderStatus
      (fun x _ => mkOrderStatusResponse x)
      (json.storeMap OrderStatus_zero (json.storeStruct OrderStatus_fields)) ].

Definition UserBalanceResponse_fields : list (json.dfield UserBalanceResponse) :=
  [ fieldOf "balance" UserBalanceResponse_Balance
      (fun x v => mkUserBalanceResponse x (UserBalanceResponse_Currency v))
      json.storeString;
    fieldOf "currency" UserBalanceResponse_Currency
      (fun x v => mkUserBalanceResponse (UserBalanceResponse_Balance v) x)
      json.storeString ].

Definition orderResponse_fields : list (json.dfield orderResponse) :=
  [ fieldOf "order" OrderID (fun x _ => mkOrderResponse x) json.storeInt ].

(** The request structs, as the encoder sees them: the fields in order,
    each with the name and the [omitempty] option of its [json] tag. *)

(** The [body] of ListServices. *)
Definition servicesBody (c : JAPClient) : list json.field :=
  [ json.Field "key" false (json.VString (key c));
    json.Field "action" false (json.VString "services") ].

(** The [orderRequest] of AddOrder. *)
Definition orderRequest (c : JAPClient) (service link : string) (quantity : Z)
    (runs interval : option Z) : list json.field :=
  [ json.Field "key" false (json.VString (key c));
    json.Field "action" false (json.VString "add");
    json.Field "service" false (json.VString service);
    json.Field "link" false (json.VString link);
    json.Field "quantity" false (json.VInt quantity);
    json.Field "runs" true (json.VPtrInt runs);
    json.Field "interval" true (json.VPtrInt interval) ].

(** The [body] of GetOrderStatus. *)
Definition statusBody (c : JAPClient) (orderID : string) : list json.field :=
  [ json.Field "key" false (json.VString (key c));
    json.Field "action" false (json.VString "status");
    json.Field "order" false (json.VString orderID) ].

(** The [body] of GetUserBalance. *)
Definition balanceBody (c : JAPClient) : list json.field :=
  [ json.Field "key" false (json.VString (key c));
    json.Field "action" false (json.VString "balance") ].

(** What a call can touch: the JAPClient its receiver points to, and the
    network, of which the requests handed to the transport are recorded. *)
Record World : Type := mkWorld {
  client : JAPClient;
  sent : list http.Request
}.

Section Client.

(** The environment: the error of [url.Parse] on a URL ([None] when it
    parses), and what [http.Client.Do] returns for a request. *)
Variable url_Parse : string -> option error.
Variable Do : http.Request -> error + http.Response.

(** [http.NewRequest]; the method is always POST, which is valid, so only
    the URL can make it fail. *)
Definition NewRequest (method url body : string) : error + http.Request :=
  match url_Parse url with
  | Some e => inl e
  | None => inr (http.mkRequest method url [] body)
  end.

(** post is a helper method to perform POST requests for the JAPClient.
    The byte slice returned with an error is nil (here: empty). *)
Definition post (body : list json.field) (w : World)
  : (string * option error) * World :=
  let c := client w in
  let '(bodyJSON, err) := json.Marshal body in
  match err with
  | Some e => ((EmptyString, Some e), w)
  | None =>
      match NewRequest "POST" (endpoint c) bodyJSON with
      | inl e => ((EmptyString, Some e), w)
      | inr req =>
          let req := http.Header_Set req "Content-Type" "application/json" in
          let w := mkWorld (client w) (sent w ++ [req]) in
          match Do req with
          | inl e => ((EmptyString, Some e), w)
          | inr resp =>
              match http.ReadAll resp with
              | (_, Some e) => ((EmptyString, Some e), w)
              | (responseBody, None) => ((responseBody, None), w)
              end
          end
      end
  end.

(** ListServices retrieves the list of services from the API. *)
Definition ListServices (w : World)
  : (option (list Service) * option error) * World :=
  let c := client w in
  let body := servicesBody c in
  let '((bytes, err), w) := post body w in
  match err with
  | Some e => ((None, Some e), w)
  | None =>
      let '(response, err) :=
        json.Unmarshal
          (json.storeSlice Service_zero (json.storeStruct Service_fields))
          bytes None in
      match err with
      | Some e => ((None, Some e), w)
      | None => ((response, None), w)
      end
  end.

(** AddOrder adds an order with the given parameters and returns the order
    ID as a string. *)
Definition AddOrder (service link : string) (quantity : Z)
    (runs interval : option Z) (w : World)
  : (string * option error) * World :=
  let c := client w in
  let orderRequest := orderRequest c service link quantity runs interval in
  let '((bytes, err), w) := post orderRequest w in
  match err with
  | Some e => ((EmptyString, Some e), w)
  | None =>
      let '(response, err) :=
        json.Unmarshal (json.storeStruct orderResponse_fields)
          bytes orderResponse_zero in
      match err with
      | Some e => ((EmptyString, Some e), w)
      | None => ((strconv.Itoa (OrderID response), None), w)
      end
  end.

(** GetOrderStatus checks the status of an order with the given order ID
    and returns the status. *)
Definition GetOrderStatus (orderID : string) (w : World)
  : (OrderStatusResponse * option error) * World :=
  let c := client w in
  let body := statusBody c orderID in
  let '((bytes, err), w) := post body w in
  match err with
  | Some e => ((OrderStatusResponse_zero, Some e), w)
  | None =>
      let '(response, err) :=
        json.Unmarshal (json.storeStruct OrderStatusResponse_fields)
          bytes OrderStatusResponse_zero in
      match err with
      | Some e => ((OrderStatusResponse_zero, Some e), w)
      | None => ((response, None), w)
      end
  end.

(** GetUserBalance retrieves the user's balance from the API. *)
Definition GetUserBalance (w : World)
  : (UserBalanceResponse * option error) * World :=
  let c := client w in
  let body := balanceBody c in
  let '((bytes, err), w) := post body w in
  match err with
  | Some e => ((UserBalanceResponse_zero, Some e), w)
  | None =>
      let '(response, err) :=
        json.Unmarshal (json.storeStruct UserBalanceResponse_fields)
          bytes UserBalanceResponse_zero in
      match err with
      | Some e => ((UserBalanceResponse_zero, Some e), w)
      | None => ((response, None), w)
      end
  end.

Definition RedditUpvote (link : string) (quantity : Z) (w : World)
  : (string * option error) * World :=
  AddOrder "6228" link quantity None None w.

End Client.

(** * Properties of the client *)

(** The request that [post] hands to the transport for a payload. *)
Definition requestOf (c : JAPClient) (payload : string) : http.Request :=
  http.mkRequest "POST" (endpoint c)
    [("Content-Type", "application/json")] payload.

(** The requests a call adds to the network: none when [url.Parse] rejects
    the endpoint, else the one request that carries the payload. *)
Definition requestsFor (url_Parse : string -> option error) (c : JAPClient)
    (payload : string) : list http.Request :=
  match url_Parse (endpoint c) with
  | Some _ => []
  | None => [requestOf c payload]
  end.

(** The scanner inside a string literal, on the step alone: the step after
    byte [c], [None] when [c] closes the literal or is refused. *)
Definition inString_next (st : json.stepfn) (c : ascii) : option json.stepfn :=
  match st with
  | json.stateInString =>
      if Ascii.eqb c dquote then None
      else if Ascii.eqb c backslash then Some json.stateInStringEsc
      else if code c <? 32 then None
      else Some json.stateInString
  | json.stateInStringEsc =>
      if Ascii.eqb c "b" || Ascii.eqb c "f" || Ascii.eqb c "n" || Ascii.eqb c "r"
         || Ascii.eqb c "t" || Ascii.eqb c backslash || Ascii.eqb c "/"
         || Ascii.eqb c dquote
      then Some json.stateInString
      else if Ascii.eqb c "u" then Some json.stateInStringEscU
      else None
  | json.stateInStringEscU =>
      if json.isHex c then Some json.stateInStringEscU1 else None
  | json.stateInStringEscU1 =>
      if json.isHex c then Some json.stateInStringEscU12 else None
  | json.stateInStringEscU12 =>
      if json.isHex c then Some json.stateInStringEscU123 else None
  | json.stateInStringEscU123 =>
      if json.isHex c then Some json.stateInString else None
  | _ => None
  end.

Fixpoint inString_run (st : json.stepfn) (s : string) : option json.stepfn :=
  match s with
  | EmptyString => Some st
  | String c s' =>
      match inString_next st c with
      | Some st' => inString_run st' s'
      | None => None
      end
  end.

(** The bytes between the quotes of a string literal that the scanner
    accepts: they take it from [stateInString] back to [stateInString]. *)
Definition literalBody (s : string) : Prop :=
  inString_run json.stateInString s = Some json.stateInString.

Fixpoint allDigits (s : string) : bool :=
  match s with
  | EmptyString => true
  | String c s' => strconv.isDigit c && allDigits s'
  end.

(** The range of Go's [int] on the 64-bit platforms. *)
Definition int64 (i : Z) : Prop := - 2 ^ 63 <= i < 2 ^ 63.

(** The syntax tree of what the encoder writes for a value, the fields
    that [omitempty] keeps, and the members they make. *)
Definition nodeOf (v : json.value) : json.node :=
  match v with
  | json.VString s => json.JString (json.appendString_loop s)
  | json.VInt i => json.JNumber (strconv.FormatInt i)
  | json.VPtrInt None => json.JNull
  | json.VPtrInt (Some i) => json.JNumber (strconv.FormatInt i)
  end.

Definition keptField (f : json.field) : bool :=
  negb (json.omitEmpty f && json.isEmptyValue (json.fv f)).

Definition membersOf (fs : list json.field) : list (string * json.node) :=
  List.map (fun f => (json.name f, nodeOf (json.fv f))) (List.filter keptField fs).

(** The scanner is inside a top-level object of which the members [ms] are
    read: byte [next] makes it wait for the next key, and, once a member is
    read, a closing brace ends the object. *)
Definition awaits (s : json.scanner) (next : ascii)
    (ms : list (string * json.node)) : Prop :=
  (exists st,
      (st = json.stateBeginString \/ st = json.stateBeginStringOrEmpty) /\
      json.step_byte s next
      = json.Scanner st [json.parseObjectKey ms] EmptyString None) /\
  (next = ","%char ->
   json.step_byte s "}"
   = json.Scanner json.stateEndTop [] EmptyString (Some (json.JObject ms))).

(** An object has a member for the field [name] of a struct: a key that,
    once unquoted, is that name or the same after case folding. *)
Definition hasField (name : string) (ms : list (string * json.node)) : bool :=
  existsb
    (fun km =>
       match json.unquote (fst km) with
       | Some k =>
           String.eqb name k
           || String.eqb (json.foldName name) (json.foldName k)
       | None => false
       end) ms.

(** The response body of the listing example. *)
Definition cannedServices : string :=
  jtext "[{'service':'1','name':'Test','type':'Default','category':'Test','rate':'1.00','min':'10','max':'1000','refill':true,'cancel':false}]".

(** [Rune p r size]: the bytes [p] are the UTF-8 encoding, [size] bytes
    wide, of the rune [r] that [DecodeRune] accepts. *)
Inductive Rune : string -> Z -> Z -> Prop :=
| Rune2 (c0 c1 : ascii) (lo hi : Z) :
    utf8.first (code c0) = Some (2, lo, hi) ->
    lo <= code c1 <= hi ->
    Rune (String c0 (String c1 EmptyString))
      (Z.lor (Z.shiftl (Z.land (code c0) 31) 6) (Z.land (code c1) utf8.maskx)) 2
| Rune3 (c0 c1 c2 : ascii) (lo hi : Z) :
    utf8.first (code c0) = Some (3, lo, hi) ->
    lo <= code c1 <= hi ->
    utf8.locb <= code c2 <= utf8.hicb ->
    Rune (String c0 (String c1 (String c2 EmptyString)))
      (Z.lor (Z.lor (Z.shiftl (Z.land (code c0) 15) 12)
                    (Z.shiftl (Z.land (code c1) utf8.maskx) 6))
             (Z.land (code c2) utf8.maskx)) 3
| Rune4 (c0 c1 c2 c3 : ascii) (lo hi : Z) :
    utf8.first (code c0) = Some (4, lo, hi) ->
    lo <= code c1 <= hi ->
    utf8.locb <= code c2 <= utf8.hicb ->
    utf8.locb <= code c3 <= utf8.hicb ->
    Rune (String c0 (String c1 (String c2 (String c3 EmptyString))))
      (Z.lor (Z.lor (Z.lor (Z.shiftl (Z.land (code c0) 7) 18)
                           (Z.shiftl (Z.land (code c1) utf8.maskx) 12))
                    (Z.shiftl (Z.land (code c2) utf8.maskx) 6))
             (Z.land (code c3) utf8.maskx)) 4.

(** A syntax tree whose string literals and keys are all bodies of
    literals that the scanner accepts. *)
Fixpoint wfNode (n : json.node) : Prop :=
  match n with
  | json.JString l => literalBody l
  | json.JArray es =>
      (fix all (l : list json.node) : Prop :=
         match l with
         | [] => True
         | x :: l' => wfNode x /\ all l'
         end) es
  | json.JObject ms =>
      (fix all (l : list (string * json.node)) : Prop :=
         match l with
         | [] => True
         | km :: l' => (literalBody (fst km) /\ wfNode (snd km)) /\ all l'
         end) ms
  | _ => True
  end.

Definition wfMember (km : string * json.node) : Prop :=
  literalBody (fst km) /\ wfNode (snd km).

Definition wfFrame (f : json.frame) : Prop :=
  match f with
  | json.parseObjectKey ms => Forall wfMember ms
  | json.parseObjectValue ms k => Forall wfMember ms /\ literalBody k
  | json.parseArrayValue es => Forall wfNode es
  end.

Definition inStringStep (st : json.stepfn) : bool :=
  match st with
  | json.stateInString | json.stateInStringEsc | json.stateInStringEscU
  | json.stateInStringEscU1 | json.stateInStringEscU12
  | json.stateInStringEscU123 => true
  | _ => false
  end.

(** The invariant of the scanner: what it has read is well formed, and
    inside a string literal the bytes read so far lead to its step. *)
Definition scanInv (s : json.scanner) : Prop :=
  Forall wfFrame (json.parseState s)
  /\ (forall v, json.val s = Some v -> wfNode v)
  /\ (inStringStep (json.step s) = true ->
      inString_run json.stateInString (json.lit s) = Some (json.step s)).

(** A decoder that never finds the decoder "out of sync" on input that
    the scanner accepted. *)
Definition noPanic {A : Type} (st : json.store A) : Prop :=
  forall n v, wfNode n -> snd (st n v) <> Some PhasePanic.

(** The reply structs as the encoder sees them (a server written in Go
    that answers with these types would encode them so). *)
Definition UserBalanceResponse_encode (r : UserBalanceResponse) : list json.field :=
  [ json.Field "balance" false (json.VString (UserBalanceResponse_Balance r));
    json.Field "currency" false (json.VString (UserBalanceResponse_Currency r)) ].

Definition OrderStatus_encode (st : OrderStatus) : list json.field :=
  [ json.Field "charge" true (json.VString (OrderStatus_Charge st));
    json.Field "start_count" true (json.VString (OrderStatus_StartCount st));
    json.Field "status" true (json.VString (OrderStatus_Status st));
    json.Field "remains" true (json.VString (OrderStatus_Remains st));
    json.Field "currency" true (json.VString (OrderStatus_Currency st));
    json.Field "error" true (json.VString (OrderStatus_Error st)) ].

(** [awaits] inside the values on [stack]: closing the object gives it to
    the value that encloses it. *)
Definition awaitsIn (stack : list json.frame) (s : json.scanner) (next : ascii)
    (ms : list (string * json.node)) : Prop :=
  (exists st,
      (st = json.stateBeginString \/ st = json.stateBeginStringOrEmpty) /\
      json.step_byte s next
      = json.Scanner st (json.parseObjectKey ms :: stack) EmptyString None) /\
  (next = ","%char ->
   json.step_byte s "}" = json.popParseState stack (json.JObject ms)).

(** The syntax tree of a Service in a listing: the nine members in the
    order of the fields, texts as the string encoder writes them. *)
Definition serviceNode (s : Service) : json.node :=
  json.JObject
    [ ("service", json.JString (json.appendString_loop (Service_Service s)));
      ("name", json.JString (json.appendString_loop (Service_Name s)));
      ("type", json.JString (json.appendString_loop (Service_Type s)));
      ("category", json.JString (json.appendString_loop (Service_Category s)));
      ("rate", json.JString (json.appendString_loop (Service_Rate s)));
      ("min", json.JString (json.appendString_loop (Service_Min s)));
      ("max", json.JString (json.appendString_loop (Service_Max s)));
      ("refill", json.JBool (Service_Refill s));
      ("cancel", json.JBool (Service_Cancel s)) ].

Definition Service_valid (s : Service) : bool :=
  utf8.ValidString (Service_Service s) && utf8.ValidString (Service_Name s)
  && utf8.ValidString (Service_Type s) && utf8.ValidString (Service_Category s)
  && utf8.ValidString (Service_Rate s) && utf8.ValidString (Service_Min s)
  && utf8.ValidString (Service_Max s).

Definition OrderStatus_valid (st : OrderStatus) : bool :=
  utf8.ValidString (OrderStatus_Charge st)
  && utf8.ValidString (OrderStatus_StartCount st)
  && utf8.ValidString (OrderStatus_Status st)
  && utf8.ValidString (OrderStatus_Remains st)
  && utf8.ValidString (OrderStatus_Currency st)
  && utf8.ValidString (OrderStatus_Error st).

(** The reply of the panel for one order, as [json.Marshal] writes an
    OrderStatusResponse whose map has the one entry [id]. *)
Definition orderStatusReply (id : string) (st : OrderStatus) : string :=
  jtext "{'orderStatus':{" +:+ json.appendString id +:+ ":"
  +:+ json.structEncoder (OrderStatus_encode st) +:+ "}}".

(** Every key and every string literal of a syntax tree, at any depth,
    is one that [unquoteBytes] accepts. *)
Fixpoint unquotable (n : json.node) : Prop :=
  match n with
  | json.JString l => is_Some (json.unquote l)
  | json.JArray es =>
      (fix all (l : list json.node) : Prop :=
         match l with
         | [] => True
         | x :: l' => unquotable x /\ all l'
         end) es
  | json.JObject ms =>
      (fix all (l : list (string * json.node)) : Prop :=
         match l with
         | [] => True
         | km :: l' => (is_Some (json.unquote (fst km)) /\ unquotable (snd km)) /\ all l'
         end) ms
  | _ => True
  end.

Section PostFacts.

Variable url_Parse : string -> option error.
Variable Do : http.Request -> error + http.Response.

Lemma post_unfold (body : list json.field) (w : World) :
  post url_Parse Do body w =
    match url_Parse (endpoint (client w)) with
    | Some e => ((EmptyString, Some e), w)
    | None =>
        let req := requestOf (client w) (json.structEncoder body) in
        let w' := mkWorld (client w) (sent w ++ [req]) in
        match Do req with
        | inl e => ((EmptyString, Some e), w')
        | inr resp =>
            match http.ReadAll resp with
            | (_, Some e) => ((EmptyString, Some e), w')
            | (b, None) => ((b, None), w')
            end
        end
    end.
Proof.
  unfold post, NewRequest, json.Marshal.
  destruct (url_Parse (endpoint (client w))); reflexivity.
Qed.

(** [post] never writes to the client. *)
Lemma post_client (body : list json.field) (w : World) :
  client (snd (post url_Parse Do body w)) = client w.
Proof.
  rewrite post_unfold.
  destruct (url_Parse _); [reflexivity|]. cbv zeta.
  destruct (Do _) as [e|resp]; [reflexivity|].
  destruct (http.ReadAll resp) as [b [e|]]; reflexivity.
Qed.

(** What [post] adds to the network depends on the endpoint and the
    payload only. *)
Lemma post_sent (body : list json.field) (w : World) :
  sent (snd (post url_Parse Do body w)) =
    sent w ++ requestsFor url_Parse (client w) (json.structEncoder body).
Proof.
  rewrite post_unfold. unfold requestsFor.
  destruct (url_Parse _); [simpl; by rewrite app_nil_r|]. cbv zeta.
  destruct (Do _) as [e|resp]; [reflexivity|].
  destruct (http.ReadAll resp) as [b [e|]]; reflexivity.
Qed.

(** Each method leaves the world as its one call of [post] leaves it. *)
Lemma ListServices_world (w : World) :
  snd (ListServices url_Parse Do w) =
    snd (post url_Parse Do (servicesBody (client w)) w).
Proof.
  unfold ListServices.
  destruct (post _ _ _ w) as [[b [e|]] w']; [reflexivity|].
  destruct (json.Unmarshal _ b None) as [r [e|]]; reflexivity.
Qed.

Lemma AddOrder_world (service link : string) (quantity : Z)
    (runs interval : option Z) (w : World) :
  snd (AddOrder url_Parse Do service link quantity runs interval w) =
    snd (post url_Parse Do
           (orderRequest (client w) service link quantity runs interval) w).
Proof.
  unfold AddOrder.
  destruct (post _ _ _ w) as [[b [e|]] w']; [reflexivity|].
  destruct (json.Unmarshal _ b _) as [r [e|]]; reflexivity.
Qed.

Lemma GetOrderStatus_world (orderID : string) (w : World) :
  snd (GetOrderStatus url_Parse Do orderID w) =
    snd (post url_Parse Do (statusBody (client w) orderID) w).
Proof.
  unfold GetOrderStatus.
  destruct (post _ _ _ w) as [[b [e|]] w']; [reflexivity|].
  destruct (json.Unmarshal _ b _) as [r [e|]]; reflexivity.
Qed.

Lemma GetUserBalance_world (w : World) :
  snd (GetUserBalance url_Parse Do w) =
    snd (post url_Parse Do (balanceBody (client w)) w).
Proof.
  unfold GetUserBalance.
  destruct (post _ _ _ w) as [[b [e|]] w']; [reflexivity|].
  destruct (json.Unmarshal _ b _) as [r [e|]]; reflexivity.
Qed.

End PostFacts.

(** ** The scanner on what the encoder writes *)

Lemma append_nil_r (s : string) : s +:+ EmptyString = s.
Proof. induction s; simpl; congruence. Qed.

Lemma append_assoc (a b c : string) : (a +:+ b) +:+ c = a +:+ (b +:+ c).
Proof. induction a; simpl; congruence. Qed.

Lemma snoc_append (l : string) (c : ascii) (s : string) :
  json.snoc l c +:+ s = l +:+ String c s.
Proof. unfold json.snoc. by rewrite append_assoc. Qed.

Lemma scan_app (s : json.scanner) (a b : string) :
  json.scan s (a +:+ b) = json.scan (json.scan s a) b.
Proof. revert s; induction a as [|c a IH]; intros s; simpl; [reflexivity|apply IH]. Qed.

Lemma scan_cons (s : json.scanner) (c : ascii) (data : string) :
  json.scan s (String c data) = json.scan (json.step_byte s c) data.
Proof. reflexivity. Qed.

Lemma step_inString (st st' : json.stepfn) (c : ascii) stack l v :
  inString_next st c = Some st' ->
  json.step_byte (json.Scanner st stack l v) c
  = json.Scanner st' stack (json.snoc l c) v.
Proof.
  destruct st; try discriminate;
    unfold json.step_byte, inString_next, json.continue; simpl;
    repeat match goal with
    | |- context [if ?b then _ else _] => destruct b
    end; intros H; inversion H; reflexivity.
Qed.

Lemma scan_inString (chunk : string) :
  forall (st st' : json.stepfn) stack l v,
  inString_run st chunk = Some st' ->
  json.scan (json.Scanner st stack l v) chunk
  = json.Scanner st' stack (l +:+ chunk) v.
Proof.
  induction chunk as [|c chunk IH]; intros st st' stack l v H; simpl in *.
  - inversion H. by rewrite append_nil_r.
  - destruct (inString_next st c) as [st1|] eqn:E; [|discriminate].
    rewrite (step_inString _ _ _ _ _ _ E), (IH _ _ _ _ _ H).
    by rewrite snoc_append.
Qed.

Lemma inString_run_app (a b : string) (st : json.stepfn) :
  inString_run st (a +:+ b) =
    match inString_run st a with
    | Some st' => inString_run st' b
    | None => None
    end.
Proof.
  revert st; induction a as [|c a IH]; intros st; simpl; [reflexivity|].
  destruct (inString_next st c); [apply IH|reflexivity].
Qed.

Lemma literalBody_app (a b : string) :
  literalBody a -> literalBody b -> literalBody (a +:+ b).
Proof. unfold literalBody. intros Ha Hb. by rewrite inString_run_app, Ha. Qed.

Lemma first_spec (p0 sz lo hi : Z) :
  utf8.first p0 = Some (sz, lo, hi) ->
  (sz = 2 \/ sz = 3 \/ sz = 4) /\ 128 <= lo.
Proof.
  unfold utf8.first.
  repeat match goal with
  | |- context [if ?b then _ else _] => destruct b
  end; intros H; inversion H; subst; lia.
Qed.

(** A rune wider than one byte: the bytes after the leading one are all
    outside ASCII. *)
Lemma DecodeRune_wide (c0 : ascii) (rest : string) (r size : Z) :
  utf8.DecodeRune (String c0 rest) = (r, size) ->
  (code c0 <? utf8.RuneSelf) = false ->
  (r =? utf8.RuneError) && (size =? 1) = false ->
  (size = 2 /\ exists c1 t, rest = String c1 t /\ 128 <= code c1) \/
  (size = 3 /\ exists c1 c2 t, rest = String c1 (String c2 t)
      /\ 128 <= code c1 /\ 128 <= code c2) \/
  (size = 4 /\ exists c1 c2 c3 t, rest = String c1 (String c2 (String c3 t))
      /\ 128 <= code c1 /\ 128 <= code c2 /\ 128 <= code c3).
Proof.
  unfold utf8.DecodeRune. intros H Hc Hr. rewrite Hc in H.
  assert (Hbad : (r, size) = (utf8.RuneError, 1) -> False).
  { intros E. inversion E; subst. discriminate. }
  destruct (utf8.first (code c0)) as [[[sz lo] hi]|] eqn:F;
    [|exfalso; auto].
  destruct (first_spec _ _ _ _ F) as [Hsz Hlo].
  destruct (Z.of_nat _ <? sz); [exfalso; auto|].
  destruct rest as [|c1 p2]; [exfalso; auto|].
  destruct ((code c1 <? lo) || (hi <? code c1)) eqn:E1; [exfalso; auto|].
  apply orb_false_elim in E1 as [E1 _]. apply Z.ltb_ge in E1.
  destruct (sz <=? 2).
  { left. inversion H. split; [reflexivity|]. exists c1, p2. split; [reflexivity|lia]. }
  destruct p2 as [|c2 p3]; [exfalso; auto|].
  destruct ((code c2 <? utf8.locb) || (utf8.hicb <? code c2)) eqn:E2;
    [exfalso; auto|].
  apply orb_false_elim in E2 as [E2 _]. apply Z.ltb_ge in E2.
  unfold utf8.locb in E2.
  destruct (sz <=? 3).
  { right; left. inversion H. split; [reflexivity|].
    exists c1, c2, p3. repeat split; lia. }
  destruct p3 as [|c3 p4]; [exfalso; auto|].
  destruct ((code c3 <? utf8.locb) || (utf8.hicb <? code c3)) eqn:E3;
    [exfalso; auto|].
  apply orb_false_elim in E3 as [E3 _]. apply Z.ltb_ge in E3.
  unfold utf8.locb in E3.
  right; right. inversion H. split; [reflexivity|].
  exists c1, c2, c3, p4. repeat split; lia.
Qed.

Lemma code_dquote : code dquote = 34.
Proof. reflexivity. Qed.

Lemma code_backslash : code backslash = 92.
Proof. reflexivity. Qed.

(** A byte outside ASCII is taken as it is inside a string literal. *)
Lemma inString_next_wide (c : ascii) :
  128 <= code c ->
  inString_next json.stateInString c = Some json.stateInString.
Proof.
  intros H. unfold inString_next.
  destruct (Ascii.eqb_spec c dquote) as [->|_]; [rewrite code_dquote in H; lia|].
  destruct (Ascii.eqb_spec c backslash) as [->|_];
    [rewrite code_backslash in H; lia|].
  destruct (code c <? 32) eqn:E; [apply Z.ltb_lt in E; lia|reflexivity].
Qed.

(** The bytes of [htmlSafeSet] are taken as they are; any other ASCII byte
    is written as an escape that the scanner accepts. *)
Lemma inString_next_safe (c : ascii) :
  json.htmlSafeSet (code c) = true ->
  inString_next json.stateInString c = Some json.stateInString.
Proof.
  destruct c as [[] [] [] [] [] [] [] []]; vm_compute; congruence.
Qed.

Lemma literalBody_escapeByte (c : ascii) :
  (code c <? utf8.RuneSelf) = true ->
  json.htmlSafeSet (code c) = false ->
  literalBody (json.escapeByte (code c)).
Proof.
  unfold literalBody.
  destruct c as [[] [] [] [] [] [] [] []]; vm_compute; congruence.
Qed.

Lemma tail_length (s : string) : (String.length (tail s) <= String.length s)%nat.
Proof. destruct s; simpl; lia. Qed.

Lemma after_rune_length (size : Z) (s : string) :
  (String.length (after_rune size s) <= String.length s)%nat.
Proof.
  pose proof (tail_length s). pose proof (tail_length (tail s)).
  pose proof (tail_length (tail (tail s))).
  unfold after_rune. destruct size as [|[[|[]|]|[|[]|]|]|]; lia.
Qed.

Lemma appendString_loop_cons (c : ascii) (rest : string) :
  json.appendString_loop (String c rest) =
    let b := code c in
    if b <? utf8.RuneSelf then
      if json.htmlSafeSet b then String c (json.appendString_loop rest)
      else json.escapeByte b +:+ json.appendString_loop rest
    else
      let '(r, size) := utf8.DecodeRune (String c rest) in
      if (r =? utf8.RuneError) && (size =? 1) then
        String backslash "ufffd" +:+ json.appendString_loop rest
      else if (r =? 8232) || (r =? 8233) then
        String backslash "u202" +:+
        String (json.hex (Z.land r 15))
          (json.appendString_loop (after_rune size rest))
      else
        take (Z.to_nat size) (String c rest)
        +:+ json.appendString_loop (after_rune size rest).
Proof. reflexivity. Qed.

Lemma literalBody_cons (c : ascii) (s : string) :
  inString_next json.stateInString c = Some json.stateInString ->
  literalBody s -> literalBody (String c s).
Proof. unfold literalBody. simpl. by intros ->. Qed.

(** What [appendString] writes between the quotes is the body of a string
    literal for the scanner, whatever the bytes of the Go string. *)
Lemma literalBody_appendString_loop (src : string) :
  literalBody (json.appendString_loop src).
Proof.
  remember (S (String.length src)) as n eqn:Hn.
  assert (Hlt : (String.length src < n)%nat) by lia. clear Hn.
  revert src Hlt. induction n as [|n IH]; intros src Hlt; [lia|].
  destruct src as [|c rest]; [reflexivity|].
  rewrite appendString_loop_cons. cbv zeta. simpl in Hlt.
  assert (IHrest : literalBody (json.appendString_loop rest)) by (apply IH; lia).
  assert (IHafter : forall size,
    literalBody (json.appendString_loop (after_rune size rest))).
  { intros size. apply IH. pose proof (after_rune_length size rest). lia. }
  destruct (code c <? utf8.RuneSelf) eqn:Hc.
  - destruct (json.htmlSafeSet (code c)) eqn:Hs.
    + apply literalBody_cons; [by apply inString_next_safe|done].
    + apply literalBody_app; [by apply literalBody_escapeByte|done].
  - destruct (utf8.DecodeRune (String c rest)) as [r size] eqn:Hd.
    destruct ((r =? utf8.RuneError) && (size =? 1)) eqn:Hr.
    + apply (literalBody_app (String backslash "ufffd")); [reflexivity|done].
    + destruct ((r =? 8232) || (r =? 8233)) eqn:H2028.
      * apply (literalBody_app
                 (String backslash "u202" +:+
                  String (json.hex (Z.land r 15)) EmptyString)
                 (json.appendString_loop (after_rune size rest)));
          [|apply IHafter].
        apply orb_true_iff in H2028 as [E|E]; apply Z.eqb_eq in E; subst r;
          reflexivity.
      * apply literalBody_app; [|apply IHafter].
        assert (Hc0 : 128 <= code c).
        { apply Z.ltb_ge in Hc. exact Hc. }
        destruct (DecodeRune_wide _ _ _ _ Hd Hc Hr)
          as [[-> (c1 & t & -> & H1)]
             |[[-> (c1 & c2 & t & -> & H1 & H2)]
              |[-> (c1 & c2 & c3 & t & -> & H1 & H2 & H3)]]];
          simpl; repeat (apply literalBody_cons;
                         [by apply inString_next_wide|]); reflexivity.
Qed.

(** ** Decimal numbers: [strconv.FormatInt], the scanner and [strconv.ParseInt] *)

Lemma code_chr (z : Z) : 0 <= z < 256 -> code (chr z) = z.
Proof.
  intros H. unfold code, chr. rewrite N_ascii_embedding; lia.
Qed.

Lemma code_digit (d : Z) : 0 <= d < 10 -> code (strconv.digit d) = 48 + d.
Proof. intros H. unfold strconv.digit. apply code_chr. lia. Qed.

Lemma isDigit_digit (d : Z) : 0 <= d < 10 -> strconv.isDigit (strconv.digit d) = true.
Proof.
  intros H. unfold strconv.isDigit. rewrite code_digit by done.
  apply andb_true_iff; split; apply Z.leb_le; lia.
Qed.

Lemma is19_digit (d : Z) : 0 < d < 10 -> json.is19 (strconv.digit d) = true.
Proof.
  intros H. unfold json.is19. rewrite code_digit by lia.
  apply andb_true_iff; split; apply Z.leb_le; lia.
Qed.

Lemma formatBits_digits (fuel : nat) :
  forall u acc, 0 <= u -> allDigits acc = true ->
  allDigits (strconv.formatBits fuel u acc) = true.
Proof.
  induction fuel as [|fuel IH]; intros u acc Hu Hacc; simpl; [done|].
  assert (Hd : allDigits (String (strconv.digit (u mod 10)) acc) = true).
  { simpl. rewrite isDigit_digit, Hacc; [done|]. apply Z.mod_pos_bound. lia. }
  destruct (u <? 10); [exact Hd|].
  apply IH; [apply Z.div_pos; lia|exact Hd].
Qed.

(** With enough fuel the text of a positive number begins with a digit
    other than zero. *)
Lemma formatBits_head (fuel : nat) :
  forall u acc, 0 < u -> u < 10 ^ Z.of_nat fuel ->
  exists d ds, strconv.formatBits fuel u acc = String d ds /\ json.is19 d = true.
Proof.
  induction fuel as [|fuel IH]; intros u acc Hu Hlt.
  - simpl in Hlt. lia.
  - simpl. destruct (u <? 10) eqn:E.
    + apply Z.ltb_lt in E. eexists _, _. split; [reflexivity|].
      rewrite Z.mod_small by lia. apply is19_digit. lia.
    + apply Z.ltb_ge in E. apply IH.
      * apply Z.div_str_pos. lia.
      * apply Z.div_lt_upper_bound; [lia|].
        rewrite Nat2Z.inj_succ, Z.pow_succ_r in Hlt by lia. lia.
Qed.

Lemma FormatUint_fuel (u : Z) :
  0 < u -> u < 10 ^ Z.of_nat (S (Z.to_nat (Z.log2 u))).
Proof.
  intros Hu. pose proof (Z.log2_nonneg u) as Hl.
  rewrite Nat2Z.inj_succ, Z2Nat.id by done.
  destruct (Z.log2_spec u Hu) as [_ H2].
  eapply Z.lt_le_trans; [exact H2|].
  apply Z.pow_le_mono_l. lia.
Qed.

Lemma FormatUint_pos (u : Z) :
  0 < u ->
  exists d ds, strconv.FormatUint u = String d ds
    /\ json.is19 d = true /\ allDigits ds = true.
Proof.
  intros Hu. unfold strconv.FormatUint.
  destruct (formatBits_head _ u EmptyString Hu (FormatUint_fuel u Hu))
    as (d & ds & E & Hd).
  exists d, ds. split; [exact E|]. split; [exact Hd|].
  assert (H : allDigits (strconv.formatBits (S (Z.to_nat (Z.log2 u))) u "") = true)
    by (apply formatBits_digits; [lia|done]).
  rewrite E in H. simpl in H. apply andb_true_iff in H. tauto.
Qed.

Lemma is19_facts (c : ascii) :
  json.is19 c = true ->
  strconv.isDigit c = true /\ json.isSpace c = false
  /\ Ascii.eqb c "0" = false /\ Ascii.eqb c "+" = false
  /\ Ascii.eqb c "-" = false
  /\ forall s, json.stateBeginValue_step s c = json.beginLiteral json.state1 s c.
Proof.
  destruct c as [[] [] [] [] [] [] [] []]; vm_compute; try congruence;
    intros _; repeat split.
Qed.

Lemma scan_digits (ds : string) :
  allDigits ds = true ->
  forall stack l v,
  json.scan (json.Scanner json.state1 stack l v) ds
  = json.Scanner json.state1 stack (l +:+ ds) v.
Proof.
  induction ds as [|c ds IH]; intros H stack l v; simpl in *.
  - by rewrite append_nil_r.
  - apply andb_true_iff in H as [Hc Hds].
    unfold json.step_byte at 1. simpl. rewrite Hc. unfold json.continue. simpl.
    rewrite IH by done. by rewrite snoc_append.
Qed.

(** From [stateBeginValue] the scanner reads the text of an integer as one
    number literal, which the next byte will end. *)
Lemma scan_FormatInt (i : Z) stack l0 v0 :
  exists st, (st = json.state0 \/ st = json.state1) /\
    json.scan (json.Scanner json.stateBeginValue stack l0 v0) (strconv.FormatInt i)
    = json.Scanner st stack (strconv.FormatInt i) None.
Proof.
  unfold strconv.FormatInt. destruct (i <? 0) eqn:Hneg.
  - apply Z.ltb_lt in Hneg.
    destruct (FormatUint_pos (- i)) as (d & ds & -> & Hd & Hds); [lia|].
    exists json.state1. split; [by right|].
    destruct (is19_facts d Hd) as (_ & _ & H0 & _).
    simpl. unfold json.step_byte at 2. simpl.
    unfold json.step_byte at 1. simpl. rewrite H0, Hd.
    unfold json.continue. simpl. by rewrite scan_digits.
  - apply Z.ltb_ge in Hneg.
    destruct (Z.eq_dec i 0) as [->|Hnz].
    + exists json.state0. split; [by left|reflexivity].
    + destruct (FormatUint_pos i) as (d & ds & -> & Hd & Hds); [lia|].
      exists json.state1. split; [by right|].
      destruct (is19_facts d Hd) as (_ & _ & _ & _ & _ & Hb).
      simpl. unfold json.step_byte at 1. simpl. rewrite Hb.
      unfold json.beginLiteral. simpl. by rewrite scan_digits.
Qed.

(** Reading back the digits that [formatBits] wrote in front of [acc]. *)
Lemma parseDigits_formatBits (fuel : nat) :
  forall u acc, 0 <= u -> u < 10 ^ Z.of_nat (S fuel) ->
  exists d, 0 < d /\ forall k,
    strconv.parseDigits (strconv.formatBits (S fuel) u acc) k
    = strconv.parseDigits acc (k * 10 ^ d + u).
Proof.
  assert (Hone : forall u acc k, 0 <= u < 10 ->
    strconv.parseDigits (String (strconv.digit (u mod 10)) acc) k
    = strconv.parseDigits acc (k * 10 ^ 1 + u)).
  { intros u acc k Hu. simpl strconv.parseDigits. rewrite Z.mod_small by lia.
    rewrite isDigit_digit, code_digit by lia. f_equal. lia. }
  induction fuel as [|fuel IH]; intros u acc Hu Hlt.
  - exists 1. split; [lia|]. intros k.
    change (10 ^ Z.of_nat 1) with 10 in Hlt.
    assert (E : (u <? 10) = true) by (apply Z.ltb_lt; lia).
    change (strconv.formatBits 1 u acc)
      with (let acc' := String (strconv.digit (u mod 10)) acc in
            if u <? 10 then acc' else acc').
    cbv zeta. rewrite E. apply Hone. lia.
  - change (strconv.formatBits (S (S fuel)) u acc)
      with (let acc' := String (strconv.digit (u mod 10)) acc in
            if u <? 10 then acc'
            else strconv.formatBits (S fuel) (u / 10) acc').
    cbv zeta. destruct (u <? 10) eqn:E.
    + apply Z.ltb_lt in E. exists 1. split; [lia|]. intros k. apply Hone. lia.
    + apply Z.ltb_ge in E.
      destruct (IH (u / 10) (String (strconv.digit (u mod 10)) acc))
        as (d & Hd & Hk).
      * apply Z.div_pos; lia.
      * apply Z.div_lt_upper_bound; [lia|].
        rewrite (Nat2Z.inj_succ (S fuel)), Z.pow_succ_r in Hlt by lia. lia.
      * exists (d + 1). split; [lia|]. intros k. rewrite Hk.
        simpl strconv.parseDigits.
        pose proof (Z.mod_pos_bound u 10 ltac:(lia)) as Hm.
        rewrite isDigit_digit, code_digit by lia. f_equal.
        rewrite Z.pow_add_r by lia.
        pose proof (Z.div_mod u 10 ltac:(lia)) as Hdm. lia.
Qed.

Lemma FormatUint_nonempty (u : Z) :
  0 <= u -> exists d ds, strconv.FormatUint u = String d ds
    /\ strconv.isDigit d = true.
Proof.
  intros Hu. destruct (Z.eq_dec u 0) as [->|Hnz].
  - exists "0"%char, EmptyString. split; reflexivity.
  - destruct (FormatUint_pos u) as (d & ds & E & Hd & _); [lia|].
    exists d, ds. split; [exact E|]. by destruct (is19_facts d Hd).
Qed.

Lemma ParseUint_FormatUint (u : Z) :
  0 <= u -> strconv.ParseUint (strconv.FormatUint u) = Some u.
Proof.
  intros Hu. destruct (FormatUint_nonempty u Hu) as (d & ds & E & _).
  unfold strconv.ParseUint. rewrite E, <- E. clear E.
  destruct (Z.eq_dec u 0) as [->|Hnz]; [reflexivity|].
  unfold strconv.FormatUint.
  destruct (parseDigits_formatBits (Z.to_nat (Z.log2 u)) u EmptyString Hu)
    as (d' & _ & Hk).
  { apply FormatUint_fuel. lia. }
  rewrite Hk. simpl. f_equal; lia.
Qed.

Lemma isDigit_not_sign (c : ascii) :
  strconv.isDigit c = true ->
  Ascii.eqb c "+" = false /\ Ascii.eqb c "-" = false.
Proof. destruct c as [[] [] [] [] [] [] [] []]; vm_compute; split; congruence. Qed.

(** [ParseInt] reads back what [FormatInt] writes for an [int]. *)
Lemma ParseInt_FormatInt (i : Z) :
  int64 i -> strconv.ParseInt (strconv.FormatInt i) = Some i.
Proof.
  unfold int64. intros Hi. unfold strconv.FormatInt.
  destruct (i <? 0) eqn:Hneg.
  - apply Z.ltb_lt in Hneg. unfold strconv.ParseInt.
    change (Ascii.eqb "-" "+") with false. change (Ascii.eqb "-" "-") with true.
    cbv iota. rewrite ParseUint_FormatUint by lia.
    cbv zeta. simpl negb. simpl andb.
    destruct (2 ^ 63 <? - i) eqn:E; [apply Z.ltb_lt in E; lia|].
    f_equal. lia.
  - apply Z.ltb_ge in Hneg.
    destruct (FormatUint_nonempty i Hneg) as (d & ds & E & Hd).
    destruct (isDigit_not_sign d Hd) as [Hp Hm].
    unfold strconv.ParseInt. rewrite E, Hp, Hm, <- E.
    rewrite ParseUint_FormatUint by lia.
    cbv zeta. simpl negb.
    destruct (2 ^ 63 <=? i) eqn:E2; [apply Z.leb_le in E2; lia|].
    reflexivity.
Qed.

(** ** The scanner on an encoded struct *)

Lemma scan_string_literal (body : string) stack (st : json.stepfn) :
  st = json.stateBeginValue \/ st = json.stateBeginString
  \/ st = json.stateBeginStringOrEmpty ->
  literalBody body ->
  json.scan (json.Scanner st stack EmptyString None)
    (String dquote (body +:+ String dquote EmptyString))
  = json.Scanner json.stateEndValue stack EmptyString
      (Some (json.JString body)).
Proof.
  intros Hst Hb.
  assert (E : json.step_byte (json.Scanner st stack EmptyString None) dquote
              = json.Scanner json.stateInString stack EmptyString None).
  { destruct Hst as [->|[->| ->]]; reflexivity. }
  simpl json.scan. rewrite E, scan_app.
  rewrite (scan_inString body _ _ _ _ _ Hb).
  reflexivity.
Qed.

Lemma scan_key (f : json.field) ms (st : json.stepfn) :
  st = json.stateBeginString \/ st = json.stateBeginStringOrEmpty ->
  literalBody (json.name f) ->
  json.scan (json.Scanner st [json.parseObjectKey ms] EmptyString None)
    (json.nameEscHTML f)
  = json.Scanner json.stateBeginValue
      [json.parseObjectValue ms (json.name f)] EmptyString None.
Proof.
  intros Hst Hb. unfold json.nameEscHTML.
  change (String dquote (json.name f +:+ String dquote ":"))
    with (String dquote (json.name f +:+ (String dquote EmptyString +:+ ":"))).
  rewrite <- append_assoc.
  change (String dquote ((json.name f +:+ String dquote EmptyString) +:+ ":"))
    with (String dquote (json.name f +:+ String dquote EmptyString) +:+ ":").
  rewrite scan_app, scan_string_literal by tauto.
  reflexivity.
Qed.

Lemma awaits_number (st : json.stepfn) ms k l :
  st = json.state0 \/ st = json.state1 ->
  awaits (json.Scanner st [json.parseObjectValue ms k] l None) ","
    (ms ++ [(k, json.JNumber l)]).
Proof.
  intros [->| ->]; (split; [exists json.stateBeginString; split; [by left|]|intros _]);
    reflexivity.
Qed.

(** After the encoding of a member's value, a comma or a closing brace
    completes the member. *)
Lemma scan_value (v : json.value) ms k :
  awaits
    (json.scan
       (json.Scanner json.stateBeginValue [json.parseObjectValue ms k] EmptyString None)
       (json.valueEncoder v))
    "," (ms ++ [(k, nodeOf v)]).
Proof.
  destruct v as [str|i|[i|]]; simpl json.valueEncoder; simpl nodeOf.
  - unfold json.appendString.
    rewrite scan_string_literal;
      [|tauto|apply literalBody_appendString_loop].
    split; [exists json.stateBeginString; split; [by left|]|intros _]; reflexivity.
  - destruct (scan_FormatInt i [json.parseObjectValue ms k] EmptyString None)
      as (st & Hst & ->).
    by apply awaits_number.
  - destruct (scan_FormatInt i [json.parseObjectValue ms k] EmptyString None)
      as (st & Hst & ->).
    by apply awaits_number.
  - split; [exists json.stateBeginString; split; [by left|]|intros _]; reflexivity.
Qed.

Lemma encodeFields_cons (f : json.field) (fs : list json.field) (next : ascii) :
  json.encodeFields (f :: fs) next =
    if keptField f then
      let '(out, next') := json.encodeFields fs ","%char in
      (String next (json.nameEscHTML f +:+ json.valueEncoder (json.fv f) +:+ out),
       next')
    else json.encodeFields fs next.
Proof.
  unfold keptField. simpl.
  destruct (json.omitEmpty f && json.isEmptyValue (json.fv f)); reflexivity.
Qed.

Lemma membersOf_cons (f : json.field) (fs : list json.field) :
  membersOf (f :: fs) =
    if keptField f then (json.name f, nodeOf (json.fv f)) :: membersOf fs
    else membersOf fs.
Proof. unfold membersOf. simpl. destruct (keptField f); reflexivity. Qed.

(** The field loop of the struct encoder, followed by the scanner. *)
Lemma encodeFields_scan (fs : list json.field) :
  Forall (fun f => literalBody (json.name f)) fs ->
  forall (next : ascii) (s : json.scanner) ms,
  awaits s next ms ->
  awaits (json.scan s (fst (json.encodeFields fs next)))
    (snd (json.encodeFields fs next)) (ms ++ membersOf fs)
  /\ (snd (json.encodeFields fs next) = next
       \/ snd (json.encodeFields fs next) = ","%char)
  /\ (snd (json.encodeFields fs next) = next ->
       next <> ","%char ->
       fst (json.encodeFields fs next) = EmptyString /\ membersOf fs = []).
Proof.
  induction 1 as [|f fs Hf Hfs IH]; intros next s ms Hs.
  - simpl. rewrite app_nil_r. auto.
  - rewrite encodeFields_cons, membersOf_cons.
    destruct (keptField f); [|by apply IH].
    destruct Hs as [(st & Hst & Hnext) _].
    set (s1 := json.scan
                 (json.Scanner json.stateBeginValue
                    [json.parseObjectValue ms (json.name f)] EmptyString None)
                 (json.valueEncoder (json.fv f))).
    assert (Hs1 : awaits s1 "," (ms ++ [(json.name f, nodeOf (json.fv f))]))
      by apply scan_value.
    destruct (IH ","%char s1 _ Hs1) as (Ha & Hn & _).
    destruct (json.encodeFields fs ",") as [out next'] eqn:E.
    cbn [fst snd] in *.
    assert (Hn' : next' = ","%char) by tauto. subst next'.
    split; [|split; [by right|]].
    + rewrite scan_cons, Hnext, scan_app, scan_key, scan_app by done.
      fold s1. by rewrite <- app_assoc in Ha.
    + intros -> Hne. done.
Qed.

(** The scanner accepts the encoding of a struct and reads the members
    that [omitempty] keeps, in the order of the fields. *)
Theorem checkValid_structEncoder (fs : list json.field) :
  Forall (fun f => literalBody (json.name f)) fs ->
  json.checkValid (json.structEncoder fs) = Some (json.JObject (membersOf fs)).
Proof.
  intros Hfs.
  assert (H0 : awaits json.reset "{" []).
  { split; [exists json.stateBeginStringOrEmpty; split; [by right|reflexivity]|].
    discriminate. }
  destruct (encodeFields_scan fs Hfs "{"%char json.reset [] H0) as (Ha & Hn & He).
  unfold json.structEncoder, json.checkValid.
  destruct (json.encodeFields fs "{") as [out next'] eqn:E.
  simpl fst in *. simpl snd in *. simpl app in Ha.
  destruct Hn as [->| ->].
  - destruct He as [-> ->]; [done|discriminate|]. reflexivity.
  - change (Ascii.eqb "," "{") with false. cbv iota.
    destruct Ha as [_ Hclose]. rewrite scan_app. simpl json.scan.
    by rewrite Hclose.
Qed.

(** ** UTF-8: what [DecodeRune] accepts, [EncodeRune] writes back *)

Lemma land_mul_pow2_small (a y k : Z) :
  0 <= k -> 0 <= y < 2 ^ k -> Z.land (a * 2 ^ k) y = 0.
Proof.
  intros Hk Hy. apply Z.bits_inj'. intros n Hn.
  rewrite Z.land_spec, Z.bits_0.
  destruct (Z.lt_ge_cases n k) as [Hlt|Hge].
  - rewrite Z.mul_pow2_bits_low by lia. reflexivity.
  - destruct (Z.eq_dec y 0) as [->|Hy0].
    + rewrite Z.bits_0. apply andb_false_r.
    + rewrite (Z.bits_above_log2 y n); [apply andb_false_r|lia|].
      apply Z.log2_lt_pow2; [lia|].
      eapply Z.lt_le_trans; [apply Hy|]. apply Z.pow_le_mono_r; lia.
Qed.

Lemma lor_add (a y k : Z) :
  0 <= k -> 0 <= y < 2 ^ k -> Z.lor (a * 2 ^ k) y = a * 2 ^ k + y.
Proof.
  intros Hk Hy. pose proof (Z.add_lor_land (a * 2 ^ k) y) as H.
  rewrite land_mul_pow2_small in H by assumption. lia.
Qed.

Lemma lor_add_m (a y m k : Z) :
  m = 2 ^ k -> 0 <= k -> 0 <= y < m -> Z.lor (a * m) y = a * m + y.
Proof. intros -> Hk Hy. by apply lor_add. Qed.

(** A continuation byte carries six bits. *)
Lemma cont_bits (b : Z) : 128 <= b < 192 -> Z.land b utf8.maskx = b - 128.
Proof.
  intros Hb. change utf8.maskx with (Z.ones 6). rewrite Z.land_ones by lia.
  change (2 ^ 6) with 64. Z.div_mod_to_equations. lia.
Qed.

Lemma rune2_arith (p0 b1 : Z) :
  192 <= p0 < 224 -> 128 <= b1 < 192 ->
  Z.lor (Z.shiftl (Z.land p0 31) 6) (Z.land b1 utf8.maskx)
  = (p0 - 192) * 64 + (b1 - 128).
Proof.
  intros Hp Hb. rewrite cont_bits by done.
  change 31 with (Z.ones 5). rewrite Z.land_ones by lia. change (2 ^ 5) with 32.
  replace (p0 mod 32) with (p0 - 192) by (Z.div_mod_to_equations; lia).
  rewrite Z.shiftl_mul_pow2 by lia. change (2 ^ 6) with 64.
  by rewrite (lor_add_m _ _ 64 6) by (reflexivity || lia).
Qed.

Lemma rune3_arith (p0 b1 b2 : Z) :
  224 <= p0 < 240 -> 128 <= b1 < 192 -> 128 <= b2 < 192 ->
  Z.lor (Z.lor (Z.shiftl (Z.land p0 15) 12) (Z.shiftl (Z.land b1 utf8.maskx) 6))
        (Z.land b2 utf8.maskx)
  = (p0 - 224) * 4096 + (b1 - 128) * 64 + (b2 - 128).
Proof.
  intros Hp H1 H2. rewrite !cont_bits by done.
  change 15 with (Z.ones 4). rewrite Z.land_ones by lia. change (2 ^ 4) with 16.
  replace (p0 mod 16) with (p0 - 224) by (Z.div_mod_to_equations; lia).
  rewrite !Z.shiftl_mul_pow2 by lia.
  change (2 ^ 6) with 64. change (2 ^ 12) with 4096.
  rewrite (lor_add_m _ _ 4096 12) by (reflexivity || lia).
  replace ((p0 - 224) * 4096 + (b1 - 128) * 64)
    with (((p0 - 224) * 64 + (b1 - 128)) * 64) by lia.
  rewrite (lor_add_m _ _ 64 6) by (reflexivity || lia). lia.
Qed.

Lemma rune4_arith (p0 b1 b2 b3 : Z) :
  240 <= p0 < 248 -> 128 <= b1 < 192 -> 128 <= b2 < 192 -> 128 <= b3 < 192 ->
  Z.lor (Z.lor (Z.lor (Z.shiftl (Z.land p0 7) 18)
                      (Z.shiftl (Z.land b1 utf8.maskx) 12))
               (Z.shiftl (Z.land b2 utf8.maskx) 6))
        (Z.land b3 utf8.maskx)
  = (p0 - 240) * 262144 + (b1 - 128) * 4096 + (b2 - 128) * 64 + (b3 - 128).
Proof.
  intros Hp H1 H2 H3. rewrite !cont_bits by done.
  change 7 with (Z.ones 3). rewrite Z.land_ones by lia. change (2 ^ 3) with 8.
  replace (p0 mod 8) with (p0 - 240) by (Z.div_mod_to_equations; lia).
  rewrite !Z.shiftl_mul_pow2 by lia.
  change (2 ^ 6) with 64. change (2 ^ 12) with 4096. change (2 ^ 18) with 262144.
  rewrite (lor_add_m _ _ 262144 18) by (reflexivity || lia).
  replace ((p0 - 240) * 262144 + (b1 - 128) * 4096)
    with (((p0 - 240) * 64 + (b1 - 128)) * 4096) by lia.
  rewrite (lor_add_m _ _ 4096 12) by (reflexivity || lia).
  replace (((p0 - 240) * 64 + (b1 - 128)) * 4096 + (b2 - 128) * 64)
    with ((((p0 - 240) * 64 + (b1 - 128)) * 64 + (b2 - 128)) * 64) by lia.
  rewrite (lor_add_m _ _ 64 6) by (reflexivity || lia). lia.
Qed.

(** The bytes that [EncodeRune] writes, as numbers. *)
Lemma enc_cont (x : Z) : 0 <= x -> Z.lor 128 (Z.land x utf8.maskx) = 128 + x mod 64.
Proof.
  intros Hx. change utf8.maskx with (Z.ones 6). rewrite Z.land_ones by lia.
  change (2 ^ 6) with 64. change 128 with (2 * 64) at 1.
  rewrite (lor_add_m _ _ 64 6); [lia|reflexivity|lia|].
  apply Z.mod_pos_bound. lia.
Qed.

Lemma enc_lead2 (r : Z) :
  0 <= r < 2048 -> Z.lor 192 (Z.shiftr r 6) = 192 + r / 64.
Proof.
  intros Hr. rewrite Z.shiftr_div_pow2 by lia. change (2 ^ 6) with 64.
  change 192 with (6 * 32) at 1.
  rewrite (lor_add_m _ _ 32 5); [lia|reflexivity|lia|].
  Z.div_mod_to_equations. lia.
Qed.

Lemma enc_lead3 (r : Z) :
  0 <= r < 65536 -> Z.lor 224 (Z.shiftr r 12) = 224 + r / 4096.
Proof.
  intros Hr. rewrite Z.shiftr_div_pow2 by lia. change (2 ^ 12) with 4096.
  change 224 with (14 * 16) at 1.
  rewrite (lor_add_m _ _ 16 4); [lia|reflexivity|lia|].
  Z.div_mod_to_equations. lia.
Qed.

Lemma enc_lead4 (r : Z) :
  0 <= r < 2097152 -> Z.lor 240 (Z.shiftr r 18) = 240 + r / 262144.
Proof.
  intros Hr. rewrite Z.shiftr_div_pow2 by lia. change (2 ^ 18) with 262144.
  change 240 with (30 * 8) at 1.
  rewrite (lor_add_m _ _ 8 3); [lia|reflexivity|lia|].
  Z.div_mod_to_equations. lia.
Qed.


Lemma code_range (c : ascii) : 0 <= code c < 256.
Proof.
  unfold code. pose proof (N_ascii_bounded c). lia.
Qed.

Lemma chr_code (c : ascii) : chr (code c) = c.
Proof. unfold chr, code. rewrite N2Z.id. apply ascii_N_embedding. Qed.

Lemma first_cases (p0 sz lo hi : Z) :
  utf8.first p0 = Some (sz, lo, hi) ->
  (sz = 2 /\ 194 <= p0 <= 223 /\ lo = 128 /\ hi = 191)
  \/ (sz = 3 /\ p0 = 224 /\ lo = 160 /\ hi = 191)
  \/ (sz = 3 /\ 225 <= p0 <= 236 /\ lo = 128 /\ hi = 191)
  \/ (sz = 3 /\ p0 = 237 /\ lo = 128 /\ hi = 159)
  \/ (sz = 3 /\ 238 <= p0 <= 239 /\ lo = 128 /\ hi = 191)
  \/ (sz = 4 /\ p0 = 240 /\ lo = 144 /\ hi = 191)
  \/ (sz = 4 /\ 241 <= p0 <= 243 /\ lo = 128 /\ hi = 191)
  \/ (sz = 4 /\ p0 = 244 /\ lo = 128 /\ hi = 143).
Proof.
  unfold utf8.first.
  repeat match goal with
  | |- context [if ?b then _ else _] => destruct b eqn:?
  end; intros H; inversion H; subst; lia.
Qed.

(** [DecodeRune] accepts exactly the encodings described by [Rune]. *)
Lemma DecodeRune_Rune (c0 : ascii) (rest : string) (r size : Z) :
  utf8.DecodeRune (String c0 rest) = (r, size) ->
  (code c0 <? utf8.RuneSelf) = false ->
  (r =? utf8.RuneError) && (size =? 1) = false ->
  exists p t, String c0 rest = p +:+ t /\ Rune p r size.
Proof.
  unfold utf8.DecodeRune. intros H Hc Hr. rewrite Hc in H.
  assert (Hbad : (r, size) = (utf8.RuneError, 1) -> False).
  { intros E. inversion E; subst. discriminate. }
  destruct (utf8.first (code c0)) as [[[sz lo] hi]|] eqn:F;
    [|exfalso; auto].
  destruct (first_spec _ _ _ _ F) as [Hsz Hlo].
  destruct (Z.of_nat _ <? sz); [exfalso; auto|].
  destruct rest as [|c1 p2]; [exfalso; auto|].
  destruct ((code c1 <? lo) || (hi <? code c1)) eqn:E1; [exfalso; auto|].
  apply orb_false_elim in E1 as [E1 E1']. apply Z.ltb_ge in E1, E1'.
  destruct (sz <=? 2) eqn:S2.
  { apply Z.leb_le in S2. assert (sz = 2) by lia. subst sz.
    inversion H. exists (String c0 (String c1 EmptyString)), p2.
    split; [reflexivity|]. by apply (Rune2 c0 c1 lo hi). }
  apply Z.leb_gt in S2.
  destruct p2 as [|c2 p3]; [exfalso; auto|].
  destruct ((code c2 <? utf8.locb) || (utf8.hicb <? code c2)) eqn:E2;
    [exfalso; auto|].
  apply orb_false_elim in E2 as [E2 E2']. apply Z.ltb_ge in E2, E2'.
  destruct (sz <=? 3) eqn:S3.
  { apply Z.leb_le in S3. assert (sz = 3) by lia. subst sz.
    inversion H. exists (String c0 (String c1 (String c2 EmptyString))), p3.
    split; [reflexivity|]. by apply (Rune3 c0 c1 c2 lo hi). }
  apply Z.leb_gt in S3. assert (sz = 4) by lia. subst sz.
  destruct p3 as [|c3 p4]; [exfalso; auto|].
  destruct ((code c3 <? utf8.locb) || (utf8.hicb <? code c3)) eqn:E3;
    [exfalso; auto|].
  apply orb_false_elim in E3 as [E3 E3']. apply Z.ltb_ge in E3, E3'.
  inversion H.
  exists (String c0 (String c1 (String c2 (String c3 EmptyString)))), p4.
  split; [reflexivity|]. by apply (Rune4 c0 c1 c2 c3 lo hi).
Qed.

Lemma first_wide (p0 sz lo hi : Z) :
  utf8.first p0 = Some (sz, lo, hi) -> (p0 <? utf8.RuneSelf) = false.
Proof.
  intros F. apply Z.ltb_ge. unfold utf8.RuneSelf.
  destruct (first_cases _ _ _ _ F) as [H|[H|[H|[H|[H|[H|[H|H]]]]]]]; lia.
Qed.

Lemma Rune_DecodeRune (p : string) (r size : Z) (t : string) :
  Rune p r size -> utf8.DecodeRune (p +:+ t) = (r, size).
Proof.
  intros [c0 c1 lo hi F H1|c0 c1 c2 lo hi F H1 H2|c0 c1 c2 c3 lo hi F H1 H2 H3];
    cbn [String.append]; unfold utf8.DecodeRune;
    rewrite (first_wide _ _ _ _ F), F;
    cbn [String.length].
  - destruct (Z.of_nat _ <? 2) eqn:L; [apply Z.ltb_lt in L; lia|].
    destruct ((code c1 <? lo) || (hi <? code c1)) eqn:E1.
    { apply orb_true_iff in E1 as [E|E]; apply Z.ltb_lt in E; lia. }
    reflexivity.
  - destruct (Z.of_nat _ <? 3) eqn:L; [apply Z.ltb_lt in L; lia|].
    destruct ((code c1 <? lo) || (hi <? code c1)) eqn:E1.
    { apply orb_true_iff in E1 as [E|E]; apply Z.ltb_lt in E; lia. }
    destruct ((code c2 <? utf8.locb) || (utf8.hicb <? code c2)) eqn:E2.
    { apply orb_true_iff in E2 as [E|E]; apply Z.ltb_lt in E; lia. }
    reflexivity.
  - destruct (Z.of_nat _ <? 4) eqn:L; [apply Z.ltb_lt in L; lia|].
    destruct ((code c1 <? lo) || (hi <? code c1)) eqn:E1.
    { apply orb_true_iff in E1 as [E|E]; apply Z.ltb_lt in E; lia. }
    destruct ((code c2 <? utf8.locb) || (utf8.hicb <? code c2)) eqn:E2.
    { apply orb_true_iff in E2 as [E|E]; apply Z.ltb_lt in E; lia. }
    destruct ((code c3 <? utf8.locb) || (utf8.hicb <? code c3)) eqn:E3.
    { apply orb_true_iff in E3 as [E|E]; apply Z.ltb_lt in E; lia. }
    reflexivity.
Qed.

(** Decide the comparisons of a goal by linear arithmetic. *)
Ltac zbool :=
  repeat match goal with
  | |- context [?a <=? ?b] =>
      first [ rewrite (proj2 (Z.leb_le a b)) by lia
            | rewrite (proj2 (Z.leb_gt a b)) by lia ]
  | |- context [?a <? ?b] =>
      first [ rewrite (proj2 (Z.ltb_lt a b)) by lia
            | rewrite (proj2 (Z.ltb_ge a b)) by lia ]
  end.

Lemma Rune_encode (p : string) (rr size : Z) :
  Rune p rr size -> utf8.EncodeRune rr = p.
Proof.
  intros [c0 c1 lo hi F H1|c0 c1 c2 lo hi F H1 H2|c0 c1 c2 c3 lo hi F H1 H2 H3];
    pose proof (code_range c0) as R0; pose proof (code_range c1) as R1.
  - assert (Hp : 194 <= code c0 <= 223 /\ 128 <= code c1 <= 191).
    { destruct (first_cases _ _ _ _ F) as [H|[H|[H|[H|[H|[H|[H|H]]]]]]]; lia. }
    rewrite rune2_arith by lia.
    set (r := (code c0 - 192) * 64 + (code c1 - 128)).
    assert (Hr : 128 <= r < 2048) by (unfold r; lia).
    unfold utf8.EncodeRune. zbool. cbn [andb].
    rewrite enc_lead2, enc_cont by lia.
    replace (192 + r / 64) with (code c0)
      by (unfold r; Z.div_mod_to_equations; lia).
    replace (128 + r mod 64) with (code c1)
      by (unfold r; Z.div_mod_to_equations; lia).
    by rewrite !chr_code.
  - pose proof (code_range c2) as R2. unfold utf8.locb, utf8.hicb in *.
    assert (Hp : 224 <= code c0 <= 239 /\ 128 <= code c1 <= 191
                 /\ (code c0 = 224 -> 160 <= code c1)
                 /\ (code c0 = 237 -> code c1 <= 159)).
    { destruct (first_cases _ _ _ _ F) as [H|[H|[H|[H|[H|[H|[H|H]]]]]]]; lia. }
    rewrite rune3_arith by lia.
    set (r := (code c0 - 224) * 4096 + (code c1 - 128) * 64 + (code c2 - 128)).
    assert (Hr : 2048 <= r < 65536 /\ ~ (55296 <= r <= 57343)) by (unfold r; lia).
    unfold utf8.EncodeRune, utf8.MaxRune.
    replace ((55296 <=? r) && (r <=? 57343)) with false
      by (symmetry; apply andb_false_iff;
          destruct (Z.le_gt_cases 55296 r);
          [right; apply Z.leb_gt; lia|left; apply Z.leb_gt; lia]).
    zbool. cbn [andb orb]. unfold utf8.enc3.
    rewrite enc_lead3, !enc_cont by (try apply Z.shiftr_nonneg; lia).
    rewrite Z.shiftr_div_pow2 by lia. change (2 ^ 6) with 64.
    replace (224 + r / 4096) with (code c0)
      by (unfold r; Z.div_mod_to_equations; lia).
    replace (128 + (r / 64) mod 64) with (code c1)
      by (unfold r; Z.div_mod_to_equations; lia).
    replace (128 + r mod 64) with (code c2)
      by (unfold r; Z.div_mod_to_equations; lia).
    by rewrite !chr_code.
  - pose proof (code_range c2) as R2. pose proof (code_range c3) as R3.
    unfold utf8.locb, utf8.hicb in *.
    assert (Hp : 240 <= code c0 <= 244 /\ 128 <= code c1 <= 191
                 /\ (code c0 = 240 -> 144 <= code c1)
                 /\ (code c0 = 244 -> code c1 <= 143)).
    { destruct (first_cases _ _ _ _ F) as [H|[H|[H|[H|[H|[H|[H|H]]]]]]]; lia. }
    rewrite rune4_arith by lia.
    set (r := (code c0 - 240) * 262144 + (code c1 - 128) * 4096
              + (code c2 - 128) * 64 + (code c3 - 128)).
    assert (Hr : 65536 <= r <= 1114111) by (unfold r; lia).
    unfold utf8.EncodeRune, utf8.MaxRune. zbool. cbn [andb orb].
    rewrite enc_lead4, !enc_cont by (try apply Z.shiftr_nonneg; lia).
    rewrite !Z.shiftr_div_pow2 by lia.
    change (2 ^ 6) with 64. change (2 ^ 12) with 4096.
    replace (240 + r / 262144) with (code c0)
      by (unfold r; Z.div_mod_to_equations; lia).
    replace (128 + (r / 4096) mod 64) with (code c1)
      by (unfold r; Z.div_mod_to_equations; lia).
    replace (128 + (r / 64) mod 64) with (code c2)
      by (unfold r; Z.div_mod_to_equations; lia).
    replace (128 + r mod 64) with (code c3)
      by (unfold r; Z.div_mod_to_equations; lia).
    by rewrite !chr_code.
Qed.

Lemma Rune_shape (p : string) (r size : Z) :
  Rune p r size ->
  exists c0 p', p = String c0 p' /\ (code c0 <? utf8.RuneSelf) = false
    /\ forall t, take (Z.to_nat size) (p +:+ t) = p
                 /\ after_rune size (p' +:+ t) = t.
Proof.
  intros [c0 c1 lo hi F H1|c0 c1 c2 lo hi F H1 H2|c0 c1 c2 c3 lo hi F H1 H2 H3];
    eexists _, _; (split; [reflexivity|]);
    (split; [exact (first_wide _ _ _ _ F)|]); intros t; split; reflexivity.
Qed.

Lemma ValidString_cons (c : ascii) (rest : string) :
  utf8.ValidString (String c rest) =
    if code c <? utf8.RuneSelf then utf8.ValidString rest
    else
      let '(r, size) := utf8.DecodeRune (String c rest) in
      if (r =? utf8.RuneError) && (size =? 1) then false
      else utf8.ValidString (after_rune size rest).
Proof. reflexivity. Qed.

(** The bytes of [htmlSafeSet] stand for themselves in a literal. *)
Lemma unquote_safe (c : ascii) (X : string) :
  json.htmlSafeSet (code c) = true ->
  json.unquote (String c X) = json.cons_byte c (json.unquote X).
Proof.
  destruct c as [[] [] [] [] [] [] [] []]; intros H; vm_compute in H;
    try discriminate H; reflexivity.
Qed.

(** An escape written by the encoder is read back as the byte escaped. *)
Lemma unquote_escapeByte (c : ascii) (X : string) :
  (code c <? utf8.RuneSelf) = true ->
  json.htmlSafeSet (code c) = false ->
  json.unquote (json.escapeByte (code c) +:+ X)
  = json.cons_byte c (json.unquote X).
Proof.
  destruct c as [[] [] [] [] [] [] [] []]; intros H1 H2;
    vm_compute in H1; vm_compute in H2;
    try discriminate H1; try discriminate H2; reflexivity.
Qed.

Lemma unquote_wide (c : ascii) (rest : string) :
  (code c <? utf8.RuneSelf) = false ->
  json.unquote (String c rest) =
    let '(rr, size) := utf8.DecodeRune (String c rest) in
    json.prepend (utf8.EncodeRune rr) (json.unquote (after_rune size rest)).
Proof.
  intros Hc. apply Z.ltb_ge in Hc. unfold utf8.RuneSelf in Hc.
  assert (Hb : Ascii.eqb c backslash = false).
  { destruct (Ascii.eqb_spec c backslash) as [->|]; [|done].
    rewrite code_backslash in Hc. lia. }
  assert (Hq : Ascii.eqb c dquote = false).
  { destruct (Ascii.eqb_spec c dquote) as [->|]; [|done].
    rewrite code_dquote in Hc. lia. }
  assert (H32 : (code c <? 32) = false) by (apply Z.ltb_ge; lia).
  assert (H128 : (code c <? utf8.RuneSelf) = false)
    by (apply Z.ltb_ge; unfold utf8.RuneSelf; lia).
  unfold json.unquote at 1; fold json.unquote.
  rewrite Hb, Hq, H32. cbn [orb]. by rewrite H128.
Qed.

Lemma length_app (a b : string) :
  String.length (a +:+ b) = (String.length a + String.length b)%nat.
Proof. induction a; simpl; congruence. Qed.

Lemma unquote_u202 (r : Z) (X : string) :
  (r =? 8232) || (r =? 8233) = true ->
  json.unquote
    (String backslash "u202" +:+ String (json.hex (Z.land r 15)) X)
  = json.prepend (utf8.EncodeRune r) (json.unquote X).
Proof.
  intros H. apply orb_true_iff in H as [E|E]; apply Z.eqb_eq in E; subst r;
    reflexivity.
Qed.

(** Reading back what the encoder writes: a string of valid UTF-8 comes
    back unchanged. *)
Theorem unquote_appendString_loop (s : string) :
  utf8.ValidString s = true ->
  json.unquote (json.appendString_loop s) = Some s.
Proof.
  remember (S (String.length s)) as n eqn:Hn.
  assert (Hlt : (String.length s < n)%nat) by lia. clear Hn.
  revert s Hlt. induction n as [|n IH]; intros s Hlt Hv; [lia|].
  destruct s as [|c rest]; [reflexivity|].
  rewrite ValidString_cons in Hv. rewrite appendString_loop_cons. cbv zeta.
  simpl in Hlt.
  destruct (code c <? utf8.RuneSelf) eqn:Hc.
  - assert (IHrest := IH rest ltac:(lia) Hv).
    destruct (json.htmlSafeSet (code c)) eqn:Hs.
    + by rewrite unquote_safe, IHrest.
    + by rewrite unquote_escapeByte, IHrest.
  - destruct (utf8.DecodeRune (String c rest)) as [r size] eqn:Hd.
    destruct ((r =? utf8.RuneError) && (size =? 1)) eqn:Hr; [discriminate|].
    destruct (DecodeRune_Rune _ _ _ _ Hd Hc Hr) as (p & t & Hpt & HR).
    destruct (Rune_shape _ _ _ HR) as (c0 & p' & -> & Hc0 & Hskip).
    simpl in Hpt. inversion Hpt; subst c0 rest. clear Hpt.
    destruct (Hskip t) as [Htake Hafter].
    rewrite Hafter in *.
    assert (IHt : json.unquote (json.appendString_loop t) = Some t).
    { apply IH; [|exact Hv]. rewrite length_app in Hlt. lia. }
    destruct ((r =? 8232) || (r =? 8233)) eqn:H2028.
    + rewrite unquote_u202, IHt, (Rune_encode _ _ _ HR) by done. reflexivity.
    + change (String c (p' +:+ t)) with (String c p' +:+ t). rewrite Htake.
      simpl String.append. rewrite unquote_wide by done.
      change (String c (p' +:+ json.appendString_loop t))
        with (String c p' +:+ json.appendString_loop t).
      rewrite (Rune_DecodeRune _ _ _ _ HR).
      destruct (Hskip (json.appendString_loop t)) as [_ ->].
      rewrite IHt, (Rune_encode _ _ _ HR). reflexivity.
Qed.

(** ** Every literal that the scanner accepts can be unquoted *)

Lemma literalBody_cons_inv (c : ascii) (rest : string) :
  literalBody (String c rest) ->
  exists st, inString_next json.stateInString c = Some st
             /\ inString_run st rest = Some json.stateInString.
Proof.
  unfold literalBody. cbn [inString_run].
  destruct (inString_next json.stateInString c) as [st|]; [|discriminate].
  intros H. by exists st.
Qed.

Lemma isHex_hexval (h : ascii) :
  json.isHex h = true -> exists d, json.hexval h = Some d /\ 0 <= d < 16.
Proof.
  destruct h as [[] [] [] [] [] [] [] []]; intros H; vm_compute in H;
    try discriminate H; eexists; (split; [vm_compute; reflexivity|lia]).
Qed.

Lemma hexval_isHex (h : ascii) (d : Z) :
  json.hexval h = Some d -> json.isHex h = true.
Proof.
  destruct h as [[] [] [] [] [] [] [] []]; intros H; vm_compute in H;
    try discriminate H; reflexivity.
Qed.

(** After a backslash: a one-byte escape, or [u] and four hex digits. *)
Lemma inString_esc_inv (e : ascii) (rest1 : string) :
  inString_run json.stateInStringEsc (String e rest1) = Some json.stateInString ->
  (In e [dquote; backslash; "/"; "b"; "f"; "n"; "r"; "t"]%char
   /\ literalBody rest1)
  \/ (e = "u"%char /\ exists h1 h2 h3 h4 rest5,
        rest1 = String h1 (String h2 (String h3 (String h4 rest5)))
        /\ json.isHex h1 = true /\ json.isHex h2 = true
        /\ json.isHex h3 = true /\ json.isHex h4 = true
        /\ literalBody rest5).
Proof.
  unfold literalBody. cbn [inString_run inString_next].
  destruct (Ascii.eqb_spec e "b") as [->|_]; [left; split; [simpl; tauto|done]|].
  destruct (Ascii.eqb_spec e "f") as [->|_]; [left; split; [simpl; tauto|done]|].
  destruct (Ascii.eqb_spec e "n") as [->|_]; [left; split; [simpl; tauto|done]|].
  destruct (Ascii.eqb_spec e "r") as [->|_]; [left; split; [simpl; tauto|done]|].
  destruct (Ascii.eqb_spec e "t") as [->|_]; [left; split; [simpl; tauto|done]|].
  destruct (Ascii.eqb_spec e backslash) as [->|_];
    [left; split; [simpl; tauto|done]|].
  destruct (Ascii.eqb_spec e "/") as [->|_]; [left; split; [simpl; tauto|done]|].
  destruct (Ascii.eqb_spec e dquote) as [->|_];
    [left; split; [simpl; tauto|done]|].
  cbn [orb].
  destruct (Ascii.eqb_spec e "u") as [->|_]; [|discriminate].
  intros H. right. split; [reflexivity|].
  destruct rest1 as [|h1 r1]; [discriminate|]. cbn [inString_run inString_next] in H.
  destruct (json.isHex h1) eqn:E1; [|discriminate].
  destruct r1 as [|h2 r2]; [discriminate|]. cbn [inString_run inString_next] in H.
  destruct (json.isHex h2) eqn:E2; [|discriminate].
  destruct r2 as [|h3 r3]; [discriminate|]. cbn [inString_run inString_next] in H.
  destruct (json.isHex h3) eqn:E3; [|discriminate].
  destruct r3 as [|h4 r4]; [discriminate|]. cbn [inString_run inString_next] in H.
  destruct (json.isHex h4) eqn:E4; [|discriminate].
  by exists h1, h2, h3, h4, r4.
Qed.

Lemma getu4_hex (h1 h2 h3 h4 : ascii) (rest : string) :
  json.isHex h1 = true -> json.isHex h2 = true ->
  json.isHex h3 = true -> json.isHex h4 = true ->
  0 <= json.getu4
         (String backslash (String "u" (String h1 (String h2 (String h3 (String h4 rest)))))).
Proof.
  intros H1 H2 H3 H4.
  destruct (isHex_hexval _ H1) as (d1 & E1 & R1).
  destruct (isHex_hexval _ H2) as (d2 & E2 & R2).
  destruct (isHex_hexval _ H3) as (d3 & E3 & R3).
  destruct (isHex_hexval _ H4) as (d4 & E4 & R4).
  unfold json.getu4.
  change (Ascii.eqb backslash backslash && Ascii.eqb "u" "u") with true.
  cbv iota. rewrite E1, E2, E3, E4. lia.
Qed.

Lemma getu4_nonneg_inv (s : string) :
  0 <= json.getu4 s ->
  exists g1 g2 g3 g4 rest,
    s = String backslash (String "u" (String g1 (String g2 (String g3 (String g4 rest)))))
    /\ json.isHex g1 = true /\ json.isHex g2 = true
    /\ json.isHex g3 = true /\ json.isHex g4 = true.
Proof.
  unfold json.getu4.
  destruct s as [|e [|u [|g1 [|g2 [|g3 [|g4 rest]]]]]]; try lia.
  destruct (Ascii.eqb_spec e backslash) as [->|_]; [|cbn [andb]; lia].
  destruct (Ascii.eqb_spec u "u") as [->|_]; [|cbn [andb]; lia].
  cbn [andb].
  destruct (json.hexval g1) as [d1|] eqn:E1; [|lia].
  destruct (json.hexval g2) as [d2|] eqn:E2; [|lia].
  destruct (json.hexval g3) as [d3|] eqn:E3; [|lia].
  destruct (json.hexval g4) as [d4|] eqn:E4; [|lia].
  intros _. exists g1, g2, g3, g4, rest.
  split; [reflexivity|]. repeat split; eapply hexval_isHex; eassumption.
Qed.

Lemma literalBody_u_escape (g1 g2 g3 g4 : ascii) (rest : string) :
  json.isHex g1 = true -> json.isHex g2 = true ->
  json.isHex g3 = true -> json.isHex g4 = true ->
  literalBody
    (String backslash (String "u" (String g1 (String g2 (String g3 (String g4 rest)))))) ->
  literalBody rest.
Proof.
  intros H1 H2 H3 H4 H. unfold literalBody in *.
  change (String backslash (String "u" (String g1 (String g2 (String g3 (String g4 rest))))))
    with (String backslash (String "u" (String g1 (String g2 (String g3 (String g4 EmptyString)))))
          +:+ rest) in H.
  rewrite inString_run_app in H.
  assert (E : inString_run json.stateInString
                (String backslash (String "u" (String g1 (String g2 (String g3 (String g4 EmptyString))))))
              = Some json.stateInString).
  { cbn [inString_run].
    change (inString_next json.stateInString backslash)
      with (Some json.stateInStringEsc). cbv iota.
    change (inString_next json.stateInStringEsc "u")
      with (Some json.stateInStringEscU). cbv iota.
    unfold inString_next. by rewrite H1, H2, H3, H4. }
  by rewrite E in H.
Qed.

Lemma unquote_simple_escape (e : ascii) (X : string) :
  In e [dquote; backslash; "/"; "b"; "f"; "n"; "r"; "t"]%char ->
  exists c', json.unquote (String backslash (String e X))
             = json.cons_byte c' (json.unquote X).
Proof.
  simpl In. intros [<-|[<-|[<-|[<-|[<-|[<-|[<-|[<-|[]]]]]]]]];
    eexists; reflexivity.
Qed.

Lemma unquote_u_escape (R : string) :
  json.unquote (String backslash (String "u" R)) =
    let rr := json.getu4 (String backslash (String "u" R)) in
    if rr <? 0 then None
    else
      let rest6 := json.tail4 R in
      if utf16.IsSurrogate rr then
        let dec := utf16.DecodeRune rr (json.getu4 rest6) in
        if negb (dec =? utf8.RuneError)
        then json.prepend (utf8.EncodeRune dec)
               (json.unquote (tail (tail (json.tail4 rest6))))
        else json.prepend (utf8.EncodeRune utf8.RuneError) (json.unquote rest6)
      else json.prepend (utf8.EncodeRune rr) (json.unquote rest6).
Proof. reflexivity. Qed.

Lemma is_Some_cons_byte (c : ascii) (r : option string) :
  is_Some r -> is_Some (json.cons_byte c r).
Proof. intros [s ->]. by eexists. Qed.

Lemma is_Some_prepend (p : string) (r : option string) :
  is_Some r -> is_Some (json.prepend p r).
Proof. intros [s ->]. by eexists. Qed.

Lemma utf16_pair_low (r1 r2 : Z) :
  negb (utf16.DecodeRune r1 r2 =? utf8.RuneError) = true -> 0 <= r2.
Proof.
  unfold utf16.DecodeRune.
  destruct ((55296 <=? r1) && (r1 <? 56320) && (56320 <=? r2) && (r2 <? 57344))
    eqn:E; [|discriminate].
  intros _. apply andb_true_iff in E as [E _]. apply andb_true_iff in E as [_ E].
  apply Z.leb_le in E. lia.
Qed.

(** [unquote] succeeds on the body of every string literal that the
    scanner accepts. *)
Theorem unquote_literalBody (l : string) :
  literalBody l -> is_Some (json.unquote l).
Proof.
  remember (S (String.length l)) as n eqn:Hn.
  assert (Hlt : (String.length l < n)%nat) by lia. clear Hn.
  revert l Hlt. induction n as [|n IH]; intros l Hlt Hl; [lia|].
  destruct l as [|c rest]; [by eexists|]. simpl in Hlt.
  destruct (literalBody_cons_inv _ _ Hl) as (st & Hc & Hrest).
  destruct (Ascii.eqb_spec c backslash) as [->|Hnb].
  - (* an escape *)
    assert (st = json.stateInStringEsc) by (vm_compute in Hc; congruence).
    subst st. destruct rest as [|e rest1]; [discriminate|]. simpl in Hlt.
    destruct (inString_esc_inv _ _ Hrest)
      as [[He Hr1]|[-> (h1 & h2 & h3 & h4 & rest5 & -> & H1 & H2 & H3 & H4 & Hr5)]].
    + destruct (unquote_simple_escape e rest1 He) as [c' ->].
      apply is_Some_cons_byte, IH; [lia|done].
    + rewrite unquote_u_escape. cbv zeta.
      pose proof (getu4_hex h1 h2 h3 h4 rest5 H1 H2 H3 H4) as Hu.
      destruct (_ <? 0) eqn:E; [apply Z.ltb_lt in E; lia|].
      change (json.tail4 (String h1 (String h2 (String h3 (String h4 rest5)))))
        with rest5.
      simpl in Hlt.
      assert (IH5 : is_Some (json.unquote rest5)) by (apply IH; [lia|done]).
      destruct (utf16.IsSurrogate _); [|by apply is_Some_prepend].
      destruct (negb _) eqn:Hdec; [|by apply is_Some_prepend].
      apply utf16_pair_low in Hdec.
      destruct (getu4_nonneg_inv _ Hdec)
        as (g1 & g2 & g3 & g4 & rest11 & -> & G1 & G2 & G3 & G4).
      change (tail (tail (json.tail4 _))) with rest11.
      apply is_Some_prepend, IH; [simpl in Hlt; lia|].
      by apply (literalBody_u_escape g1 g2 g3 g4).
  - (* a byte that stands for itself, or the beginning of a rune *)
    assert (Hplain : st = json.stateInString
                     /\ Ascii.eqb c dquote = false /\ (code c <? 32) = false).
    { unfold inString_next in Hc.
      destruct (Ascii.eqb c dquote); [discriminate|].
      destruct (Ascii.eqb_spec c backslash); [done|].
      destruct (code c <? 32); [discriminate|]. by inversion Hc. }
    destruct Hplain as (-> & Hq & H32).
    assert (Hr : literalBody rest) by exact Hrest.
    destruct (code c <? utf8.RuneSelf) eqn:H128.
    + unfold json.unquote at 1; fold json.unquote.
      destruct (Ascii.eqb_spec c backslash); [done|].
      rewrite Hq, H32, H128. cbn [orb].
      apply is_Some_cons_byte, IH; [lia|done].
    + rewrite unquote_wide by done.
      destruct (utf8.DecodeRune (String c rest)) as [r size] eqn:Hd.
      apply is_Some_prepend.
      destruct ((r =? utf8.RuneError) && (size =? 1)) eqn:Herr.
      * apply andb_true_iff in Herr as [_ Hs]. apply Z.eqb_eq in Hs. subst size.
        apply IH; [simpl; lia|done].
      * destruct (DecodeRune_wide _ _ _ _ Hd H128 Herr)
          as [[-> (c1 & t & -> & W1)]
             |[[-> (c1 & c2 & t & -> & W1 & W2)]
              |[-> (c1 & c2 & c3 & t & -> & W1 & W2 & W3)]]];
          simpl in Hlt; cbn [after_rune tail];
          (apply IH; [lia|]);
          unfold literalBody in *; cbn [inString_run] in Hr;
          rewrite ?inString_next_wide in Hr by done; exact Hr.
Qed.


Lemma wfNode_JArray (es : list json.node) :
  wfNode (json.JArray es) <-> Forall wfNode es.
Proof.
  induction es as [|x es IH]; simpl.
  - split; [constructor|done].
  - simpl in IH. rewrite Forall_cons_iff. tauto.
Qed.

Lemma wfNode_JObject (ms : list (string * json.node)) :
  wfNode (json.JObject ms) <-> Forall wfMember ms.
Proof.
  induction ms as [|km ms IH]; simpl.
  - split; [constructor|done].
  - simpl in IH. rewrite Forall_cons_iff. unfold wfMember at 1. tauto.
Qed.

Lemma scanInv_intro st stack l v :
  Forall wfFrame stack ->
  (forall x, v = Some x -> wfNode x) ->
  (inStringStep st = true -> inString_run json.stateInString l = Some st) ->
  scanInv (json.Scanner st stack l v).
Proof. intros. by repeat split. Qed.

Lemma scanInv_error (s : json.scanner) :
  Forall wfFrame (json.parseState s) -> scanInv (json.scanError s).
Proof. intros H. apply scanInv_intro; [done|discriminate|discriminate]. Qed.

Lemma scanInv_pop stack (v : json.node) :
  Forall wfFrame stack -> wfNode v -> scanInv (json.popParseState stack v).
Proof.
  intros Hf Hv. destruct stack; apply scanInv_intro; try done;
    try discriminate; by intros x [= <-].
Qed.

Lemma scanInv_push (s : json.scanner) (f : json.frame) (st : json.stepfn) :
  Forall wfFrame (json.parseState s) -> wfFrame f -> inStringStep st = false ->
  scanInv (json.pushParseState s f st).
Proof.
  intros Hf Hw Hst. unfold json.pushParseState.
  destruct (_ <=? _); [|by apply scanInv_error].
  apply scanInv_intro; [by constructor|discriminate|]. by rewrite Hst.
Qed.

Lemma scanInv_endValue st stack l v (c : ascii) :
  Forall wfFrame stack -> (forall x, v = Some x -> wfNode x) ->
  scanInv (json.stateEndValue_step (json.Scanner st stack l v) c).
Proof.
  intros Hf Hv. unfold json.stateEndValue_step, json.stateEndTop_step.
  cbn [json.parseState json.val].
  destruct stack as [|f stack].
  { destruct (json.isSpace c); [|by apply scanInv_error].
    apply scanInv_intro; [done|done|discriminate]. }
  destruct (json.isSpace c); [apply scanInv_intro; [done|done|discriminate]|].
  apply Forall_cons_iff in Hf as [Hw Hf].
  assert (Herr : scanInv (json.scanError (json.Scanner st (f :: stack) l v)))
    by (apply scanInv_error; by constructor).
  destruct f as [ms|ms k|es]; destruct v as [x|]; try exact Herr; simpl in Hw.
  - destruct x; try exact Herr.
    destruct (Ascii.eqb c ":"); [|exact Herr].
    apply scanInv_intro; [|discriminate|discriminate].
    constructor; [|done]. split; [done|]. by apply (Hv (json.JString lit)).
  - destruct Hw as [Hms Hk].
    assert (Hms' : Forall wfMember (ms ++ [(k, x)])).
    { apply Forall_app. split; [done|]. constructor; [|done].
      split; [done|by apply Hv]. }
    destruct (Ascii.eqb c ",").
    { apply scanInv_intro; [by constructor|discriminate|discriminate]. }
    destruct (Ascii.eqb c "}"); [|exact Herr].
    apply scanInv_pop; [done|by apply wfNode_JObject].
  - assert (Hes' : Forall wfNode (es ++ [x])).
    { apply Forall_app. split; [done|]. constructor; [by apply Hv|done]. }
    destruct (Ascii.eqb c ",").
    { apply scanInv_intro; [by constructor|discriminate|discriminate]. }
    destruct (Ascii.eqb c "]"); [|exact Herr].
    apply scanInv_pop; [done|by apply wfNode_JArray].
Qed.

Lemma scanInv_beginValue st stack l v (c : ascii) :
  Forall wfFrame stack ->
  scanInv (json.stateBeginValue_step (json.Scanner st stack l v) c)
  \/ json.stateBeginValue_step (json.Scanner st stack l v) c
     = json.Scanner st stack l v.
Proof.
  intros Hf. unfold json.stateBeginValue_step.
  destruct (json.isSpace c); [by right|]. left.
  repeat match goal with
  | |- context [if ?b then _ else _] => destruct b
  end;
  try (apply scanInv_push; [done|by constructor|done]);
  try (by apply scanInv_error);
  apply scanInv_intro; try done; discriminate.
Qed.

Lemma scanInv_beginString st stack l v (c : ascii) :
  Forall wfFrame stack ->
  scanInv (json.stateBeginString_step (json.Scanner st stack l v) c)
  \/ json.stateBeginString_step (json.Scanner st stack l v) c
     = json.Scanner st stack l v.
Proof.
  intros Hf. unfold json.stateBeginString_step.
  destruct (json.isSpace c); [by right|]. left.
  destruct (Ascii.eqb c dquote); [|by apply scanInv_error].
  apply scanInv_intro; try done; discriminate.
Qed.

(** The scanner keeps its invariant. *)
Lemma scanInv_step (s : json.scanner) (c : ascii) :
  scanInv s -> scanInv (json.step_byte s c).
Proof.
  intros Hs. pose proof Hs as (Hf & Hv & Hl).
  destruct s as [st stack l v]. cbn [json.parseState json.val json.lit json.step] in *.
  assert (Herr : scanInv (json.scanError (json.Scanner st stack l v)))
    by (by apply scanInv_error).
  destruct (inStringStep st) eqn:Hin.
  - (* inside a string literal *)
    specialize (Hl eq_refl).
    destruct (inString_next st c) as [st'|] eqn:E.
    + rewrite (step_inString _ _ _ _ _ _ E).
      apply scanInv_intro; [done|done|]. intros _.
      unfold json.snoc. rewrite inString_run_app, Hl. cbn [inString_run].
      by rewrite E.
    + destruct st; try discriminate Hin;
        unfold json.step_byte, inString_next in *;
        cbn [json.step] in *;
        repeat match goal with
        | |- context [if ?b then _ else _] => destruct b
        end; try discriminate E; try exact Herr.
      apply scanInv_intro; [done| |discriminate].
      intros x [= <-]. exact Hl.
  - (* between literals, in a number or in a word *)
    destruct st; try discriminate Hin;
      unfold json.step_byte, json.state0_step, json.stateESign_step,
        json.stateWord, json.endNumber, json.endLiteral, json.continue;
      cbn [json.step json.parseState json.val json.lit];
      try (destruct (scanInv_beginValue json.stateBeginValue stack l v c Hf)
             as [H| ->]; [exact H|exact Hs]);
      try (destruct (scanInv_beginString json.stateBeginString stack l v c Hf)
             as [H| ->]; [exact H|exact Hs]);
      try (apply scanInv_endValue; [done|done]);
      repeat match goal with
      | |- context [if ?b then _ else _] => destruct b
      end;
      try exact Herr; try exact Hs;
      try (apply scanInv_endValue; [done|]; intros x [= <-]; exact I);
      try (apply scanInv_intro; [done| |discriminate];
           first [exact Hv | intros x [= <-]; exact I]).
    + (* stateBeginValueOrEmpty on a closing bracket *)
      destruct stack as [|[ms|ms k|es] stack]; try exact Herr.
      apply Forall_cons_iff in Hf as [Hw Hf].
      apply scanInv_pop; [done|by apply wfNode_JArray].
    + destruct (scanInv_beginValue json.stateBeginValueOrEmpty stack l v c Hf)
        as [H| ->]; [exact H|exact Hs].
    + (* stateBeginStringOrEmpty on a closing brace *)
      destruct stack as [|[ms|ms k|es] stack]; try exact Herr.
      apply Forall_cons_iff in Hf as [Hw Hf].
      apply scanInv_pop; [done|by apply wfNode_JObject].
    + destruct (scanInv_beginString json.stateBeginStringOrEmpty stack l v c Hf)
        as [H| ->]; [exact H|exact Hs].
    + unfold json.stateEndTop_step. destruct (json.isSpace c); [exact Hs|exact Herr].
Qed.

Lemma scanInv_scan (data : string) (s : json.scanner) :
  scanInv s -> scanInv (json.scan s data).
Proof.
  revert s. induction data as [|c data IH]; intros s Hs; simpl; [done|].
  by apply IH, scanInv_step.
Qed.

(** The syntax tree of valid input is well formed. *)
Theorem checkValid_wfNode (data : string) (n : json.node) :
  json.checkValid data = Some n -> wfNode n.
Proof.
  unfold json.checkValid, json.eof.
  assert (H0 : scanInv json.reset).
  { apply scanInv_intro; [constructor|discriminate|discriminate]. }
  pose proof (scanInv_scan data _ H0) as Hs.
  destruct (json.is_stateError _); [discriminate|].
  destruct (json.endTop (json.scan json.reset data)).
  { destruct Hs as (_ & Hv & _). intros H. by apply Hv. }
  pose proof (scanInv_step _ " "%char Hs) as (_ & Hv & _).
  destruct (json.endTop _); [|discriminate].
  intros H. by apply Hv.
Qed.


Lemma saveError_no_panic (saved e : option error) :
  saved <> Some PhasePanic -> e <> Some PhasePanic ->
  json.saveError saved e <> Some PhasePanic.
Proof. destruct saved; simpl; auto. Qed.

Lemma storeString_noPanic : noPanic json.storeString.
Proof.
  intros n v Hn. destruct n; simpl; try discriminate.
  destruct (unquote_literalBody lit Hn) as [s ->]. discriminate.
Qed.

Lemma storeBool_noPanic : noPanic json.storeBool.
Proof. intros n v Hn. destruct n; simpl; discriminate. Qed.

Lemma storeInt_noPanic : noPanic json.storeInt.
Proof.
  intros n v Hn. destruct n; simpl; try discriminate.
  destruct (strconv.ParseInt lit); discriminate.
Qed.

Lemma fieldOf_noPanic {S A : Type} (name : string) (get : S -> A)
    (set : A -> S -> S) (st : json.store A) :
  noPanic st -> noPanic (json.dstore (fieldOf name get set st)).
Proof.
  intros H n v Hn. simpl. specialize (H n (get v) Hn).
  by destruct (st n (get v)).
Qed.

Lemma findField_In {S : Type} (fields : list (json.dfield S)) (key : string)
    (f : json.dfield S) :
  json.findField fields key = Some f -> In f fields.
Proof.
  unfold json.findField.
  destruct (List.find _ fields) as [f'|] eqn:E.
  - intros [= <-]. by apply List.find_some in E as [? _].
  - intros E'. by apply List.find_some in E' as [? _].
Qed.

Lemma storeMembers_noPanic {S : Type} (fields : list (json.dfield S)) :
  Forall (fun f => noPanic (json.dstore f)) fields ->
  forall ms v saved, Forall wfMember ms -> saved <> Some PhasePanic ->
  snd (json.storeMembers fields ms v saved) <> Some PhasePanic.
Proof.
  intros Hfields ms. induction ms as [|[k n] ms IH]; intros v saved Hms Hsaved;
    simpl; [done|].
  apply Forall_cons_iff in Hms as [[Hk Hn] Hms]. simpl in Hk, Hn.
  destruct (unquote_literalBody k Hk) as [key ->].
  destruct (json.findField fields key) as [f|] eqn:E; [|by apply IH].
  apply findField_In in E.
  pose proof (proj1 (List.Forall_forall _ _) Hfields f E n v Hn) as Hf.
  destruct (json.dstore f n v) as [v' e]. apply IH; [done|].
  by apply saveError_no_panic.
Qed.

Lemma storeStruct_noPanic {S : Type} (fields : list (json.dfield S)) :
  Forall (fun f => noPanic (json.dstore f)) fields ->
  noPanic (json.storeStruct fields).
Proof.
  intros Hfields n v Hn. destruct n; simpl; try discriminate.
  apply storeMembers_noPanic; [done| |discriminate].
  by apply wfNode_JObject.
Qed.

Lemma storeElems_noPanic {A : Type} (zero : A) (elem : json.store A) :
  noPanic elem ->
  forall es old saved, Forall wfNode es -> saved <> Some PhasePanic ->
  snd (json.storeElems zero elem es old saved) <> Some PhasePanic.
Proof.
  intros Helem es. induction es as [|n es IH]; intros old saved Hes Hsaved;
    simpl; [done|].
  apply Forall_cons_iff in Hes as [Hn Hes].
  pose proof (Helem n (List.hd zero old) Hn) as He.
  destruct (elem n (List.hd zero old)) as [x e].
  specialize (IH (List.tl old) (json.saveError saved e) Hes
                (saveError_no_panic _ _ Hsaved He)).
  by destruct (json.storeElems zero elem es (List.tl old) (json.saveError saved e)).
Qed.

Lemma storeSlice_noPanic {A : Type} (zero : A) (elem : json.store A) :
  noPanic elem -> noPanic (json.storeSlice zero elem).
Proof.
  intros Helem n v Hn. destruct n; simpl; try discriminate.
  pose proof (storeElems_noPanic zero elem Helem elems (default [] v) None
                (proj1 (wfNode_JArray elems) Hn) ltac:(discriminate)) as H.
  by destruct (json.storeElems zero elem elems (default [] v) None).
Qed.

Lemma storeEntries_noPanic {A : Type} (zero : A) (elem : json.store A) :
  noPanic elem ->
  forall ms m saved, Forall wfMember ms -> saved <> Some PhasePanic ->
  snd (json.storeEntries zero elem ms m saved) <> Some PhasePanic.
Proof.
  intros Helem ms. induction ms as [|[k n] ms IH]; intros m saved Hms Hsaved;
    simpl; [done|].
  apply Forall_cons_iff in Hms as [[Hk Hn] Hms]. simpl in Hk, Hn.
  destruct (unquote_literalBody k Hk) as [key ->].
  pose proof (Helem n zero Hn) as He.
  destruct (elem n zero) as [x e]. apply IH; [done|].
  by apply saveError_no_panic.
Qed.

Lemma storeMap_noPanic {A : Type} (zero : A) (elem : json.store A) :
  noPanic elem -> noPanic (json.storeMap zero elem).
Proof.
  intros Helem n v Hn. destruct n; simpl; try discriminate.
  pose proof (storeEntries_noPanic zero elem Helem members (default ∅ v) None
                (proj1 (wfNode_JObject members) Hn) ltac:(discriminate)) as H.
  by destruct (json.storeEntries zero elem members (default ∅ v) None).
Qed.

(** [json.Unmarshal] never panics with a decoder that does not. *)
Theorem Unmarshal_noPanic {A : Type} (st : json.store A) (data : string) (v : A) :
  noPanic st -> snd (json.Unmarshal st data v) <> Some PhasePanic.
Proof.
  intros Hst. unfold json.Unmarshal.
  destruct (json.checkValid data) as [n|] eqn:E; [|discriminate].
  apply Hst. by apply (checkValid_wfNode data).
Qed.

Lemma Service_noPanic : noPanic (json.storeStruct Service_fields).
Proof.
  apply storeStruct_noPanic.
  repeat constructor;
    apply fieldOf_noPanic; (apply storeString_noPanic || apply storeBool_noPanic).
Qed.

Lemma OrderStatus_noPanic : noPanic (json.storeStruct OrderStatus_fields).
Proof.
  apply storeStruct_noPanic.
  repeat constructor; apply fieldOf_noPanic; apply storeString_noPanic.
Qed.

(** The four replies are decoded without a panic, whatever the body. *)
Theorem replies_noPanic (body : string) :
  snd (json.Unmarshal
         (json.storeSlice Service_zero (json.storeStruct Service_fields))
         body None) <> Some PhasePanic
  /\ snd (json.Unmarshal (json.storeStruct orderResponse_fields)
            body orderResponse_zero) <> Some PhasePanic
  /\ snd (json.Unmarshal (json.storeStruct OrderStatusResponse_fields)
            body OrderStatusResponse_zero) <> Some PhasePanic
  /\ snd (json.Unmarshal (json.storeStruct UserBalanceResponse_fields)
            body UserBalanceResponse_zero) <> Some PhasePanic.
Proof.
  split; [apply Unmarshal_noPanic, storeSlice_noPanic, Service_noPanic|].
  split; [apply Unmarshal_noPanic, storeStruct_noPanic; repeat constructor;
          apply fieldOf_noPanic, storeInt_noPanic|].
  split; apply Unmarshal_noPanic, storeStruct_noPanic.
  - repeat constructor.
    apply fieldOf_noPanic, storeMap_noPanic, OrderStatus_noPanic.
  - repeat constructor; apply fieldOf_noPanic, storeString_noPanic.
Qed.

(** ** Objects without the field decoded *)

Lemma findField_order_none (k : string) :
  String.eqb "order" k
  || String.eqb (json.foldName "order") (json.foldName k) = false ->
  json.findField orderResponse_fields k = None.
Proof.
  intros H. apply orb_false_elim in H as [H1 H2].
  unfold json.findField, orderResponse_fields, fieldOf.
  cbn [List.find json.dname]. rewrite H1.
  cbn [List.find json.dname]. by rewrite H2.
Qed.

(** Members that match no field leave the struct as it is. *)
Lemma storeMembers_skip (pre rest : list (string * json.node))
    (v : orderResponse) (saved : option error) :
  Forall wfMember pre ->
  hasField "order" pre = false ->
  json.storeMembers orderResponse_fields (pre ++ rest) v saved
  = json.storeMembers orderResponse_fields rest v saved.
Proof.
  induction pre as [|[k n] pre IH]; intros Hwf H; simpl in *; [reflexivity|].
  apply Forall_cons_iff in Hwf as [[Hk _] Hwf]. simpl in Hk.
  destruct (unquote_literalBody k Hk) as [key Hkey]. rewrite Hkey in *.
  apply orb_false_elim in H as [Hk' Hms].
  rewrite (findField_order_none key Hk'). by apply IH.
Qed.

Lemma storeMembers_lacks (ms : list (string * json.node)) :
  Forall wfMember ms ->
  hasField "order" ms = false ->
  json.storeStruct orderResponse_fields (json.JObject ms) orderResponse_zero
  = (orderResponse_zero, None).
Proof.
  intros Hwf H. unfold json.storeStruct.
  rewrite <- (app_nil_r ms). by rewrite storeMembers_skip.
Qed.

(** A key that matches [order], exactly or after folding, selects the one
    field of the reply struct. *)
Lemma findField_order_some (k : string) :
  String.eqb "order" k
  || String.eqb (json.foldName "order") (json.foldName k) = true ->
  json.findField orderResponse_fields k
  = Some (fieldOf "order" OrderID (fun x _ => mkOrderResponse x) json.storeInt).
Proof.
  unfold json.findField, orderResponse_fields.
  cbn [List.find json.dname fieldOf].
  destruct (String.eqb "order" k); [reflexivity|].
  cbn [List.find json.dname fieldOf orb]. by intros ->.
Qed.

(** An object with one member for [order], an integer literal that fits an
    [int], among members for no field: the order id is that integer. *)
Lemma store_order_among (pre post : list (string * json.node))
    (k l : string) (n : Z) :
  Forall wfMember (pre ++ (k, json.JNumber l) :: post) ->
  hasField "order" pre = false ->
  hasField "order" [(k, json.JNumber l)] = true ->
  hasField "order" post = false ->
  strconv.ParseInt l = Some n ->
  json.storeStruct orderResponse_fields
    (json.JObject (pre ++ (k, json.JNumber l) :: post)) orderResponse_zero
  = (mkOrderResponse n, None).
Proof.
  intros Hwf Hpre Hk Hpost Hl. unfold json.storeStruct.
  apply Forall_app in Hwf as [Hwpre Hwf].
  apply Forall_cons_iff in Hwf as [[Hwk _] Hwpost]. simpl in Hwk.
  rewrite storeMembers_skip by done.
  cbn [json.storeMembers]. unfold hasField in Hk. cbn [existsb fst] in Hk.
  destruct (json.unquote k) as [key|]; [|discriminate].
  rewrite orb_false_r in Hk. rewrite (findField_order_some key Hk).
  unfold fieldOf, json.dstore, json.storeInt. rewrite Hl.
  cbn [json.saveError].
  rewrite <- (app_nil_r post). by rewrite storeMembers_skip.
Qed.

(** ** The struct decoder on members in general *)

Lemma find_none_Forall {A : Type} (p : A -> bool) (l : list A) :
  Forall (fun x => p x = false) l -> List.find p l = None.
Proof. induction 1 as [|x l Hx _ IH]; simpl; [done|]. by rewrite Hx. Qed.

Lemma hasField_cons (name : string) (k : string) (n : json.node)
    (ms : list (string * json.node)) (key : string) :
  json.unquote k = Some key ->
  hasField name ((k, n) :: ms)
  = (String.eqb name key
     || String.eqb (json.foldName name) (json.foldName key))
    || hasField name ms.
Proof. intros H. unfold hasField. cbn [existsb fst]. by rewrite H. Qed.

(** A key that matches no field, exactly or after folding, selects none. *)
Lemma findField_unmatched {S : Type} (fields : list (json.dfield S))
    (key : string) :
  Forall (fun f =>
            String.eqb (json.dname f) key
            || String.eqb (json.foldName (json.dname f)) (json.foldName key)
            = false) fields ->
  json.findField fields key = None.
Proof.
  intros H. unfold json.findField.
  rewrite find_none_Forall.
  - apply find_none_Forall. eapply Forall_impl; [exact H|].
    intros f Hf. simpl in Hf. by apply orb_false_elim in Hf as [_ ?].
  - eapply Forall_impl; [exact H|].
    intros f Hf. simpl in Hf. by apply orb_false_elim in Hf as [? _].
Qed.

(** Members that match no field of the struct leave it as it is, and
    raise no error. *)
Lemma storeMembers_unmatched {S : Type} (fields : list (json.dfield S))
    (pre rest : list (string * json.node)) (v : S) (saved : option error) :
  Forall wfMember pre ->
  Forall (fun f => hasField (json.dname f) pre = false) fields ->
  json.storeMembers fields (pre ++ rest) v saved
  = json.storeMembers fields rest v saved.
Proof.
  induction pre as [|[k n] pre IH]; intros Hwf H; [reflexivity|].
  apply Forall_cons_iff in Hwf as [[Hk _] Hwf]. simpl in Hk.
  destruct (unquote_literalBody k Hk) as [key Hkey].
  cbn [app json.storeMembers]. rewrite Hkey.
  rewrite findField_unmatched.
  - apply IH; [done|]. eapply Forall_impl; [exact H|].
    intros f Hf. cbv beta in Hf. rewrite (hasField_cons _ _ _ _ _ Hkey) in Hf.
    by apply orb_false_elim in Hf as [_ ?].
  - eapply Forall_impl; [exact H|].
    intros f Hf. cbv beta in Hf. rewrite (hasField_cons _ _ _ _ _ Hkey) in Hf.
    by apply orb_false_elim in Hf as [? _].
Qed.

Lemma storeMembers_none {S : Type} (fields : list (json.dfield S))
    (ms : list (string * json.node)) (v : S) :
  Forall wfMember ms ->
  Forall (fun f => hasField (json.dname f) ms = false) fields ->
  json.storeStruct fields (json.JObject ms) v = (v, None).
Proof.
  intros Hwf H. unfold json.storeStruct.
  rewrite <- (app_nil_r ms). by rewrite storeMembers_unmatched.
Qed.

(** The first error is kept to the end. *)
Lemma storeMembers_saved {S : Type} (fields : list (json.dfield S))
    (ms : list (string * json.node)) :
  forall (v : S) (e : error),
  snd (json.storeMembers fields ms v (Some e)) = Some e.
Proof.
  induction ms as [|[k n] ms IH]; intros v e; simpl; [done|].
  destruct (json.unquote k) as [key|]; [|done].
  destruct (json.findField fields key) as [f|]; [|apply IH].
  destruct (json.dstore f n v) as [v' e']. apply IH.
Qed.

(** ** The library model on small inputs *)

Example Marshal_zero_runs :
  json.structEncoder (orderRequest (New "k") "7" "l" 10 (Some 0) None)
  = jtext "{'key':'k','action':'add','service':'7','link':'l','quantity':10,'runs':0}".
Proof. reflexivity. Qed.

Example Marshal_escapes :
  json.appendString (jtext "a<b>&'c'\")
  = jtext "'a\u003cb\u003e\u0026\'c\'\\'".
Proof. reflexivity. Qed.

Example Unmarshal_order_folded :
  json.Unmarshal (json.storeStruct orderResponse_fields)
    (jtext "{'ORDER': 7, 'other': [1, {'order': 2}]}") orderResponse_zero
  = (mkOrderResponse 7, None).
Proof. reflexivity. Qed.

Example Unmarshal_order_last_wins :
  json.Unmarshal (json.storeStruct orderResponse_fields)
    (jtext "{'order': 7, 'order': 8, 'order': null}") orderResponse_zero
  = (mkOrderResponse 8, None).
Proof. reflexivity. Qed.

Example Unmarshal_order_string :
  json.Unmarshal (json.storeStruct orderResponse_fields)
    (jtext "{'order': '7'}") orderResponse_zero
  = (mkOrderResponse 0, Some (UnmarshalTypeError "string")).
Proof. reflexivity. Qed.

Example Unmarshal_order_exponent :
  json.Unmarshal (json.storeStruct orderResponse_fields)
    (jtext "{'order': 1e2}") orderResponse_zero
  = (mkOrderResponse 0, Some (UnmarshalTypeError "number 1e2")).
Proof. reflexivity. Qed.

Example Unmarshal_order_range :
  json.Unmarshal (json.storeStruct orderResponse_fields)
    (jtext "{'order': 9223372036854775808}") orderResponse_zero
  = (mkOrderResponse 0, Some (UnmarshalTypeError "number 9223372036854775808")).
Proof. reflexivity. Qed.

Example Unmarshal_null_reply :
  json.Unmarshal (json.storeStruct orderResponse_fields) "null" orderResponse_zero
  = (mkOrderResponse 0, None).
Proof. reflexivity. Qed.

Example Unmarshal_trailing_garbage :
  json.Unmarshal (json.storeStruct orderResponse_fields)
    (jtext "{'order': 7} x") orderResponse_zero
  = (mkOrderResponse 0, Some SyntaxError).
Proof. reflexivity. Qed.

Example Unmarshal_services_null_and_empty :
  json.Unmarshal (json.storeSlice Service_zero (json.storeStruct Service_fields))
    "null" None = (None, None)
  /\ json.Unmarshal (json.storeSlice Service_zero (json.storeStruct Service_fields))
       "[]" None = (Some [], None)
  /\ json.Unmarshal (json.storeSlice Service_zero (json.storeStruct Service_fields))
       (jtext "{'error':'Invalid API key'}") None
     = (None, Some (UnmarshalTypeError "object")).
Proof. repeat split. Qed.

Example Unmarshal_order_status :
  let '(r, e) :=
    json.Unmarshal (json.storeStruct OrderStatusResponse_fields)
      (jtext "{'orderStatus': {'42': {'status':'Completed','remains':'0'}}}")
      OrderStatusResponse_zero in
  e = None
  /\ (OrderStatusResponse_OrderStatus r ≫= (.!! "42"))
     = Some (mkOrderStatus "" "" "Completed" "0" "" "").
Proof. vm_compute. split; reflexivity. Qed.

Example unquote_escapes :
  json.unquote (jtext "a\u0041\n\ud83d\ude00\ud83dz")
  = Some ("aA" +:+ String (chr 10) (utf8.EncodeRune 128512)
          +:+ utf8.EncodeRune utf8.RuneError +:+ "z").
Proof. reflexivity. Qed.

(** * The claims *)

Section Claims.

Variable url_Parse : string -> option error.
Variable Do : http.Request -> error + http.Response.

Lemma post_result (body : list json.field) (w : World) :
  fst (post url_Parse Do body w) =
    match url_Parse (endpoint (client w)) with
    | Some e => (EmptyString, Some e)
    | None =>
        match Do (requestOf (client w) (json.structEncoder body)) with
        | inl e => (EmptyString, Some e)
        | inr resp =>
            match http.ReadAll resp with
            | (_, Some e) => (EmptyString, Some e)
            | (b, None) => (b, None)
            end
        end
    end.
Proof.
  rewrite post_unfold.
  destruct (url_Parse _); [reflexivity|]. cbv zeta.
  destruct (Do _) as [e|resp]; [reflexivity|].
  destruct (http.ReadAll resp) as [b [e|]]; reflexivity.
Qed.

Lemma AddOrder_result (service link : string) (quantity : Z)
    (runs interval : option Z) (w : World) :
  fst (AddOrder url_Parse Do service link quantity runs interval w) =
    match fst (post url_Parse Do
                 (orderRequest (client w) service link quantity runs interval) w) with
    | (_, Some e) => (EmptyString, Some e)
    | (bytes, None) =>
        match json.Unmarshal (json.storeStruct orderResponse_fields)
                bytes orderResponse_zero with
        | (_, Some e) => (EmptyString, Some e)
        | (response, None) => (strconv.Itoa (OrderID response), None)
        end
    end.
Proof.
  unfold AddOrder.
  destruct (post _ _ _ w) as [[b [e|]] w']; [reflexivity|]. cbn [fst].
  destruct (json.Unmarshal _ b _) as [r [e|]]; reflexivity.
Qed.

Lemma ListServices_result (w : World) :
  fst (ListServices url_Parse Do w) =
    match fst (post url_Parse Do (servicesBody (client w)) w) with
    | (_, Some e) => (None, Some e)
    | (bytes, None) =>
        match json.Unmarshal
                (json.storeSlice Service_zero (json.storeStruct Service_fields))
                bytes None with
        | (_, Some e) => (None, Some e)
        | (response, None) => (response, None)
        end
    end.
Proof.
  unfold ListServices.
  destruct (post _ _ _ w) as [[b [e|]] w']; [reflexivity|]. cbn [fst].
  destruct (json.Unmarshal _ b _) as [r [e|]]; reflexivity.
Qed.

Lemma GetOrderStatus_result (orderID : string) (w : World) :
  fst (GetOrderStatus url_Parse Do orderID w) =
    match fst (post url_Parse Do (statusBody (client w) orderID) w) with
    | (_, Some e) => (OrderStatusResponse_zero, Some e)
    | (bytes, None) =>
        match json.Unmarshal (json.storeStruct OrderStatusResponse_fields)
                bytes OrderStatusResponse_zero with
        | (_, Some e) => (OrderStatusResponse_zero, Some e)
        | (response, None) => (response, None)
        end
    end.
Proof.
  unfold GetOrderStatus.
  destruct (post _ _ _ w) as [[b [e|]] w']; [reflexivity|]. cbn [fst].
  destruct (json.Unmarshal _ b _) as [r [e|]]; reflexivity.
Qed.

Lemma GetUserBalance_result (w : World) :
  fst (GetUserBalance url_Parse Do w) =
    match fst (post url_Parse Do (balanceBody (client w)) w) with
    | (_, Some e) => (UserBalanceResponse_zero, Some e)
    | (bytes, None) =>
        match json.Unmarshal (json.storeStruct UserBalanceResponse_fields)
                bytes UserBalanceResponse_zero with
        | (_, Some e) => (UserBalanceResponse_zero, Some e)
        | (response, None) => (response, None)
        end
    end.
Proof.
  unfold GetUserBalance.
  destruct (post _ _ _ w) as [[b [e|]] w']; [reflexivity|]. cbn [fst].
  destruct (json.Unmarshal _ b _) as [r [e|]]; reflexivity.
Qed.

(** C8. The client is not changed by any public operation: after
    ListServices, AddOrder, GetOrderStatus, GetUserBalance and RedditUpvote
    the JAPClient that the receiver points to (its key and its endpoint) is
    what it was before the call. *)
Theorem client_immutable (w : World) :
  client (snd (ListServices url_Parse Do w)) = client w
  /\ (forall service link quantity runs interval,
        client (snd (AddOrder url_Parse Do service link quantity runs interval w))
        = client w)
  /\ (forall orderID,
        client (snd (GetOrderStatus url_Parse Do orderID w)) = client w)
  /\ client (snd (GetUserBalance url_Parse Do w)) = client w
  /\ (forall link quantity,
        client (snd (RedditUpvote url_Parse Do link quantity w)) = client w).
Proof.
  repeat split; intros; unfold RedditUpvote;
    rewrite ?ListServices_world, ?AddOrder_world, ?GetOrderStatus_world,
      ?GetUserBalance_world; apply post_client.
Qed.

(** C9. Whenever a public operation returns an error, the result beside it
    is the zero value of its type: the nil slice for ListServices, the empty
    string for AddOrder (and RedditUpvote), an OrderStatusResponse with a
    nil map for GetOrderStatus and a UserBalanceResponse with empty balance
    and currency for GetUserBalance. *)
Theorem error_with_zero_value (w : World) (e : error) :
  (snd (fst (ListServices url_Parse Do w)) = Some e ->
   fst (fst (ListServices url_Parse Do w)) = None)
  /\ (forall service link quantity runs interval,
        snd (fst (AddOrder url_Parse Do service link quantity runs interval w))
        = Some e ->
        fst (fst (AddOrder url_Parse Do service link quantity runs interval w))
        = EmptyString)
  /\ (forall orderID,
        snd (fst (GetOrderStatus url_Parse Do orderID w)) = Some e ->
        fst (fst (GetOrderStatus url_Parse Do orderID w))
        = mkOrderStatusResponse None)
  /\ (snd (fst (GetUserBalance url_Parse Do w)) = Some e ->
      fst (fst (GetUserBalance url_Parse Do w))
      = mkUserBalanceResponse EmptyString EmptyString)
  /\ (forall link quantity,
        snd (fst (RedditUpvote url_Parse Do link quantity w)) = Some e ->
        fst (fst (RedditUpvote url_Parse Do link quantity w)) = EmptyString).
Proof.
  repeat split; intros *; unfold RedditUpvote;
    rewrite ?ListServices_result, ?AddOrder_result, ?GetOrderStatus_result,
      ?GetUserBalance_result;
    destruct (fst (post _ _ _ w)) as [b [e'|]]; try reflexivity;
    destruct (json.Unmarshal _ b _) as [r [e'|]]; try reflexivity;
    discriminate.
Qed.

(** The names of the request structs' tags are plain text for the scanner. *)
Lemma orderRequest_names (c : JAPClient) service link quantity runs interval :
  Forall (fun f => literalBody (json.name f))
    (orderRequest c service link quantity runs interval).
Proof. repeat constructor. Qed.

Lemma statusBody_names (c : JAPClient) orderID :
  Forall (fun f => literalBody (json.name f)) (statusBody c orderID).
Proof. repeat constructor. Qed.

(** Both sides are appends of fixed text and of the encodings of the
    fields: bring them to the same right-nested form. *)
Ltac encoded_bytes :=
  unfold json.appendString;
  repeat (progress (cbn -[strconv.FormatInt json.appendString_loop];
                    rewrite ?append_assoc, ?append_nil_r));
  reflexivity.

(** The bytes that AddOrder sends, with and without the drip-feed
    parameters. *)
Lemma orderRequest_bytes_nil (c : JAPClient) service link quantity :
  json.structEncoder (orderRequest c service link quantity None None) =
    jtext "{'key':" +:+ json.appendString (key c)
    +:+ jtext ",'action':'add','service':" +:+ json.appendString service
    +:+ jtext ",'link':" +:+ json.appendString link
    +:+ jtext ",'quantity':" +:+ strconv.Itoa quantity +:+ "}".
Proof.
  unfold json.structEncoder, orderRequest, json.encodeFields, json.nameEscHTML,
    json.valueEncoder, strconv.Itoa. cbn [json.omitEmpty json.isEmptyValue json.fv
    json.name andb jtext Ascii.eqb Bool.eqb].
  encoded_bytes.
Qed.

Lemma orderRequest_bytes_set (c : JAPClient) service link quantity r i :
  json.structEncoder (orderRequest c service link quantity (Some r) (Some i)) =
    jtext "{'key':" +:+ json.appendString (key c)
    +:+ jtext ",'action':'add','service':" +:+ json.appendString service
    +:+ jtext ",'link':" +:+ json.appendString link
    +:+ jtext ",'quantity':" +:+ strconv.Itoa quantity
    +:+ jtext ",'runs':" +:+ strconv.Itoa r
    +:+ jtext ",'interval':" +:+ strconv.Itoa i +:+ "}".
Proof.
  unfold json.structEncoder, orderRequest, json.encodeFields, json.nameEscHTML,
    json.valueEncoder, strconv.Itoa. cbn [json.omitEmpty json.isEmptyValue json.fv
    json.name andb jtext Ascii.eqb Bool.eqb].
  encoded_bytes.
Qed.

Lemma statusBody_bytes (c : JAPClient) orderID :
  json.structEncoder (statusBody c orderID) =
    jtext "{'key':" +:+ json.appendString (key c)
    +:+ jtext ",'action':'status','order':" +:+ json.appendString orderID +:+ "}".
Proof.
  unfold json.structEncoder, statusBody, json.encodeFields, json.nameEscHTML,
    json.valueEncoder. cbn [json.omitEmpty json.isEmptyValue json.fv
    json.name andb jtext Ascii.eqb Bool.eqb].
  encoded_bytes.
Qed.

(** What [post] returns when the request goes out and the body is read. *)
Lemma post_ok (body : list json.field) (w : World) resp b :
  url_Parse (endpoint (client w)) = None ->
  Do (requestOf (client w) (json.structEncoder body)) = inr resp ->
  http.ReadAll resp = (b, None) ->
  fst (post url_Parse Do body w) = (b, None).
Proof. intros H1 H2 H3. by rewrite post_result, H1, H2, H3. Qed.

(** C2. For every service id, link and quantity, AddOrder with nil [runs]
    and nil [interval] sends one request (none if the endpoint is not a
    URL) whose body is the object with the members key, action, service,
    link and quantity, in this order, and nothing else: the scanner reads
    exactly these five members from the bytes sent, so no member named
    [runs] or [interval] is there, be it with a null or a zero. *)
Theorem AddOrder_nil_runs_interval_omitted (service link : string)
    (quantity : Z) (w : World) :
  let c := client w in
  let payload :=
    json.structEncoder (orderRequest c service link quantity None None) in
  sent (snd (AddOrder url_Parse Do service link quantity None None w))
  = sent w ++ requestsFor url_Parse c payload
  /\ payload =
       jtext "{'key':" +:+ json.appendString (key c)
       +:+ jtext ",'action':'add','service':" +:+ json.appendString service
       +:+ jtext ",'link':" +:+ json.appendString link
       +:+ jtext ",'quantity':" +:+ strconv.Itoa quantity +:+ "}"
  /\ json.checkValid payload =
       Some (json.JObject
               [ ("key", json.JString (json.appendString_loop (key c)));
                 ("action", json.JString "add");
                 ("service", json.JString (json.appendString_loop service));
                 ("link", json.JString (json.appendString_loop link));
                 ("quantity", json.JNumber (strconv.Itoa quantity)) ])
  /\ (forall ms, json.checkValid payload = Some (json.JObject ms) ->
       ~ In "runs" (List.map fst ms) /\ ~ In "interval" (List.map fst ms)).
Proof.
  intros c payload.
  assert (Hv : json.checkValid payload =
       Some (json.JObject
               [ ("key", json.JString (json.appendString_loop (key c)));
                 ("action", json.JString "add");
                 ("service", json.JString (json.appendString_loop service));
                 ("link", json.JString (json.appendString_loop link));
                 ("quantity", json.JNumber (strconv.Itoa quantity)) ])).
  { unfold payload. rewrite checkValid_structEncoder by apply orderRequest_names.
    reflexivity. }
  split; [|split; [|split]].
  - rewrite AddOrder_world. apply post_sent.
  - apply orderRequest_bytes_nil.
  - exact Hv.
  - intros ms Hms. rewrite Hv in Hms. inversion Hms; subst ms. simpl.
    split; intros H; repeat (destruct H as [H|H]; [discriminate H|]); exact H.
Qed.

(** C3. For every service id, link, quantity and integers [r] and [i],
    AddOrder with [runs] pointing to [r] and [interval] pointing to [i]
    sends a body that ends with the members [runs] and [interval], whose
    values are the decimal texts of [r] and [i]; for Go ints these texts
    read back as [r] and [i]. *)
Theorem AddOrder_runs_interval_sent (service link : string) (quantity r i : Z)
    (w : World) :
  let c := client w in
  let payload :=
    json.structEncoder (orderRequest c service link quantity (Some r) (Some i)) in
  sent (snd (AddOrder url_Parse Do service link quantity (Some r) (Some i) w))
  = sent w ++ requestsFor url_Parse c payload
  /\ payload =
       jtext "{'key':" +:+ json.appendString (key c)
       +:+ jtext ",'action':'add','service':" +:+ json.appendString service
       +:+ jtext ",'link':" +:+ json.appendString link
       +:+ jtext ",'quantity':" +:+ strconv.Itoa quantity
       +:+ jtext ",'runs':" +:+ strconv.Itoa r
       +:+ jtext ",'interval':" +:+ strconv.Itoa i +:+ "}"
  /\ json.checkValid payload =
       Some (json.JObject
               [ ("key", json.JString (json.appendString_loop (key c)));
                 ("action", json.JString "add");
                 ("service", json.JString (json.appendString_loop service));
                 ("link", json.JString (json.appendString_loop link));
                 ("quantity", json.JNumber (strconv.Itoa quantity));
                 ("runs", json.JNumber (strconv.Itoa r));
                 ("interval", json.JNumber (strconv.Itoa i)) ])
  /\ (int64 r -> strconv.ParseInt (strconv.Itoa r) = Some r)
  /\ (int64 i -> strconv.ParseInt (strconv.Itoa i) = Some i).
Proof.
  intros c payload. split; [|split; [|split; [|split]]].
  - rewrite AddOrder_world. apply post_sent.
  - apply orderRequest_bytes_set.
  - unfold payload. rewrite checkValid_structEncoder by apply orderRequest_names.
    reflexivity.
  - apply ParseInt_FormatInt.
  - apply ParseInt_FormatInt.
Qed.

(** C10. AddOrder puts no condition on the quantity: for every integer,
    zero and the negative ones included, the body sent has one member
    [quantity], with the decimal text of that integer (which reads back as
    the integer).  Whenever the endpoint is a URL the request goes out,
    whatever the quantity, and an error that AddOrder then returns comes
    from the transport, from reading the reply or from decoding it. *)
Theorem AddOrder_any_quantity (service link : string) (quantity : Z)
    (runs interval : option Z) (w : World) :
  let c := client w in
  let payload :=
    json.structEncoder (orderRequest c service link quantity runs interval) in
  let call := AddOrder url_Parse Do service link quantity runs interval w in
  (exists ms,
      json.checkValid payload = Some (json.JObject ms)
      /\ In ("quantity", json.JNumber (strconv.Itoa quantity)) ms
      /\ List.filter (fun km => String.eqb (fst km) "quantity") ms
         = [("quantity", json.JNumber (strconv.Itoa quantity))])
  /\ (int64 quantity -> strconv.ParseInt (strconv.Itoa quantity) = Some quantity)
  /\ (url_Parse (endpoint c) = None ->
       sent (snd call) = sent w ++ [requestOf c payload])
  /\ (url_Parse (endpoint c) = None ->
       forall e, snd (fst call) = Some e ->
       Do (requestOf c payload) = inl e
       \/ exists resp b,
            Do (requestOf c payload) = inr resp
            /\ (http.ReadAll resp = (b, Some e)
                \/ (http.ReadAll resp = (b, None)
                    /\ snd (json.Unmarshal (json.storeStruct orderResponse_fields)
                              b orderResponse_zero) = Some e))).
Proof.
  intros c payload call. split; [|split; [|split]].
  - exists (membersOf (orderRequest c service link quantity runs interval)).
    split; [apply checkValid_structEncoder, orderRequest_names|].
    destruct runs, interval; simpl; tauto.
  - apply ParseInt_FormatInt.
  - intros Hurl. unfold call. rewrite AddOrder_world, post_sent.
    unfold requestsFor. fold c. by rewrite Hurl.
  - intros Hurl e. unfold call. rewrite AddOrder_result, post_result.
    fold c. rewrite Hurl. fold payload.
    destruct (Do (requestOf c payload)) as [e'|resp]; [intros [= ->]; by left|].
    destruct (http.ReadAll resp) as [b [e'|]] eqn:Hread.
    + intros [= ->]. right. exists resp, b. split; [done|by left].
    + destruct (json.Unmarshal _ b _) as [r [e'|]] eqn:Hu; [|discriminate].
      intros [= ->]. right. exists resp, b. split; [done|]. right.
      split; [done|]. by rewrite Hu.
Qed.

(** C6. For every client, GetOrderStatus("123") sends the body
    [{"key":<key>,"action":"status","order":"123"}], the key written as a
    JSON string: the scanner reads from it the three members key, action and
    order, and no other; their values unquote to "status", to "123" and, for
    a key of valid UTF-8, to the key itself. *)
Theorem GetOrderStatus_payload (w : World) :
  let c := client w in
  let payload := json.structEncoder (statusBody c "123") in
  sent (snd (GetOrderStatus url_Parse Do "123" w))
  = sent w ++ requestsFor url_Parse c payload
  /\ payload =
       jtext "{'key':" +:+ json.appendString (key c)
       +:+ jtext ",'action':'status','order':'123'}"
  /\ json.checkValid payload =
       Some (json.JObject
               [ ("key", json.JString (json.appendString_loop (key c)));
                 ("action", json.JString "status");
                 ("order", json.JString "123") ])
  /\ json.unquote "status" = Some "status"
  /\ json.unquote "123" = Some "123"
  /\ (utf8.ValidString (key c) = true ->
       json.unquote (json.appendString_loop (key c)) = Some (key c)).
Proof.
  intros c payload. split; [|split; [|split; [|split; [|split]]]].
  - rewrite GetOrderStatus_world. apply post_sent.
  - unfold payload. rewrite statusBody_bytes. encoded_bytes.
  - unfold payload. rewrite checkValid_structEncoder by apply statusBody_names.
    reflexivity.
  - reflexivity.
  - reflexivity.
  - apply unquote_appendString_loop.
Qed.

(** C5. RedditUpvote(link, quantity) is AddOrder with the service id
    "6228", that link, that quantity and nil [runs] and [interval]: the same
    result, the same effect, and the body sent names the service "6228" and
    has no drip-feed member. *)
Theorem RedditUpvote_is_AddOrder (link : string) (quantity : Z) (w : World) :
  let c := client w in
  let payload :=
    json.structEncoder (orderRequest c "6228" link quantity None None) in
  RedditUpvote url_Parse Do link quantity w
  = AddOrder url_Parse Do "6228" link quantity None None w
  /\ sent (snd (RedditUpvote url_Parse Do link quantity w))
     = sent w ++ requestsFor url_Parse c payload
  /\ payload =
       jtext "{'key':" +:+ json.appendString (key c)
       +:+ jtext ",'action':'add','service':'6228','link':"
       +:+ json.appendString link
       +:+ jtext ",'quantity':" +:+ strconv.Itoa quantity +:+ "}"
  /\ json.checkValid payload =
       Some (json.JObject
               [ ("key", json.JString (json.appendString_loop (key c)));
                 ("action", json.JString "add");
                 ("service", json.JString "6228");
                 ("link", json.JString (json.appendString_loop link));
                 ("quantity", json.JNumber (strconv.Itoa quantity)) ]).
Proof.
  intros c payload. split; [reflexivity|split; [|split]].
  - unfold RedditUpvote. rewrite AddOrder_world. apply post_sent.
  - unfold payload. rewrite orderRequest_bytes_nil. encoded_bytes.
  - unfold payload. rewrite checkValid_structEncoder by apply orderRequest_names.
    reflexivity.
Qed.

(** The scanner on a reply [{"order": N}]. *)
Lemma checkValid_order_reply (n : Z) :
  json.checkValid (jtext "{'order': " +:+ strconv.Itoa n +:+ "}")
  = Some (json.JObject [("order", json.JNumber (strconv.Itoa n))]).
Proof.
  unfold json.checkValid. rewrite scan_app.
  replace (json.scan json.reset (jtext "{'order': "))
    with (json.Scanner json.stateBeginValue
            [json.parseObjectValue [] "order"] EmptyString None)
    by (vm_compute; reflexivity).
  rewrite scan_app. unfold strconv.Itoa.
  destruct (scan_FormatInt n [json.parseObjectValue [] "order"] EmptyString None)
    as (st & [->| ->] & ->); reflexivity.
Qed.

Lemma store_order (l : string) (n : Z) :
  strconv.ParseInt l = Some n ->
  json.storeStruct orderResponse_fields
    (json.JObject [("order", json.JNumber l)]) orderResponse_zero
  = (mkOrderResponse n, None).
Proof.
  intros H. unfold json.storeStruct, json.storeMembers.
  replace (json.unquote "order") with (Some "order") by reflexivity.
  replace (json.findField orderResponse_fields "order")
    with (Some (fieldOf "order" OrderID (fun x _ => mkOrderResponse x)
                  json.storeInt)) by reflexivity.
  unfold fieldOf, json.dstore, json.storeInt. cbn [OrderID orderResponse_zero].
  by rewrite H.
Qed.

(** C4. When the request goes out and the body of the reply deserializes,
    without error, to the reply struct with order id [n], AddOrder returns
    the decimal text of [n] and no error.  That is so for every body that is
    a JSON object with one member for [order], an integer literal that fits
    an [int], whatever its other members; for every body [{"order": N}] with
    N the decimal text of a Go int; and the body [{"order": 555}] gives
    "555". *)
Theorem AddOrder_returns_order_id (service link : string) (quantity : Z)
    (runs interval : option Z) (w : World) (resp : http.Response) (body : string) :
  url_Parse (endpoint (client w)) = None ->
  Do (requestOf (client w)
        (json.structEncoder
           (orderRequest (client w) service link quantity runs interval)))
  = inr resp ->
  http.ReadAll resp = (body, None) ->
  (forall n,
      json.Unmarshal (json.storeStruct orderResponse_fields) body
        orderResponse_zero = (mkOrderResponse n, None) ->
      fst (AddOrder url_Parse Do service link quantity runs interval w)
      = (strconv.Itoa n, None))
  /\ (forall pre k l post n,
      json.checkValid body
      = Some (json.JObject (pre ++ (k, json.JNumber l) :: post)) ->
      hasField "order" pre = false ->
      hasField "order" [(k, json.JNumber l)] = true ->
      hasField "order" post = false ->
      strconv.ParseInt l = Some n ->
      fst (AddOrder url_Parse Do service link quantity runs interval w)
      = (strconv.Itoa n, None))
  /\ (forall n, int64 n ->
      body = jtext "{'order': " +:+ strconv.Itoa n +:+ "}" ->
      fst (AddOrder url_Parse Do service link quantity runs interval w)
      = (strconv.Itoa n, None))
  /\ (body = jtext "{'order': 555}" ->
      fst (AddOrder url_Parse Do service link quantity runs interval w)
      = ("555", None)).
Proof.
  intros Hurl Hdo Hread.
  assert (Hpost := post_ok _ w resp body Hurl Hdo Hread).
  assert (Hgen : forall n,
      json.Unmarshal (json.storeStruct orderResponse_fields) body
        orderResponse_zero = (mkOrderResponse n, None) ->
      fst (AddOrder url_Parse Do service link quantity runs interval w)
      = (strconv.Itoa n, None)).
  { intros n Hn. by rewrite AddOrder_result, Hpost, Hn. }
  split; [exact Hgen|split; [|split]].
  - intros pre k l post n Hv Hpre Hk Hpo Hl. apply Hgen.
    unfold json.Unmarshal. rewrite Hv. apply store_order_among; try done.
    apply wfNode_JObject. by apply (checkValid_wfNode body).
  - intros n Hn ->. apply Hgen. unfold json.Unmarshal.
    rewrite checkValid_order_reply. apply store_order.
    by apply ParseInt_FormatInt.
  - intros ->. apply (Hgen 555). vm_compute. reflexivity.
Qed.

(** C7. Given the response body of the listing example, ListServices
    returns, without error, a slice with the one Service of the example:
    Refill is true, Cancel is false and Min is the string "10". *)
Theorem ListServices_canned (w : World) (resp : http.Response) :
  url_Parse (endpoint (client w)) = None ->
  Do (requestOf (client w) (json.structEncoder (servicesBody (client w))))
  = inr resp ->
  http.ReadAll resp = (cannedServices, None) ->
  exists svc,
    fst (ListServices url_Parse Do w) = (Some [svc], None)
    /\ Service_Refill svc = true
    /\ Service_Cancel svc = false
    /\ Service_Min svc = "10"
    /\ svc = mkService "1" "Test" "Default" "Test" "1.00" "10" "1000" true false.
Proof.
  intros Hurl Hdo Hread.
  exists (mkService "1" "Test" "Default" "Test" "1.00" "10" "1000" true false).
  split; [|repeat split].
  rewrite ListServices_result, (post_ok _ w resp _ Hurl Hdo Hread).
  vm_compute. reflexivity.
Qed.

(** C1, as the code has it.  AddOrder returns an error, and the empty
    string with it, whenever the endpoint is refused, the transport fails,
    the body cannot be read, the body is not valid JSON, the body is valid
    JSON that is an array, a string, a number or a boolean, or the body is
    an object whose first member for the field [order] is not an integer
    that fits an [int].  A body that is a valid JSON object without a member
    for the field [order], or the body [null], is no error: the order id
    stays zero and AddOrder returns "0". *)
Theorem AddOrder_error_cases (service link : string) (quantity : Z)
    (runs interval : option Z) (w : World) :
  let req :=
    requestOf (client w)
      (json.structEncoder
         (orderRequest (client w) service link quantity runs interval)) in
  let result := fst (AddOrder url_Parse Do service link quantity runs interval w) in
  (forall e, url_Parse (endpoint (client w)) = Some e ->
      result = (EmptyString, Some e))
  /\ (forall e, url_Parse (endpoint (client w)) = None -> Do req = inl e ->
      result = (EmptyString, Some e))
  /\ (forall resp b e, url_Parse (endpoint (client w)) = None ->
      Do req = inr resp -> http.ReadAll resp = (b, Some e) ->
      result = (EmptyString, Some e))
  /\ (forall resp body, url_Parse (endpoint (client w)) = None ->
      Do req = inr resp -> http.ReadAll resp = (body, None) ->
      json.checkValid body = None ->
      result = (EmptyString, Some SyntaxError))
  /\ (forall resp body ms, url_Parse (endpoint (client w)) = None ->
      Do req = inr resp -> http.ReadAll resp = (body, None) ->
      json.checkValid body = Some (json.JObject ms) ->
      hasField "order" ms = false ->
      result = ("0", None))
  /\ (forall resp body n, url_Parse (endpoint (client w)) = None ->
      Do req = inr resp -> http.ReadAll resp = (body, None) ->
      json.checkValid body = Some n ->
      (forall es, n = json.JArray es ->
         result = (EmptyString, Some (UnmarshalTypeError "array")))
      /\ (forall l, n = json.JString l ->
            result = (EmptyString, Some (UnmarshalTypeError "string")))
      /\ (forall l, n = json.JNumber l ->
            result = (EmptyString, Some (UnmarshalTypeError "number")))
      /\ (forall b, n = json.JBool b ->
            result = (EmptyString, Some (UnmarshalTypeError "bool")))
      /\ (n = json.JNull -> result = ("0", None)))
  /\ (forall resp body pre k n post, url_Parse (endpoint (client w)) = None ->
      Do req = inr resp -> http.ReadAll resp = (body, None) ->
      json.checkValid body = Some (json.JObject (pre ++ (k, n) :: post)) ->
      hasField "order" pre = false ->
      hasField "order" [(k, n)] = true ->
      (forall l, n = json.JString l ->
         result = (EmptyString, Some (UnmarshalTypeError "string")))
      /\ (forall b, n = json.JBool b ->
            result = (EmptyString, Some (UnmarshalTypeError "bool")))
      /\ (forall es, n = json.JArray es ->
            result = (EmptyString, Some (UnmarshalTypeError "array")))
      /\ (forall ms, n = json.JObject ms ->
            result = (EmptyString, Some (UnmarshalTypeError "object")))
      /\ (forall l, n = json.JNumber l -> strconv.ParseInt l = None ->
            result = (EmptyString, Some (UnmarshalTypeError ("number " +:+ l))))).
Proof.
  intros req result. unfold result. rewrite AddOrder_result, post_result.
  fold req.
  split; [|split; [|split; [|split; [|split; [|split]]]]].
  - intros e ->. reflexivity.
  - intros e -> ->. reflexivity.
  - intros resp b e -> -> ->. reflexivity.
  - intros resp body -> -> -> Hv. unfold json.Unmarshal. by rewrite Hv.
  - intros resp body ms -> -> -> Hv Hl. unfold json.Unmarshal. rewrite Hv.
    rewrite (storeMembers_lacks ms); [reflexivity| |exact Hl].
    apply wfNode_JObject. by apply (checkValid_wfNode body).
  - intros resp body n -> -> -> Hv. unfold json.Unmarshal. rewrite Hv.
    repeat split; intros; subst n; reflexivity.
  - intros resp body pre k n post -> -> -> Hv Hpre Hk.
    unfold json.Unmarshal. rewrite Hv. cbn [json.storeStruct].
    assert (Hwf : Forall wfMember (pre ++ (k, n) :: post)).
    { apply wfNode_JObject. by apply (checkValid_wfNode body). }
    apply Forall_app in Hwf as [Hwpre Hwf].
    apply Forall_cons_iff in Hwf as [[Hwk _] _]. cbn [fst] in Hwk.
    destruct (unquote_literalBody k Hwk) as [key0 Hkey0].
    rewrite (hasField_cons _ _ _ _ _ Hkey0) in Hk.
    change (hasField "order" []) with false in Hk. rewrite orb_false_r in Hk.
    rewrite storeMembers_skip by done.
    cbn [json.storeMembers]. rewrite Hkey0, (findField_order_some key0 Hk).
    cbn [fieldOf json.dstore orderResponse_zero OrderID].
    assert (Hgen : forall e, snd (json.storeInt n 0) = Some e ->
              match
                (let '(v', e0) := let '(x, e0) := json.storeInt n 0 in
                                  (mkOrderResponse x, e0) in
                 json.storeMembers orderResponse_fields post v'
                   (json.saveError None e0))
              with
              | (_, Some e0) => (EmptyString, Some e0)
              | (response, None) => (strconv.Itoa (OrderID response), None)
              end = (EmptyString, Some e)).
    { intros e He. destruct (json.storeInt n 0) as [x e']. cbn [snd] in He.
      subst e'. cbn [json.saveError].
      pose proof (storeMembers_saved orderResponse_fields post
                    (mkOrderResponse x) e) as Hs.
      destruct (json.storeMembers _ post _ _) as [r e']. cbn [snd] in Hs.
      by subst e'. }
    repeat split; intros; subst n; apply Hgen; try reflexivity.
    simpl. by rewrite H0.
Qed.

End Claims.

(** * The theorems at concrete inputs *)

(** C1: a reply without [order] is no error.  The panel answers
    [{"error":"Incorrect request"}]; the body is valid JSON, it is an object
    with no member for [order], and AddOrder returns "0" with a nil error. *)
Lemma AddOrder_missing_order_counterexample :
  let body := jtext "{'error':'Incorrect request'}" in
  let url_Parse := fun _ : string => @None error in
  let Do := fun _ : http.Request =>
              @inr error http.Response (http.mkResponse 200 (body, None)) in
  let w := mkWorld (New "secret") [] in
  json.checkValid body
  = Some (json.JObject [("error", json.JString "Incorrect request")])
  /\ hasField "order" [("error", json.JString "Incorrect request")] = false
  /\ fst (AddOrder url_Parse Do "1" "https://example.com/p" 100 None None w)
     = ("0", None)
  /\ ~ (exists e,
          snd (fst (AddOrder url_Parse Do "1" "https://example.com/p" 100
                      None None w)) = Some e).
Proof.
  cbv zeta. split; [|split; [|split]]; try (vm_compute; reflexivity).
  intros [e He]. vm_compute in He. discriminate He.
Qed.

(** C1 as amended, on the replies that are errors (a refused endpoint, a
    failed round trip, a body that cannot be read, a body that is no JSON, an
    array, a string, a number, a boolean, an order id written as a string)
    and on those that are not (an error object, [null]). *)
Lemma AddOrder_error_cases_witness :
  let w := mkWorld (New "secret") [] in
  let ok := fun _ : string => @None error in
  let reply := fun (b : string) (e : option error) (_ : http.Request) =>
                 @inr error http.Response (http.mkResponse 200 (b, e)) in
  fst (AddOrder (fun _ => Some (EnvError "missing protocol scheme"))
         (reply EmptyString None) "1" "l" 10 None None w)
  = (EmptyString, Some (EnvError "missing protocol scheme"))
  /\ fst (AddOrder ok (fun _ => inl (EnvError "connection refused"))
            "1" "l" 10 None None w)
     = (EmptyString, Some (EnvError "connection refused"))
  /\ fst (AddOrder ok (reply "{" (Some (EnvError "unexpected EOF")))
            "1" "l" 10 None None w)
     = (EmptyString, Some (EnvError "unexpected EOF"))
  /\ fst (AddOrder ok (reply "<html>" None) "1" "l" 10 None None w)
     = (EmptyString, Some SyntaxError)
  /\ fst (AddOrder ok (reply (jtext "{'error':'Incorrect request'}") None)
            "1" "l" 10 None None w)
     = ("0", None)
  /\ fst (AddOrder ok (reply "[]" None) "1" "l" 10 None None w)
     = (EmptyString, Some (UnmarshalTypeError "array"))
  /\ fst (AddOrder ok (reply (jtext "'x'") None) "1" "l" 10 None None w)
     = (EmptyString, Some (UnmarshalTypeError "string"))
  /\ fst (AddOrder ok (reply "5" None) "1" "l" 10 None None w)
     = (EmptyString, Some (UnmarshalTypeError "number"))
  /\ fst (AddOrder ok (reply "true" None) "1" "l" 10 None None w)
     = (EmptyString, Some (UnmarshalTypeError "bool"))
  /\ fst (AddOrder ok (reply "null" None) "1" "l" 10 None None w)
     = ("0", None)
  /\ fst (AddOrder ok (reply (jtext "{'order':'555'}") None)
            "1" "l" 10 None None w)
     = (EmptyString, Some (UnmarshalTypeError "string"))
  /\ fst (AddOrder ok (reply (jtext "{'order':5.5,'order':7}") None)
            "1" "l" 10 None None w)
     = (EmptyString, Some (UnmarshalTypeError "number 5.5")).
Proof.
  intros w ok reply.
  pose (kinds := fun b n =>
          proj1 (proj2 (proj2 (proj2 (proj2 (proj2
            (AddOrder_error_cases ok (reply b None) "1" "l" 10 None None w))))))
            (http.mkResponse 200 (b, None)) b n eq_refl eq_refl eq_refl).
  pose (member := fun b k n post =>
          proj2 (proj2 (proj2 (proj2 (proj2 (proj2
            (AddOrder_error_cases ok (reply b None) "1" "l" 10 None None w))))))
            (http.mkResponse 200 (b, None)) b [] k n post
            eq_refl eq_refl eq_refl).
  split; [|split; [|split; [|split; [|split]]]].
  - apply (proj1 (AddOrder_error_cases
                    (fun _ => Some (EnvError "missing protocol scheme"))
                    (reply EmptyString None) "1" "l" 10 None None w)).
    reflexivity.
  - apply (proj1 (proj2 (AddOrder_error_cases ok
                    (fun _ => inl (EnvError "connection refused"))
                    "1" "l" 10 None None w))); reflexivity.
  - apply (proj1 (proj2 (proj2 (AddOrder_error_cases ok
                    (reply "{" (Some (EnvError "unexpected EOF")))
                    "1" "l" 10 None None w)))
             (http.mkResponse 200 ("{", Some (EnvError "unexpected EOF"))) "{");
      reflexivity.
  - apply (proj1 (proj2 (proj2 (proj2 (AddOrder_error_cases ok
                    (reply "<html>" None) "1" "l" 10 None None w))))
             (http.mkResponse 200 ("<html>", None)) "<html>");
      reflexivity.
  - apply (proj1 (proj2 (proj2 (proj2 (proj2 (AddOrder_error_cases ok
                    (reply (jtext "{'error':'Incorrect request'}") None)
                    "1" "l" 10 None None w)))))
             (http.mkResponse 200 (jtext "{'error':'Incorrect request'}", None))
             (jtext "{'error':'Incorrect request'}")
             [("error", json.JString "Incorrect request")]);
      reflexivity.
  - split; [|split; [|split; [|split; [|split; [|split]]]]].
    + exact (proj1 (kinds "[]" (json.JArray []) eq_refl) [] eq_refl).
    + exact (proj1 (proj2 (kinds (jtext "'x'") (json.JString "x") eq_refl))
               "x" eq_refl).
    + exact (proj1 (proj2 (proj2 (kinds "5" (json.JNumber "5") eq_refl)))
               "5" eq_refl).
    + exact (proj1 (proj2 (proj2 (proj2 (kinds "true" (json.JBool true) eq_refl))))
               true eq_refl).
    + exact (proj2 (proj2 (proj2 (proj2 (kinds "null" json.JNull eq_refl))))
               eq_refl).
    + exact (proj1 (member (jtext "{'order':'555'}") "order"
                      (json.JString "555") [] eq_refl eq_refl eq_refl)
               "555" eq_refl).
    + exact (proj2 (proj2 (proj2 (proj2
               (member (jtext "{'order':5.5,'order':7}") "order"
                  (json.JNumber "5.5") [("order", json.JNumber "7")]
                  eq_refl eq_refl eq_refl))))
               "5.5" eq_refl eq_refl).
Defined.

(** C2 on an order of ten for the client with key "secret". *)
Lemma AddOrder_nil_runs_interval_omitted_witness :
  let w := mkWorld (New "secret") [] in
  let ok := fun _ : string => @None error in
  let Do := fun _ : http.Request => @inl error http.Response (EnvError "down") in
  let ms := [ ("key", json.JString "secret"); ("action", json.JString "add");
              ("service", json.JString "1"); ("link", json.JString "l");
              ("quantity", json.JNumber "10") ] in
  json.checkValid (json.structEncoder (orderRequest (New "secret") "1" "l" 10 None None))
  = Some (json.JObject ms)
  /\ ~ In "runs" (List.map fst ms) /\ ~ In "interval" (List.map fst ms).
Proof.
  intros w ok Do ms.
  assert (H : json.checkValid
                (json.structEncoder (orderRequest (New "secret") "1" "l" 10 None None))
              = Some (json.JObject ms)) by reflexivity.
  split; [exact H|].
  exact (proj2 (proj2 (proj2
           (AddOrder_nil_runs_interval_omitted ok Do "1" "l" 10 w))) ms H).
Defined.

(** C3 for three runs, sixty apart. *)
Lemma AddOrder_runs_interval_sent_witness :
  int64 3 /\ int64 60
  /\ strconv.ParseInt (strconv.Itoa 3) = Some 3
  /\ strconv.ParseInt (strconv.Itoa 60) = Some 60.
Proof.
  assert (H3 : int64 3) by (unfold int64; lia).
  assert (H60 : int64 60) by (unfold int64; lia).
  pose proof (AddOrder_runs_interval_sent (fun _ => None)
                (fun _ => inl (EnvError "down")) "1" "l" 10 3 60
                (mkWorld (New "secret") [])) as H.
  cbv zeta in H. destruct H as (_ & _ & _ & Hr & Hi).
  split; [exact H3|split; [exact H60|split; [exact (Hr H3)|exact (Hi H60)]]].
Defined.

(** C4 on the reply [{"order": 555}]. *)
Lemma AddOrder_returns_order_id_witness :
  let w := mkWorld (New "secret") [] in
  let body := jtext "{'order': 555}" in
  let ok := fun _ : string => @None error in
  let Do := fun _ : http.Request =>
              @inr error http.Response (http.mkResponse 200 (body, None)) in
  int64 555
  /\ json.Unmarshal (json.storeStruct orderResponse_fields) body orderResponse_zero
     = (mkOrderResponse 555, None)
  /\ json.checkValid body = Some (json.JObject [("order", json.JNumber "555")])
  /\ hasField "order" [("order", json.JNumber "555")] = true
  /\ strconv.ParseInt "555" = Some 555
  /\ fst (AddOrder ok Do "1" "l" 10 None None w) = ("555", None).
Proof.
  intros w body ok Do.
  assert (Hi : int64 555) by (unfold int64; lia).
  assert (Hu : json.Unmarshal (json.storeStruct orderResponse_fields) body
                 orderResponse_zero = (mkOrderResponse 555, None))
    by reflexivity.
  assert (Hv : json.checkValid body
               = Some (json.JObject ([] ++ [("order", json.JNumber "555")])))
    by reflexivity.
  assert (Hk : hasField "order" [("order", json.JNumber "555")] = true)
    by reflexivity.
  assert (Hl : strconv.ParseInt "555" = Some 555) by reflexivity.
  pose proof (AddOrder_returns_order_id ok Do "1" "l" 10 None None w
                (http.mkResponse 200 (body, None)) body
                eq_refl eq_refl eq_refl) as (H1 & H2 & H3 & H4).
  pose proof (H1 555 Hu) as R1.
  pose proof (H2 [] "order" "555" [] 555 Hv eq_refl Hk eq_refl Hl) as R2.
  pose proof (H3 555 Hi eq_refl) as R3.
  split; [exact Hi|split; [exact Hu|split; [exact Hv|split; [exact Hk|]]]].
  split; [exact Hl|exact (H4 eq_refl)].
Defined.

(** C7 with a transport that answers the listing example. *)
Lemma ListServices_canned_witness :
  let w := mkWorld (New "secret") [] in
  let ok := fun _ : string => @None error in
  let Do := fun _ : http.Request =>
              @inr error http.Response (http.mkResponse 200 (cannedServices, None)) in
  exists svc,
    fst (ListServices ok Do w) = (Some [svc], None)
    /\ Service_Refill svc = true /\ Service_Cancel svc = false
    /\ Service_Min svc = "10".
Proof.
  intros w ok Do.
  destruct (ListServices_canned ok Do w (http.mkResponse 200 (cannedServices, None))
              eq_refl eq_refl eq_refl) as (svc & H1 & H2 & H3 & H4 & _).
  exists svc. split; [exact H1|split; [exact H2|split; [exact H3|exact H4]]].
Defined.

(** C9 with a transport that refuses every connection. *)
Lemma error_with_zero_value_witness :
  let w := mkWorld (New "secret") [] in
  let ok := fun _ : string => @None error in
  let e := EnvError "connection refused" in
  let Do := fun _ : http.Request => @inl error http.Response e in
  (snd (fst (ListServices ok Do w)) = Some e
   /\ fst (fst (ListServices ok Do w)) = None)
  /\ (snd (fst (AddOrder ok Do "1" "l" 10 None None w)) = Some e
      /\ fst (fst (AddOrder ok Do "1" "l" 10 None None w)) = EmptyString)
  /\ (snd (fst (GetOrderStatus ok Do "42" w)) = Some e
      /\ fst (fst (GetOrderStatus ok Do "42" w)) = mkOrderStatusResponse None)
  /\ (snd (fst (GetUserBalance ok Do w)) = Some e
      /\ fst (fst (GetUserBalance ok Do w))
         = mkUserBalanceResponse EmptyString EmptyString)
  /\ (snd (fst (RedditUpvote ok Do "l" 10 w)) = Some e
      /\ fst (fst (RedditUpvote ok Do "l" 10 w)) = EmptyString).
Proof.
  intros w ok e Do.
  destruct (error_with_zero_value ok Do w e) as (H1 & H2 & H3 & H4 & H5).
  split; [split; [reflexivity|exact (H1 eq_refl)]|].
  split; [split; [reflexivity|exact (H2 "1" "l" 10 None None eq_refl)]|].
  split; [split; [reflexivity|exact (H3 "42" eq_refl)]|].
  split; [split; [reflexivity|exact (H4 eq_refl)]|].
  split; [reflexivity|exact (H5 "l" 10 eq_refl)].
Defined.

(** C10 for the quantity -5. *)
Lemma AddOrder_any_quantity_witness :
  let w := mkWorld (New "secret") [] in
  let ok := fun _ : string => @None error in
  let e := EnvError "down" in
  let Do := fun _ : http.Request => @inl error http.Response e in
  let payload :=
    jtext "{'key':'secret','action':'add','service':'1','link':'l','quantity':-5}" in
  int64 (-5)
  /\ strconv.ParseInt (strconv.Itoa (-5)) = Some (-5)
  /\ ok (endpoint (client w)) = None
  /\ sent (snd (AddOrder ok Do "1" "l" (-5) None None w))
     = [requestOf (client w) payload]
  /\ snd (fst (AddOrder ok Do "1" "l" (-5) None None w)) = Some e
  /\ Do (requestOf (client w) payload) = inl e.
Proof.
  intros w ok e Do payload.
  assert (Hi : int64 (-5)) by (unfold int64; lia).
  assert (Hurl : ok (endpoint (client w)) = None) by reflexivity.
  assert (He : snd (fst (AddOrder ok Do "1" "l" (-5) None None w)) = Some e)
    by reflexivity.
  destruct (AddOrder_any_quantity ok Do "1" "l" (-5) None None w)
    as (_ & Hp & Hs & Herr).
  split; [exact Hi|split; [exact (Hp Hi)|split; [exact Hurl|]]].
  split; [exact (Hs Hurl)|split; [exact He|]].
  destruct (Herr Hurl e He) as [H|(resp & b & H & _)]; [exact H|discriminate H].
Defined.

(** C6 for the key "secret". *)
Lemma GetOrderStatus_payload_witness :
  let w := mkWorld (New "secret") [] in
  utf8.ValidString (key (client w)) = true
  /\ json.unquote (json.appendString_loop (key (client w))) = Some "secret".
Proof.
  intros w.
  assert (Hv : utf8.ValidString (key (client w)) = true) by reflexivity.
  split; [exact Hv|].
  exact (proj2 (proj2 (proj2 (proj2 (proj2
           (GetOrderStatus_payload (fun _ => None)
              (fun _ => inl (EnvError "down")) w))))) Hv).
Defined.

(** * Further properties of the client

    What the code does beyond the cases above: the requests of the other
    operations, the errors that pass through every operation, and the
    replies as the decoder reads them. *)

(** ** Text that the encoder writes as it is *)

Lemma servicesBody_names (c : JAPClient) :
  Forall (fun f => literalBody (json.name f)) (servicesBody c).
Proof. repeat constructor. Qed.

Lemma balanceBody_names (c : JAPClient) :
  Forall (fun f => literalBody (json.name f)) (balanceBody c).
Proof. repeat constructor. Qed.

Lemma isDigit_htmlSafe (c : ascii) :
  strconv.isDigit c = true ->
  (code c <? utf8.RuneSelf) = true /\ json.htmlSafeSet (code c) = true.
Proof.
  unfold strconv.isDigit, json.htmlSafeSet, utf8.RuneSelf. intros H.
  apply andb_prop in H as [H1 H2].
  apply Z.leb_le in H1. apply Z.leb_le in H2.
  split; [apply Z.ltb_lt; lia|].
  repeat (apply andb_true_intro; split);
    first [apply Z.leb_le; lia | apply Z.ltb_lt; lia
          | apply negb_true_iff, Z.eqb_neq; lia].
Qed.

Lemma appendString_loop_digits (s : string) :
  allDigits s = true -> json.appendString_loop s = s.
Proof.
  induction s as [|c s IH]; [reflexivity|]. simpl allDigits.
  intros H. apply andb_prop in H as [Hc Hs].
  destruct (isDigit_htmlSafe c Hc) as [H1 H2].
  simpl. rewrite H1, H2. by rewrite IH.
Qed.

Lemma allDigits_FormatUint (u : Z) :
  0 <= u -> allDigits (strconv.FormatUint u) = true.
Proof. intros Hu. by apply formatBits_digits. Qed.

(** A decimal text holds nothing that the string encoder escapes. *)
Lemma appendString_loop_FormatInt (i : Z) :
  json.appendString_loop (strconv.FormatInt i) = strconv.FormatInt i.
Proof.
  unfold strconv.FormatInt. destruct (i <? 0) eqn:E.
  - apply Z.ltb_lt in E.
    change (json.appendString_loop (String "-" (strconv.FormatUint (- i))))
      with (String "-"%char (json.appendString_loop (strconv.FormatUint (- i)))).
    rewrite appendString_loop_digits; [done|]. apply allDigits_FormatUint. lia.
  - apply Z.ltb_ge in E. apply appendString_loop_digits.
    by apply allDigits_FormatUint.
Qed.

Lemma FormatInt_nonempty (i : Z) : strconv.FormatInt i <> EmptyString.
Proof.
  unfold strconv.FormatInt. destruct (i <? 0) eqn:E; [discriminate|].
  apply Z.ltb_ge in E.
  destruct (FormatUint_nonempty i E) as (d & ds & -> & _). discriminate.
Qed.

(** ** The range of [strconv.ParseInt] *)

Lemma parseDigits_nonneg (s : string) :
  forall acc n, 0 <= acc -> strconv.parseDigits s acc = Some n -> 0 <= n.
Proof.
  induction s as [|c s IH]; intros acc n Hacc; simpl.
  - intros [= <-]. done.
  - destruct (strconv.isDigit c) eqn:Hc; [|discriminate].
    unfold strconv.isDigit in Hc. apply andb_prop in Hc as [H1 _].
    apply Z.leb_le in H1. apply IH. lia.
Qed.

Lemma ParseUint_nonneg (s : string) (n : Z) :
  strconv.ParseUint s = Some n -> 0 <= n.
Proof.
  unfold strconv.ParseUint. destruct s; [discriminate|].
  by apply parseDigits_nonneg.
Qed.

Lemma ParseInt_int64 (s : string) (i : Z) :
  strconv.ParseInt s = Some i -> int64 i.
Proof.
  unfold strconv.ParseInt, int64. destruct s as [|c s]; [discriminate|].
  destruct (if Ascii.eqb c "+" then (false, s)
            else if Ascii.eqb c "-" then (true, s) else (false, String c s))
    as [neg s0].
  destruct (strconv.ParseUint s0) as [un|] eqn:E; [|discriminate].
  apply ParseUint_nonneg in E.
  destruct neg; cbn [negb andb].
  - destruct (2 ^ 63 <? un) eqn:C; [discriminate|].
    apply Z.ltb_ge in C. intros [= <-]. lia.
  - destruct (2 ^ 63 <=? un) eqn:C; [discriminate|].
    apply Z.leb_gt in C. intros [= <-]. lia.
Qed.

(** ** The slice decoder *)

(** Decoded into a nil slice, every element of the array is decoded on
    its own into a zero element; the error kept is the first one. *)
Lemma storeElems_nil {A : Type} (zero : A) (elem : json.store A)
    (es : list json.node) :
  forall saved,
  json.storeElems zero elem es [] saved
  = (List.map (fun n => fst (elem n zero)) es,
     json.saveError saved (head (omap (fun n => snd (elem n zero)) es))).
Proof.
  induction es as [|n es IH]; intros saved; simpl.
  - by destruct saved.
  - destruct (elem n zero) as [x e] eqn:E. rewrite IH. cbn [fst snd].
    f_equal. destruct saved, e; reflexivity.
Qed.

(** ** The map decoder *)

(** The entry under a key is decoded from the last member with that key,
    into a zero element. *)
Lemma storeEntries_lookup {A : Type} (zero : A) (elem : json.store A)
    (ms : list (string * json.node)) (key : string) :
  Forall wfMember ms ->
  forall m saved,
  fst (json.storeEntries zero elem ms m saved) !! key
  = match last (List.filter
                  (fun kn => bool_decide (json.unquote (fst kn) = Some key)) ms) with
    | Some kn => Some (fst (elem (snd kn) zero))
    | None => m !! key
    end.
Proof.
  induction 1 as [|[k n] ms [Hk _] Hms IH]; intros m saved; [reflexivity|].
  simpl in Hk. destruct (unquote_literalBody k Hk) as [key' Hkey].
  cbn [json.storeEntries List.filter fst]. rewrite Hkey.
  destruct (elem n zero) as [x e] eqn:E. rewrite IH.
  destruct (bool_decide (Some key' = Some key)) eqn:D.
  - apply bool_decide_eq_true in D as [= ->].
    destruct (List.filter _ ms) as [|kn l] eqn:F.
    + simpl. by rewrite lookup_insert_eq, E.
    + rewrite last_cons_cons. destruct (last (kn :: l)) eqn:L; [done|].
      apply last_None in L. discriminate L.
  - apply bool_decide_eq_false in D.
    destruct (last (List.filter _ ms)); [done|].
    rewrite lookup_insert_ne; [done|congruence].
Qed.

Lemma storeEntries_errors {A : Type} (zero : A) (elem : json.store A)
    (ms : list (string * json.node)) :
  Forall wfMember ms ->
  Forall (fun kn => snd (elem (snd kn) zero) = None) ms ->
  forall m saved, snd (json.storeEntries zero elem ms m saved) = saved.
Proof.
  induction 1 as [|[k n] ms [Hk _] Hms IH]; intros Hok m saved; [reflexivity|].
  apply Forall_cons_iff in Hok as [Hn Hok]. simpl in Hk, Hn.
  destruct (unquote_literalBody k Hk) as [key' Hkey].
  cbn [json.storeEntries]. rewrite Hkey.
  destruct (elem n zero) as [x e]. simpl in Hn. subst e.
  rewrite IH by done. by destruct saved.
Qed.


(** ** The scanner on an encoded struct inside other values *)

Lemma scan_key_in (f : json.field) stack ms (st : json.stepfn) :
  st = json.stateBeginString \/ st = json.stateBeginStringOrEmpty ->
  literalBody (json.name f) ->
  json.scan (json.Scanner st (json.parseObjectKey ms :: stack) EmptyString None)
    (json.nameEscHTML f)
  = json.Scanner json.stateBeginValue
      (json.parseObjectValue ms (json.name f) :: stack) EmptyString None.
Proof.
  intros Hst Hb. unfold json.nameEscHTML.
  change (String dquote (json.name f +:+ String dquote ":"))
    with (String dquote (json.name f +:+ (String dquote EmptyString +:+ ":"))).
  rewrite <- append_assoc.
  change (String dquote ((json.name f +:+ String dquote EmptyString) +:+ ":"))
    with (String dquote (json.name f +:+ String dquote EmptyString) +:+ ":").
  rewrite scan_app, scan_string_literal by tauto.
  reflexivity.
Qed.

Lemma scan_value_in (v : json.value) stack ms k :
  awaitsIn stack
    (json.scan
       (json.Scanner json.stateBeginValue (json.parseObjectValue ms k :: stack)
          EmptyString None)
       (json.valueEncoder v))
    "," (ms ++ [(k, nodeOf v)]).
Proof.
  assert (Hnum : forall st l, st = json.state0 \/ st = json.state1 ->
            awaitsIn stack
              (json.Scanner st (json.parseObjectValue ms k :: stack) l None) ","
              (ms ++ [(k, json.JNumber l)])).
  { intros st l [->| ->];
      (split; [exists json.stateBeginString; split; [by left|]|intros _]);
      reflexivity. }
  destruct v as [str|i|[i|]]; simpl json.valueEncoder; simpl nodeOf.
  - unfold json.appendString.
    rewrite scan_string_literal;
      [|tauto|apply literalBody_appendString_loop].
    split; [exists json.stateBeginString; split; [by left|]|intros _]; reflexivity.
  - destruct (scan_FormatInt i (json.parseObjectValue ms k :: stack)
                EmptyString None) as (st & Hst & ->).
    by apply Hnum.
  - destruct (scan_FormatInt i (json.parseObjectValue ms k :: stack)
                EmptyString None) as (st & Hst & ->).
    by apply Hnum.
  - split; [exists json.stateBeginString; split; [by left|]|intros _]; reflexivity.
Qed.

Lemma encodeFields_scan_in (fs : list json.field) stack :
  Forall (fun f => literalBody (json.name f)) fs ->
  forall (next : ascii) (s : json.scanner) ms,
  awaitsIn stack s next ms ->
  awaitsIn stack (json.scan s (fst (json.encodeFields fs next)))
    (snd (json.encodeFields fs next)) (ms ++ membersOf fs)
  /\ (snd (json.encodeFields fs next) = next
       \/ snd (json.encodeFields fs next) = ","%char)
  /\ (snd (json.encodeFields fs next) = next ->
       next <> ","%char ->
       fst (json.encodeFields fs next) = EmptyString /\ membersOf fs = []).
Proof.
  induction 1 as [|f fs Hf Hfs IH]; intros next s ms Hs.
  - simpl. rewrite app_nil_r. auto.
  - rewrite encodeFields_cons, membersOf_cons.
    destruct (keptField f); [|by apply IH].
    destruct Hs as [(st & Hst & Hnext) _].
    set (s1 := json.scan
                 (json.Scanner json.stateBeginValue
                    (json.parseObjectValue ms (json.name f) :: stack)
                    EmptyString None)
                 (json.valueEncoder (json.fv f))).
    assert (Hs1 : awaitsIn stack s1 "," (ms ++ [(json.name f, nodeOf (json.fv f))]))
      by apply scan_value_in.
    destruct (IH ","%char s1 _ Hs1) as (Ha & Hn & _).
    destruct (json.encodeFields fs ",") as [out next'] eqn:E.
    cbn [fst snd] in *.
    assert (Hn' : next' = ","%char) by tauto. subst next'.
    split; [|split; [by right|]].
    + rewrite scan_cons, Hnext, scan_app, scan_key_in, scan_app by done.
      fold s1. by rewrite <- app_assoc in Ha.
    + intros -> Hne. done.
Qed.

(** The encoding of a struct where a value is awaited, at most
    [maxNestingDepth] deep: the scanner reads the object and hands it to the
    enclosing value. *)
Lemma scan_structEncoder_in (fs : list json.field) (stack : list json.frame) :
  Forall (fun f => literalBody (json.name f)) fs ->
  Z.of_nat (S (length stack)) <= json.maxNestingDepth ->
  json.scan (json.Scanner json.stateBeginValue stack EmptyString None)
    (json.structEncoder fs)
  = json.popParseState stack (json.JObject (membersOf fs)).
Proof.
  intros Hfs Hdepth.
  set (s0 := json.Scanner json.stateBeginValue stack EmptyString None).
  assert (Hopen : json.step_byte s0 "{"
                  = json.Scanner json.stateBeginStringOrEmpty
                      (json.parseObjectKey [] :: stack) EmptyString None).
  { unfold s0. cbn [json.step_byte json.step]. unfold json.stateBeginValue_step.
    change (json.isSpace "{") with false. change (Ascii.eqb "{" "{") with true.
    cbv iota. unfold json.pushParseState. cbn [json.parseState length].
    apply Z.leb_le in Hdepth. by rewrite Hdepth. }
  assert (H0 : awaitsIn stack s0 "{" []).
  { split; [exists json.stateBeginStringOrEmpty; split; [by right|exact Hopen]|].
    discriminate. }
  destruct (encodeFields_scan_in fs stack Hfs "{"%char s0 [] H0) as (Ha & Hn & He).
  unfold json.structEncoder.
  destruct (json.encodeFields fs "{") as [out next'] eqn:E.
  simpl fst in *. simpl snd in *. simpl app in Ha.
  destruct Hn as [->| ->].
  - destruct He as [-> ->]; [done|discriminate|].
    change (Ascii.eqb "{" "{") with true. cbv iota.
    change (json.scan s0 "{}")
      with (json.step_byte (json.step_byte s0 "{") "}").
    rewrite Hopen. reflexivity.
  - change (Ascii.eqb "," "{") with false. cbv iota.
    destruct Ha as [_ Hclose]. rewrite scan_app. simpl json.scan.
    by rewrite Hclose.
Qed.

(** ** Structs of strings decoded from what the encoder writes *)

Lemma storeMembers_string {S : Type} (fields : list (json.dfield S))
    (name : string) (get : S -> string) (set : string -> S -> S)
    (s : string) (ms : list (string * json.node)) (v : S) (saved : option error) :
  json.unquote name = Some name ->
  json.findField fields name = Some (fieldOf name get set json.storeString) ->
  utf8.ValidString s = true ->
  json.storeMembers fields
    ((name, json.JString (json.appendString_loop s)) :: ms) v saved
  = json.storeMembers fields ms (set s v) saved.
Proof.
  intros Hn Hf Hs. cbn [json.storeMembers]. rewrite Hn, Hf.
  cbn [fieldOf json.dstore json.storeString].
  rewrite unquote_appendString_loop by done. by destruct saved.
Qed.

Lemma storeMembers_bool {S : Type} (fields : list (json.dfield S))
    (name : string) (get : S -> bool) (set : bool -> S -> S)
    (b : bool) (ms : list (string * json.node)) (v : S) (saved : option error) :
  json.unquote name = Some name ->
  json.findField fields name = Some (fieldOf name get set json.storeBool) ->
  json.storeMembers fields ((name, json.JBool b) :: ms) v saved
  = json.storeMembers fields ms (set b v) saved.
Proof.
  intros Hn Hf. cbn [json.storeMembers]. rewrite Hn, Hf.
  cbn [fieldOf json.dstore json.storeBool]. by destruct saved.
Qed.

Lemma UserBalanceResponse_decode (r : UserBalanceResponse) :
  utf8.ValidString (UserBalanceResponse_Balance r) = true ->
  utf8.ValidString (UserBalanceResponse_Currency r) = true ->
  json.storeStruct UserBalanceResponse_fields
    (json.JObject (membersOf (UserBalanceResponse_encode r)))
    UserBalanceResponse_zero
  = (r, None).
Proof.
  destruct r as [b c]. cbn [UserBalanceResponse_Balance UserBalanceResponse_Currency].
  intros Hb Hc. cbn [json.storeStruct].
  change (membersOf (UserBalanceResponse_encode (mkUserBalanceResponse b c)))
    with [("balance", json.JString (json.appendString_loop b));
          ("currency", json.JString (json.appendString_loop c))].
  unfold UserBalanceResponse_fields.
  erewrite storeMembers_string; [|reflexivity|reflexivity|done].
  erewrite storeMembers_string; [|reflexivity|reflexivity|done].
  reflexivity.
Qed.

(** A string field with [omitempty]: left out when empty, which leaves
    the field of the variable as it is. *)
Lemma storeMembers_omitempty_string {S : Type} (fields : list (json.dfield S))
    (name : string) (get : S -> string) (set : string -> S -> S)
    (s : string) (fs : list json.field) (v : S) (saved : option error) :
  json.unquote name = Some name ->
  json.findField fields name = Some (fieldOf name get set json.storeString) ->
  utf8.ValidString s = true ->
  (s = EmptyString -> set s v = v) ->
  json.storeMembers fields
    (membersOf (json.Field name true (json.VString s) :: fs)) v saved
  = json.storeMembers fields (membersOf fs) (set s v) saved.
Proof.
  intros Hn Hf Hs Hempty. rewrite membersOf_cons.
  destruct s as [|c s].
  - cbn [keptField json.omitEmpty json.isEmptyValue json.fv andb negb].
    by rewrite Hempty.
  - cbn [keptField json.omitEmpty json.isEmptyValue json.fv andb negb
           json.name nodeOf].
    by apply (storeMembers_string fields name get set).
Qed.

Lemma OrderStatus_decode (st : OrderStatus) :
  OrderStatus_valid st = true ->
  json.storeStruct OrderStatus_fields
    (json.JObject (membersOf (OrderStatus_encode st))) OrderStatus_zero
  = (st, None).
Proof.
  destruct st as [a b c d e f]. unfold OrderStatus_valid.
  cbn [OrderStatus_Charge OrderStatus_StartCount OrderStatus_Status
         OrderStatus_Remains OrderStatus_Currency OrderStatus_Error].
  intros H.
  repeat (apply andb_prop in H as [H ?]).
  cbn [json.storeStruct]. unfold OrderStatus_encode.
  cbn [OrderStatus_Charge OrderStatus_StartCount OrderStatus_Status
         OrderStatus_Remains OrderStatus_Currency OrderStatus_Error].
  unfold OrderStatus_fields, OrderStatus_zero.
  do 6 (erewrite storeMembers_omitempty_string;
        [|reflexivity|reflexivity|eassumption|by intros ->];
        cbn [OrderStatus_Charge OrderStatus_StartCount OrderStatus_Status
               OrderStatus_Remains OrderStatus_Currency OrderStatus_Error]).
  reflexivity.
Qed.

Lemma Service_decode (s : Service) :
  Service_valid s = true ->
  json.storeStruct Service_fields (serviceNode s) Service_zero = (s, None).
Proof.
  destruct s as [a b c d e f g r x]. unfold Service_valid.
  cbn [Service_Service Service_Name Service_Type Service_Category Service_Rate
         Service_Min Service_Max].
  intros H. repeat (apply andb_prop in H as [H ?]).
  unfold serviceNode, Service_fields. cbn [json.storeStruct].
  cbn [Service_Service Service_Name Service_Type Service_Category Service_Rate
         Service_Min Service_Max Service_Refill Service_Cancel].
  unfold Service_zero.
  do 7 (erewrite storeMembers_string; [|reflexivity|reflexivity|eassumption];
        cbn [Service_Service Service_Name Service_Type Service_Category
               Service_Rate Service_Min Service_Max Service_Refill Service_Cancel]).
  do 2 (erewrite storeMembers_bool; [|reflexivity|reflexivity];
        cbn [Service_Service Service_Name Service_Type Service_Category
               Service_Rate Service_Min Service_Max Service_Refill Service_Cancel]).
  reflexivity.
Qed.

(** ** The replies that a server written with these types sends *)

Lemma UserBalanceResponse_names (r : UserBalanceResponse) :
  Forall (fun f => literalBody (json.name f)) (UserBalanceResponse_encode r).
Proof. repeat constructor. Qed.

Lemma OrderStatus_names (st : OrderStatus) :
  Forall (fun f => literalBody (json.name f)) (OrderStatus_encode st).
Proof. repeat constructor. Qed.

(** The scanner on the reply for one order. *)
Lemma checkValid_orderStatusReply (id : string) (st : OrderStatus) :
  json.checkValid (orderStatusReply id st)
  = Some (json.JObject
            [ ("orderStatus",
               json.JObject
                 [ (json.appendString_loop id,
                    json.JObject (membersOf (OrderStatus_encode st))) ]) ]).
Proof.
  unfold json.checkValid, orderStatusReply. rewrite scan_app.
  replace (json.scan json.reset (jtext "{'orderStatus':{"))
    with (json.Scanner json.stateBeginStringOrEmpty
            [json.parseObjectKey []; json.parseObjectValue [] "orderStatus"]
            EmptyString None)
    by (vm_compute; reflexivity).
  rewrite scan_app. unfold json.appendString.
  rewrite scan_string_literal by (auto using literalBody_appendString_loop).
  rewrite scan_app.
  replace (json.scan
             (json.Scanner json.stateEndValue
                [json.parseObjectKey []; json.parseObjectValue [] "orderStatus"]
                EmptyString (Some (json.JString (json.appendString_loop id)))) ":")
    with (json.Scanner json.stateBeginValue
            [json.parseObjectValue [] (json.appendString_loop id);
             json.parseObjectValue [] "orderStatus"] EmptyString None)
    by reflexivity.
  rewrite scan_app, scan_structEncoder_in;
    [reflexivity|apply OrderStatus_names|].
  unfold json.maxNestingDepth. cbn [length]. lia.
Qed.

(** ** Literals that the scanner accepts, in a syntax tree *)

Lemma wfNode_unquotable (n : json.node) : wfNode n -> unquotable n.
Proof.
  revert n. fix IH 1. intros n. destruct n as [| | |l|es|ms]; try done.
  - apply unquote_literalBody.
  - simpl. induction es as [|x es IHes]; [done|].
    intros [Hx Hes]. split; [by apply IH|by apply IHes].
  - simpl. induction ms as [|[k v] ms IHms]; [done|].
    intros [[Hk Hv] Hms]. split; [|by apply IHms].
    split; [by apply unquote_literalBody|by apply IH].
Qed.

(** ** The reply of AddOrder *)

(** The order id decoded is always an [int]: it is the zero it starts
    from, or what [strconv.ParseInt] accepted. *)
Lemma storeInt_int64 (n : json.node) (v : Z) :
  int64 v -> int64 (fst (json.storeInt n v)).
Proof.
  intros Hv. destruct n; simpl; try done.
  destruct (strconv.ParseInt lit) as [i|] eqn:E; [|done].
  by apply ParseInt_int64 in E.
Qed.

Lemma storeMembers_order_int64 (ms : list (string * json.node)) :
  forall v saved, int64 (OrderID v) ->
  int64 (OrderID (fst (json.storeMembers orderResponse_fields ms v saved))).
Proof.
  induction ms as [|[k n] ms IH]; intros v saved Hv; simpl; [done|].
  destruct (json.unquote k) as [key|]; [|done].
  destruct (json.findField orderResponse_fields key) as [f|] eqn:E; [|by apply IH].
  apply findField_In in E. destruct E as [<-|[]].
  cbn [fieldOf json.dstore].
  pose proof (storeInt_int64 n (OrderID v) Hv) as Hx.
  destruct (json.storeInt n (OrderID v)) as [x e]. by apply IH.
Qed.

Lemma Unmarshal_order_int64 (body : string) :
  int64 (OrderID (fst (json.Unmarshal (json.storeStruct orderResponse_fields)
                         body orderResponse_zero))).
Proof.
  assert (H0 : int64 0) by (unfold int64; lia).
  unfold json.Unmarshal. destruct (json.checkValid body) as [n|]; [|done].
  destruct n; simpl; try done.
  by apply storeMembers_order_int64.
Qed.


(** Appends of fixed text and of encodings, brought to one right-nested
    form on both sides. *)
Ltac same_bytes :=
  unfold json.appendString;
  repeat (progress (cbn -[strconv.FormatInt json.appendString_loop];
                    rewrite ?append_assoc, ?append_nil_r));
  reflexivity.

Section Further.

Variable url_Parse : string -> option error.
Variable Do : http.Request -> error + http.Response.

(** X1. [post] hands at most one request to the transport.  When the
    endpoint is a URL it is exactly one: a POST to the client's endpoint
    whose only header is [Content-Type: application/json] and whose body is
    the JSON encoding of the argument; the key appears nowhere but in that
    body.  The request goes out before the reply is looked at, so it is
    recorded also when the transport or the reading fails. *)
Theorem post_request_shape (body : list json.field) (w : World) :
  url_Parse (endpoint (client w)) = None ->
  exists r,
    sent (snd (post url_Parse Do body w)) = sent w ++ [r]
    /\ http.Method r = "POST"
    /\ http.URL r = endpoint (client w)
    /\ http.Header r = [("Content-Type", "application/json")]
    /\ http.Body r = fst (json.Marshal body)
    /\ snd (json.Marshal body) = None.
Proof.
  intros Hurl. exists (requestOf (client w) (json.structEncoder body)).
  split; [|repeat split].
  rewrite post_sent. unfold requestsFor. by rewrite Hurl.
Qed.

(** X2. When [url.Parse] refuses the endpoint, no operation reaches the
    network: each returns the error of [url.Parse] with the zero value of
    its result, and the world (client and requests sent) is as before. *)
Theorem refused_endpoint_sends_nothing (w : World) (e : error) :
  url_Parse (endpoint (client w)) = Some e ->
  ListServices url_Parse Do w = ((None, Some e), w)
  /\ (forall service link quantity runs interval,
        AddOrder url_Parse Do service link quantity runs interval w
        = ((EmptyString, Some e), w))
  /\ (forall orderID,
        GetOrderStatus url_Parse Do orderID w
        = ((OrderStatusResponse_zero, Some e), w))
  /\ GetUserBalance url_Parse Do w = ((UserBalanceResponse_zero, Some e), w)
  /\ (forall link quantity,
        RedditUpvote url_Parse Do link quantity w = ((EmptyString, Some e), w)).
Proof.
  intros Hurl.
  repeat split; intros;
    unfold RedditUpvote, ListServices, AddOrder, GetOrderStatus, GetUserBalance;
    rewrite post_unfold, Hurl; reflexivity.
Qed.

(** X3. An error of the transport ([http.Client.Do]) or of reading the
    reply ([io.ReadAll]) is returned as it is by every operation, with the
    zero value of the result; bytes read before the error are dropped. *)
Theorem transport_error_propagates (w : World) (e : error) :
  url_Parse (endpoint (client w)) = None ->
  let failing (payload : string) :=
    Do (requestOf (client w) payload) = inl e
    \/ exists resp b, Do (requestOf (client w) payload) = inr resp
                      /\ http.ReadAll resp = (b, Some e) in
  (failing (json.structEncoder (servicesBody (client w))) ->
   fst (ListServices url_Parse Do w) = (None, Some e))
  /\ (forall service link quantity runs interval,
        failing (json.structEncoder
                   (orderRequest (client w) service link quantity runs interval)) ->
        fst (AddOrder url_Parse Do service link quantity runs interval w)
        = (EmptyString, Some e))
  /\ (forall orderID,
        failing (json.structEncoder (statusBody (client w) orderID)) ->
        fst (GetOrderStatus url_Parse Do orderID w)
        = (OrderStatusResponse_zero, Some e))
  /\ (failing (json.structEncoder (balanceBody (client w))) ->
      fst (GetUserBalance url_Parse Do w) = (UserBalanceResponse_zero, Some e))
  /\ (forall link quantity,
        failing (json.structEncoder
                   (orderRequest (client w) "6228" link quantity None None)) ->
        fst (RedditUpvote url_Parse Do link quantity w) = (EmptyString, Some e)).
Proof.
  intros Hurl failing.
  repeat split; intros; unfold RedditUpvote;
    rewrite ?ListServices_result, ?AddOrder_result, ?GetOrderStatus_result,
      ?GetUserBalance_result, post_result, Hurl;
    match goal with
    | H : failing _ |- _ => destruct H as [->|(resp & b & -> & ->)]; reflexivity
    end.
Qed.

(** X4. A reply whose body is not one valid JSON text makes every
    operation return a [json.SyntaxError] with the zero value of its
    result. *)
Theorem invalid_reply_is_SyntaxError (w : World) (body : string) :
  url_Parse (endpoint (client w)) = None ->
  (forall r, exists resp, Do r = inr resp /\ http.ReadAll resp = (body, None)) ->
  json.checkValid body = None ->
  fst (ListServices url_Parse Do w) = (None, Some SyntaxError)
  /\ (forall service link quantity runs interval,
        fst (AddOrder url_Parse Do service link quantity runs interval w)
        = (EmptyString, Some SyntaxError))
  /\ (forall orderID,
        fst (GetOrderStatus url_Parse Do orderID w)
        = (OrderStatusResponse_zero, Some SyntaxError))
  /\ fst (GetUserBalance url_Parse Do w)
     = (UserBalanceResponse_zero, Some SyntaxError)
  /\ (forall link quantity,
        fst (RedditUpvote url_Parse Do link quantity w)
        = (EmptyString, Some SyntaxError)).
Proof.
  intros Hurl Hdo Hbad.
  repeat split; intros; unfold RedditUpvote;
    rewrite ?ListServices_result, ?AddOrder_result, ?GetOrderStatus_result,
      ?GetUserBalance_result, post_result, Hurl;
    match goal with
    | |- context [Do ?r] => destruct (Hdo r) as (resp & -> & ->)
    end;
    unfold json.Unmarshal; rewrite Hbad; reflexivity.
Qed.

(** X5. No operation looks at the status code of the reply (nor at
    anything of it but its body): two transports whose replies have the same
    bodies and that fail alike give the same results and send the same
    requests, whatever the status codes. *)
Theorem status_code_ignored (Do' : http.Request -> error + http.Response)
    (w : World) :
  (forall r,
      match Do r, Do' r with
      | inl e, inl e' => e = e'
      | inr resp, inr resp' => http.ReadAll resp = http.ReadAll resp'
      | _, _ => False
      end) ->
  ListServices url_Parse Do w = ListServices url_Parse Do' w
  /\ (forall service link quantity runs interval,
        AddOrder url_Parse Do service link quantity runs interval w
        = AddOrder url_Parse Do' service link quantity runs interval w)
  /\ (forall orderID,
        GetOrderStatus url_Parse Do orderID w
        = GetOrderStatus url_Parse Do' orderID w)
  /\ GetUserBalance url_Parse Do w = GetUserBalance url_Parse Do' w
  /\ (forall link quantity,
        RedditUpvote url_Parse Do link quantity w
        = RedditUpvote url_Parse Do' link quantity w).
Proof.
  intros Hsame.
  assert (Hpost : forall body,
             post url_Parse Do body w = post url_Parse Do' body w).
  { intros body. rewrite !post_unfold.
    destruct (url_Parse _); [reflexivity|]. cbv zeta.
    specialize (Hsame (requestOf (client w) (json.structEncoder body))).
    destruct (Do _) as [e1|r1], (Do' _) as [e2|r2]; try done; [by subst|].
    by rewrite Hsame. }
  repeat split; intros;
    unfold RedditUpvote, ListServices, AddOrder, GetOrderStatus, GetUserBalance;
    by rewrite Hpost.
Qed.

(** X6. ListServices and GetUserBalance send the object with the two
    members key and action, the action being "services" and "balance": the
    bytes are given, the scanner reads these two members and no other from
    them, whatever the key holds, and a key of valid UTF-8 reads back as
    itself. *)
Theorem key_action_payloads (w : World) :
  let c := client w in
  let services := json.structEncoder (servicesBody c) in
  let balance := json.structEncoder (balanceBody c) in
  sent (snd (ListServices url_Parse Do w))
  = sent w ++ requestsFor url_Parse c services
  /\ sent (snd (GetUserBalance url_Parse Do w))
     = sent w ++ requestsFor url_Parse c balance
  /\ services = jtext "{'key':" +:+ json.appendString (key c)
                +:+ jtext ",'action':'services'}"
  /\ balance = jtext "{'key':" +:+ json.appendString (key c)
               +:+ jtext ",'action':'balance'}"
  /\ json.checkValid services
     = Some (json.JObject
               [ ("key", json.JString (json.appendString_loop (key c)));
                 ("action", json.JString "services") ])
  /\ json.checkValid balance
     = Some (json.JObject
               [ ("key", json.JString (json.appendString_loop (key c)));
                 ("action", json.JString "balance") ])
  /\ (utf8.ValidString (key c) = true ->
       json.unquote (json.appendString_loop (key c)) = Some (key c)).
Proof.
  intros c services balance.
  split; [rewrite ListServices_world; apply post_sent|].
  split; [rewrite GetUserBalance_world; apply post_sent|].
  split; [unfold services, json.structEncoder, servicesBody, json.encodeFields,
            json.nameEscHTML, json.valueEncoder;
          cbn [json.omitEmpty json.isEmptyValue json.fv json.name andb jtext
                 Ascii.eqb Bool.eqb]; same_bytes|].
  split; [unfold balance, json.structEncoder, balanceBody, json.encodeFields,
            json.nameEscHTML, json.valueEncoder;
          cbn [json.omitEmpty json.isEmptyValue json.fv json.name andb jtext
                 Ascii.eqb Bool.eqb]; same_bytes|].
  split; [unfold services;
          by rewrite checkValid_structEncoder by apply servicesBody_names|].
  split; [unfold balance;
          by rewrite checkValid_structEncoder by apply balanceBody_names|].
  apply unquote_appendString_loop.
Qed.

(** X7. For every order id, GetOrderStatus sends the object with the
    members key, action ("status") and order, the id written as a JSON
    string: whatever bytes the id holds the scanner reads these three
    members and no other, an id of valid UTF-8 reads back as itself, and an
    id made of digits is sent as it is between the quotes. *)
Theorem GetOrderStatus_order_payload (orderID : string) (w : World) :
  let c := client w in
  let payload := json.structEncoder (statusBody c orderID) in
  sent (snd (GetOrderStatus url_Parse Do orderID w))
  = sent w ++ requestsFor url_Parse c payload
  /\ payload = jtext "{'key':" +:+ json.appendString (key c)
               +:+ jtext ",'action':'status','order':"
               +:+ json.appendString orderID +:+ "}"
  /\ json.checkValid payload
     = Some (json.JObject
               [ ("key", json.JString (json.appendString_loop (key c)));
                 ("action", json.JString "status");
                 ("order", json.JString (json.appendString_loop orderID)) ])
  /\ (utf8.ValidString orderID = true ->
       json.unquote (json.appendString_loop orderID) = Some orderID)
  /\ (allDigits orderID = true ->
       json.appendString orderID
       = String dquote (orderID +:+ String dquote EmptyString)).
Proof.
  intros c payload.
  split; [rewrite GetOrderStatus_world; apply post_sent|].
  split; [apply statusBody_bytes|].
  split; [unfold payload;
          by rewrite checkValid_structEncoder by apply statusBody_names|].
  split; [apply unquote_appendString_loop|].
  intros H. unfold json.appendString. by rewrite appendString_loop_digits.
Qed.

(** X8. [runs] and [interval] are left out of AddOrder's request each on
    its own: the body has the members key, action, service, link and
    quantity, then [runs] if and only if that pointer is not nil, then
    [interval] if and only if that one is not nil (also when they point to
    zero).  Whatever the service id and the link hold, the scanner reads
    these members and no other, and texts of valid UTF-8 read back as they
    were given. *)
Theorem AddOrder_request_members (service link : string) (quantity : Z)
    (runs interval : option Z) (w : World) :
  let c := client w in
  let payload :=
    json.structEncoder (orderRequest c service link quantity runs interval) in
  json.checkValid payload
  = Some (json.JObject
            ([ ("key", json.JString (json.appendString_loop (key c)));
               ("action", json.JString "add");
               ("service", json.JString (json.appendString_loop service));
               ("link", json.JString (json.appendString_loop link));
               ("quantity", json.JNumber (strconv.Itoa quantity)) ]
             ++ match runs with
                | Some r => [("runs", json.JNumber (strconv.Itoa r))]
                | None => []
                end
             ++ match interval with
                | Some i => [("interval", json.JNumber (strconv.Itoa i))]
                | None => []
                end))
  /\ (utf8.ValidString service = true ->
       json.unquote (json.appendString_loop service) = Some service)
  /\ (utf8.ValidString link = true ->
       json.unquote (json.appendString_loop link) = Some link).
Proof.
  intros c payload. split; [|split; apply unquote_appendString_loop].
  unfold payload. rewrite checkValid_structEncoder by apply orderRequest_names.
  by destruct runs, interval.
Qed.

(** X9. When AddOrder returns no error, the order id it returns is the
    decimal text of a Go int: it is never empty, and [strconv.ParseInt]
    reads it back as that int.  The empty string is returned with an error
    only. *)
Theorem AddOrder_id_is_decimal (service link : string) (quantity : Z)
    (runs interval : option Z) (w : World) :
  let call := AddOrder url_Parse Do service link quantity runs interval w in
  snd (fst call) = None ->
  exists n,
    int64 n
    /\ fst (fst call) = strconv.Itoa n
    /\ strconv.ParseInt (fst (fst call)) = Some n
    /\ fst (fst call) <> EmptyString.
Proof.
  intros call. unfold call. rewrite AddOrder_result.
  destruct (fst (post _ _ _ w)) as [b [e|]]; [discriminate|].
  pose proof (Unmarshal_order_int64 b) as Hi.
  destruct (json.Unmarshal _ b _) as [r [e|]]; [discriminate|]. intros _.
  cbn [fst snd] in *. exists (OrderID r).
  split; [done|split; [done|split]].
  - by apply ParseInt_FormatInt.
  - apply FormatInt_nonempty.
Qed.

(** X10. AddOrder and then GetOrderStatus with the id returned: when the
    first call returns no error, the two requests go out in this order, to
    the same endpoint and with the same key, and the second carries the
    decimal text returned by the first, as it is, as its [order]. *)
Theorem AddOrder_then_GetOrderStatus (service link : string) (quantity : Z)
    (runs interval : option Z) (w : World) :
  let c := client w in
  let first := AddOrder url_Parse Do service link quantity runs interval w in
  let id := fst (fst first) in
  let second := GetOrderStatus url_Parse Do id (snd first) in
  snd (fst first) = None ->
  exists n,
    int64 n /\ id = strconv.Itoa n
    /\ client (snd second) = c
    /\ sent (snd second)
       = sent w
         ++ [ requestOf c
                (json.structEncoder
                   (orderRequest c service link quantity runs interval));
              requestOf c
                (jtext "{'key':" +:+ json.appendString (key c)
                 +:+ jtext ",'action':'status','order':'" +:+ strconv.Itoa n
                 +:+ jtext "'}") ].
Proof.
  intros c first id second Hok.
  assert (Hurl : url_Parse (endpoint c) = None).
  { unfold first in Hok. rewrite AddOrder_result, post_result in Hok. fold c in Hok.
    by destruct (url_Parse (endpoint c)). }
  assert (Hc : client (snd first) = c).
  { unfold first. rewrite AddOrder_world. apply post_client. }
  assert (Hid : exists n, int64 n /\ id = strconv.Itoa n).
  { unfold id, first in *. rewrite AddOrder_result in *.
    destruct (fst (post _ _ _ w)) as [b [e|]]; [discriminate|].
    pose proof (Unmarshal_order_int64 b) as Hi.
    destruct (json.Unmarshal _ b _) as [r [e|]]; [discriminate|].
    by exists (OrderID r). }
  destruct Hid as (n & Hn & Hid). exists n.
  split; [done|split; [done|split]].
  - unfold second. by rewrite GetOrderStatus_world, post_client.
  - unfold second. rewrite GetOrderStatus_world, post_sent, Hc.
    unfold first at 1. rewrite AddOrder_world, post_sent. fold c.
    unfold requestsFor. rewrite Hurl, <- app_assoc. cbn [app].
    do 3 f_equal. rewrite statusBody_bytes, Hid. unfold json.appendString at 2.
    unfold strconv.Itoa. rewrite appendString_loop_FormatInt.
    same_bytes.
Qed.

(** X11. A reply that is a JSON object with no member for the fields of
    the result is no error for GetOrderStatus and GetUserBalance: the panel's
    error object, or the flat status of a single order, gives an
    OrderStatusResponse with a nil map, and an object without [balance] and
    [currency] gives a UserBalanceResponse with both empty, each with a nil
    error. *)
Theorem object_reply_without_fields (w : World) (body : string)
    (ms : list (string * json.node)) :
  url_Parse (endpoint (client w)) = None ->
  (forall r, exists resp, Do r = inr resp /\ http.ReadAll resp = (body, None)) ->
  json.checkValid body = Some (json.JObject ms) ->
  (hasField "orderStatus" ms = false ->
   forall orderID,
     fst (GetOrderStatus url_Parse Do orderID w)
     = (mkOrderStatusResponse None, None))
  /\ (hasField "balance" ms = false -> hasField "currency" ms = false ->
      fst (GetUserBalance url_Parse Do w)
      = (mkUserBalanceResponse EmptyString EmptyString, None)).
Proof.
  intros Hurl Hdo Hv.
  assert (Hwf : Forall wfMember ms).
  { apply wfNode_JObject. by apply (checkValid_wfNode body). }
  split.
  - intros H orderID. rewrite GetOrderStatus_result, post_result, Hurl.
    destruct (Hdo (requestOf (client w)
                     (json.structEncoder (statusBody (client w) orderID))))
      as (resp & -> & ->).
    unfold json.Unmarshal. rewrite Hv, storeMembers_none; [done|done|].
    by repeat constructor.
  - intros Hb Hc. rewrite GetUserBalance_result, post_result, Hurl.
    destruct (Hdo (requestOf (client w)
                     (json.structEncoder (balanceBody (client w)))))
      as (resp & -> & ->).
    unfold json.Unmarshal. rewrite Hv, storeMembers_none; [done|done|].
    by repeat constructor.
Qed.

(** X12. ListServices takes an array or [null] and nothing else: [null]
    gives a nil slice without error, and a reply that is a JSON object (the
    panel's error object is one), a string, a number or a boolean gives a
    nil slice with a [json.UnmarshalTypeError] that names the kind of value
    found. *)
Theorem ListServices_not_an_array (w : World) (resp : http.Response)
    (body : string) (n : json.node) :
  url_Parse (endpoint (client w)) = None ->
  Do (requestOf (client w) (json.structEncoder (servicesBody (client w))))
  = inr resp ->
  http.ReadAll resp = (body, None) ->
  json.checkValid body = Some n ->
  (n = json.JNull -> fst (ListServices url_Parse Do w) = (None, None))
  /\ (forall ms, n = json.JObject ms ->
        fst (ListServices url_Parse Do w)
        = (None, Some (UnmarshalTypeError "object")))
  /\ (forall l, n = json.JString l ->
        fst (ListServices url_Parse Do w)
        = (None, Some (UnmarshalTypeError "string")))
  /\ (forall l, n = json.JNumber l ->
        fst (ListServices url_Parse Do w)
        = (None, Some (UnmarshalTypeError "number")))
  /\ (forall b, n = json.JBool b ->
        fst (ListServices url_Parse Do w)
        = (None, Some (UnmarshalTypeError "bool"))).
Proof.
  intros Hurl Hdo Hread Hv.
  rewrite ListServices_result, (post_ok _ _ _ w resp _ Hurl Hdo Hread).
  unfold json.Unmarshal. rewrite Hv.
  repeat split; intros; subst n; reflexivity.
Qed.

(** X13. Given an array, ListServices decodes each element on its own,
    in order, into a zero Service: the slice returned has one Service for
    each element of the array.  If an element cannot be decoded (it is not
    an object, or a member has the wrong type) the error of the first such
    element is returned with a nil slice. *)
Theorem ListServices_elementwise (w : World) (resp : http.Response)
    (body : string) (es : list json.node) :
  url_Parse (endpoint (client w)) = None ->
  Do (requestOf (client w) (json.structEncoder (servicesBody (client w))))
  = inr resp ->
  http.ReadAll resp = (body, None) ->
  json.checkValid body = Some (json.JArray es) ->
  let decode n := json.storeStruct Service_fields n Service_zero in
  fst (ListServices url_Parse Do w)
  = match head (omap (fun n => snd (decode n)) es) with
    | Some e => (None, Some e)
    | None => (Some (List.map (fun n => fst (decode n)) es), None)
    end
  /\ forall xs, fst (fst (ListServices url_Parse Do w)) = Some xs ->
       length xs = length es.
Proof.
  intros Hurl Hdo Hread Hv decode.
  assert (E : fst (ListServices url_Parse Do w)
              = match head (omap (fun n => snd (decode n)) es) with
                | Some e => (None, Some e)
                | None => (Some (List.map (fun n => fst (decode n)) es), None)
                end).
  { rewrite ListServices_result, (post_ok _ _ _ w resp _ Hurl Hdo Hread).
    unfold json.Unmarshal. rewrite Hv. cbn [json.storeSlice default].
    rewrite storeElems_nil. cbn [json.saveError]. fold decode.
    by destruct (head _). }
  split; [exact E|]. intros xs. rewrite E.
  destruct (head _); [discriminate|]. intros [= <-]. apply List.length_map.
Qed.

(** X14. The map that GetOrderStatus returns: when the reply is an object
    whose one member for [orderStatus] is itself an object, all of whose
    members decode as an OrderStatus, the map has, under each key, the
    OrderStatus decoded from the last member with that key into a zero
    OrderStatus, and no entry under any other key. *)
Theorem GetOrderStatus_entries (orderID : string) (w : World)
    (resp : http.Response) (body : string)
    (pre post : list (string * json.node)) (k : string)
    (ents : list (string * json.node)) :
  url_Parse (endpoint (client w)) = None ->
  Do (requestOf (client w) (json.structEncoder (statusBody (client w) orderID)))
  = inr resp ->
  http.ReadAll resp = (body, None) ->
  json.checkValid body
  = Some (json.JObject (pre ++ (k, json.JObject ents) :: post)) ->
  hasField "orderStatus" pre = false ->
  hasField "orderStatus" [(k, json.JObject ents)] = true ->
  hasField "orderStatus" post = false ->
  let decode n := json.storeStruct OrderStatus_fields n OrderStatus_zero in
  Forall (fun kn => snd (decode (snd kn)) = None) ents ->
  exists m,
    fst (GetOrderStatus url_Parse Do orderID w)
    = (mkOrderStatusResponse (Some m), None)
    /\ forall key,
         m !! key
         = (fun kn => fst (decode (snd kn)))
           <$> last (List.filter
                       (fun kn => bool_decide (json.unquote (fst kn) = Some key))
                       ents).
Proof.
  intros Hurl Hdo Hread Hv Hpre Hk Hpost decode Hents.
  assert (Hwf : Forall wfMember (pre ++ (k, json.JObject ents) :: post)).
  { apply wfNode_JObject. by apply (checkValid_wfNode body). }
  apply Forall_app in Hwf as [Hwpre Hwf].
  apply Forall_cons_iff in Hwf as [[Hwk Hwents] Hwpost].
  cbn [fst snd] in Hwk, Hwents. apply wfNode_JObject in Hwents.
  destruct (unquote_literalBody k Hwk) as [key0 Hkey0].
  rewrite (hasField_cons _ _ _ _ _ Hkey0) in Hk.
  change (hasField "orderStatus" []) with false in Hk. rewrite orb_false_r in Hk.
  assert (Hf : json.findField OrderStatusResponse_fields key0
               = Some (fieldOf "orderStatus" OrderStatusResponse_OrderStatus
                         (fun x _ => mkOrderStatusResponse x)
                         (json.storeMap OrderStatus_zero
                            (json.storeStruct OrderStatus_fields)))).
  { unfold json.findField, OrderStatusResponse_fields.
    cbn [List.find json.dname fieldOf]. revert Hk.
    destruct (String.eqb "orderStatus" key0); [reflexivity|].
    cbn [orb]. by intros ->. }
  exists (fst (json.storeEntries OrderStatus_zero
                 (json.storeStruct OrderStatus_fields) ents ∅ None)).
  split.
  - rewrite GetOrderStatus_result, (post_ok _ _ _ w resp _ Hurl Hdo Hread).
    unfold json.Unmarshal. rewrite Hv. cbn [json.storeStruct].
    rewrite storeMembers_unmatched; [|done|by repeat constructor].
    cbn [json.storeMembers]. rewrite Hkey0, Hf.
    cbn [fieldOf json.dstore json.storeMap OrderStatusResponse_zero
           OrderStatusResponse_OrderStatus default].
    pose proof (storeEntries_errors OrderStatus_zero
                  (json.storeStruct OrderStatus_fields) ents Hwents Hents ∅ None)
      as He.
    destruct (json.storeEntries _ _ ents ∅ None) as [m e].
    cbn [fst snd] in *. subst e. cbn [json.saveError].
    rewrite <- (app_nil_r post).
    rewrite storeMembers_unmatched; [done|done|by repeat constructor].
  - intros key. rewrite storeEntries_lookup by done. fold decode.
    destruct (last _); [done|]. apply lookup_empty.
Qed.

(** X15. AddOrder needs the order id as a JSON number that is an integer
    in the range of [int]: when the first member for [order] is a string (as
    in ["order": "555"]), a boolean, an array or an object, or a number with
    a fraction or an exponent or out of range, AddOrder returns the empty
    string and a [json.UnmarshalTypeError], whatever follows in the reply. *)
Theorem AddOrder_order_type_error (service link : string) (quantity : Z)
    (runs interval : option Z) (w : World) (resp : http.Response)
    (body : string) (pre post : list (string * json.node)) (k : string)
    (n : json.node) :
  url_Parse (endpoint (client w)) = None ->
  Do (requestOf (client w)
        (json.structEncoder
           (orderRequest (client w) service link quantity runs interval)))
  = inr resp ->
  http.ReadAll resp = (body, None) ->
  json.checkValid body = Some (json.JObject (pre ++ (k, n) :: post)) ->
  hasField "order" pre = false ->
  hasField "order" [(k, n)] = true ->
  let result := fst (AddOrder url_Parse Do service link quantity runs interval w) in
  (forall l, n = json.JString l ->
     result = (EmptyString, Some (UnmarshalTypeError "string")))
  /\ (forall b, n = json.JBool b ->
        result = (EmptyString, Some (UnmarshalTypeError "bool")))
  /\ (forall es, n = json.JArray es ->
        result = (EmptyString, Some (UnmarshalTypeError "array")))
  /\ (forall ms, n = json.JObject ms ->
        result = (EmptyString, Some (UnmarshalTypeError "object")))
  /\ (forall l, n = json.JNumber l -> strconv.ParseInt l = None ->
        result = (EmptyString, Some (UnmarshalTypeError ("number " +:+ l)))).
Proof.
  intros Hurl Hdo Hread Hv Hpre Hk result.
  assert (Hwf : Forall wfMember (pre ++ (k, n) :: post)).
  { apply wfNode_JObject. by apply (checkValid_wfNode body). }
  apply Forall_app in Hwf as [Hwpre Hwf].
  apply Forall_cons_iff in Hwf as [[Hwk _] _]. cbn [fst] in Hwk.
  destruct (unquote_literalBody k Hwk) as [key0 Hkey0].
  rewrite (hasField_cons _ _ _ _ _ Hkey0) in Hk.
  change (hasField "order" []) with false in Hk. rewrite orb_false_r in Hk.
  assert (Hgen : forall e, snd (json.storeInt n 0) = Some e ->
                           result = (EmptyString, Some e)).
  { intros e He. unfold result.
    rewrite AddOrder_result, (post_ok _ _ _ w resp _ Hurl Hdo Hread).
    unfold json.Unmarshal. rewrite Hv. cbn [json.storeStruct].
    rewrite storeMembers_skip by done.
    cbn [json.storeMembers]. rewrite Hkey0, (findField_order_some key0 Hk).
    cbn [fieldOf json.dstore orderResponse_zero OrderID].
    destruct (json.storeInt n 0) as [x e']. cbn [snd] in He. subst e'.
    cbn [json.saveError].
    pose proof (storeMembers_saved orderResponse_fields post
                  (mkOrderResponse x) e) as Hs.
    destruct (json.storeMembers _ post _ _) as [r e']. cbn [snd] in Hs.
    by subst e'. }
  repeat split; intros; subst n; apply Hgen; try reflexivity.
  simpl. by rewrite H0.
Qed.

(** X16. GetUserBalance reads back what [json.Marshal] writes for a
    UserBalanceResponse: given the reply [{"balance":B,"currency":C}], with B
    and C the JSON strings of texts of valid UTF-8, it returns the
    UserBalanceResponse with that balance and that currency (kept as text,
    never parsed as numbers) and no error. *)
Theorem GetUserBalance_round_trip (w : World) (resp : http.Response)
    (r : UserBalanceResponse) :
  url_Parse (endpoint (client w)) = None ->
  Do (requestOf (client w) (json.structEncoder (balanceBody (client w))))
  = inr resp ->
  http.ReadAll resp = (json.structEncoder (UserBalanceResponse_encode r), None) ->
  utf8.ValidString (UserBalanceResponse_Balance r) = true ->
  utf8.ValidString (UserBalanceResponse_Currency r) = true ->
  json.structEncoder (UserBalanceResponse_encode r)
  = jtext "{'balance':" +:+ json.appendString (UserBalanceResponse_Balance r)
    +:+ jtext ",'currency':" +:+ json.appendString (UserBalanceResponse_Currency r)
    +:+ "}"
  /\ fst (GetUserBalance url_Parse Do w) = (r, None).
Proof.
  intros Hurl Hdo Hread Hb Hc. split.
  - unfold json.structEncoder, UserBalanceResponse_encode, json.encodeFields,
      json.nameEscHTML, json.valueEncoder.
    cbn [json.omitEmpty json.isEmptyValue json.fv json.name andb jtext
           Ascii.eqb Bool.eqb].
    same_bytes.
  - rewrite GetUserBalance_result, (post_ok _ _ _ w resp _ Hurl Hdo Hread).
    unfold json.Unmarshal.
    rewrite checkValid_structEncoder by apply UserBalanceResponse_names.
    by rewrite UserBalanceResponse_decode.
Qed.

(** X17. GetOrderStatus reads back what [json.Marshal] writes for an
    OrderStatusResponse with one order, when the order id and the six fields
    of the OrderStatus are valid UTF-8: given the reply
    [{"orderStatus":{ID:STATUS}}], where ID is the id as a JSON string and
    STATUS is the encoding of the OrderStatus (its empty fields left out, as
    [omitempty] has it), the map returned has exactly the entry of that
    order id, with that OrderStatus. *)
Theorem GetOrderStatus_round_trip (orderID : string) (w : World)
    (resp : http.Response) (id : string) (st : OrderStatus) :
  url_Parse (endpoint (client w)) = None ->
  Do (requestOf (client w) (json.structEncoder (statusBody (client w) orderID)))
  = inr resp ->
  http.ReadAll resp = (orderStatusReply id st, None) ->
  utf8.ValidString id = true ->
  OrderStatus_valid st = true ->
  fst (GetOrderStatus url_Parse Do orderID w)
  = (mkOrderStatusResponse (Some {[ id := st ]}), None).
Proof.
  intros Hurl Hdo Hread Hid Hst.
  rewrite GetOrderStatus_result, (post_ok _ _ _ w resp _ Hurl Hdo Hread).
  unfold json.Unmarshal. rewrite checkValid_orderStatusReply.
  cbn [json.storeStruct json.storeMembers].
  replace (json.unquote "orderStatus") with (Some "orderStatus") by reflexivity.
  replace (json.findField OrderStatusResponse_fields "orderStatus")
    with (Some (fieldOf "orderStatus" OrderStatusResponse_OrderStatus
                  (fun x _ => mkOrderStatusResponse x)
                  (json.storeMap OrderStatus_zero
                     (json.storeStruct OrderStatus_fields))))
    by reflexivity.
  cbn [fieldOf json.dstore json.storeMap json.storeEntries
         OrderStatusResponse_zero OrderStatusResponse_OrderStatus default].
  rewrite unquote_appendString_loop by done.
  rewrite OrderStatus_decode by done. reflexivity.
Qed.

(** X18. ListServices returns the services of the listing, when their
    texts are valid UTF-8: when the reply is the array of the objects of
    some services whose seven text fields are valid UTF-8 (the nine members
    service, name, type, category, rate, min, max, refill, cancel, the texts
    written as JSON strings, the last two as booleans), it returns these
    services, in this order, and no error; rate, min and max stay texts. *)
Theorem ListServices_round_trip (w : World) (resp : http.Response)
    (body : string) (svcs : list Service) :
  url_Parse (endpoint (client w)) = None ->
  Do (requestOf (client w) (json.structEncoder (servicesBody (client w))))
  = inr resp ->
  http.ReadAll resp = (body, None) ->
  json.checkValid body = Some (json.JArray (List.map serviceNode svcs)) ->
  Forall (fun s => Service_valid s = true) svcs ->
  fst (ListServices url_Parse Do w) = (Some svcs, None).
Proof.
  intros Hurl Hdo Hread Hv Hvalid.
  rewrite ListServices_result, (post_ok _ _ _ w resp _ Hurl Hdo Hread).
  unfold json.Unmarshal. rewrite Hv. cbn [json.storeSlice default].
  rewrite storeElems_nil. cbn [json.saveError].
  assert (E : List.map (fun n => fst (json.storeStruct Service_fields n Service_zero))
                (List.map serviceNode svcs) = svcs
              /\ omap (fun n => snd (json.storeStruct Service_fields n Service_zero))
                   (List.map serviceNode svcs) = []).
  { clear Hv. induction svcs as [|s l IH]; [done|].
    apply Forall_cons_iff in Hvalid as [Hs Hl]. destruct (IH Hl) as [IH1 IH2].
    cbn [List.map omap list_omap]. rewrite (Service_decode s Hs).
    cbn [fst snd]. by rewrite IH1, IH2. }
  destruct E as [-> ->]. reflexivity.
Qed.

(** X19. A client made by [New] with key [k]: whatever operation is
    called first, its one request is a POST to
    [https://justanotherpanel.com/api/v2] with the one header
    [Content-Type: application/json], the body is a JSON object whose first
    two members are [key], with the key written as a JSON string, and
    [action], and the client is the same afterwards. *)
Theorem New_requests (k : string) (w' : World) :
  let w := mkWorld (New k) [] in
  url_Parse "https://justanotherpanel.com/api/v2" = None ->
  w' = snd (ListServices url_Parse Do w)
  \/ (exists service link quantity runs interval,
        w' = snd (AddOrder url_Parse Do service link quantity runs interval w))
  \/ (exists orderID, w' = snd (GetOrderStatus url_Parse Do orderID w))
  \/ w' = snd (GetUserBalance url_Parse Do w)
  \/ (exists link quantity, w' = snd (RedditUpvote url_Parse Do link quantity w)) ->
  client w' = New k
  /\ exists r action ms,
       sent w' = [r]
       /\ http.Method r = "POST"
       /\ http.URL r = "https://justanotherpanel.com/api/v2"
       /\ http.Header r = [("Content-Type", "application/json")]
       /\ json.checkValid (http.Body r)
          = Some (json.JObject
                    (("key", json.JString (json.appendString_loop k))
                     :: ("action", json.JString action) :: ms)).
Proof.
  intros w Hurl Hop.
  assert (Hpost : forall w0 body,
             Forall (fun f => literalBody (json.name f)) body ->
             (exists action ms,
                 membersOf body
                 = ("key", json.JString (json.appendString_loop k))
                   :: ("action", json.JString action) :: ms) ->
             w0 = snd (post url_Parse Do body w) ->
             client w0 = New k
             /\ exists r action ms,
                  sent w0 = [r]
                  /\ http.Method r = "POST"
                  /\ http.URL r = "https://justanotherpanel.com/api/v2"
                  /\ http.Header r = [("Content-Type", "application/json")]
                  /\ json.checkValid (http.Body r)
                     = Some (json.JObject
                               (("key", json.JString (json.appendString_loop k))
                                :: ("action", json.JString action) :: ms))).
  { intros w0 body Hnames (action & ms & Hms) ->. split; [apply post_client|].
    exists (requestOf (New k) (json.structEncoder body)), action, ms.
    split; [|repeat split].
    - rewrite post_sent. unfold requestsFor. cbn [client endpoint New w].
      by rewrite Hurl.
    - cbn [requestOf http.Body]. by rewrite checkValid_structEncoder, Hms. }
  destruct Hop as [->|[(service & link & quantity & runs & interval & ->)
                      |[(orderID & ->)|[->|(link & quantity & ->)]]]].
  - apply (Hpost _ (servicesBody (New k)));
      [apply servicesBody_names|by eexists _, _|apply ListServices_world].
  - apply (Hpost _ (orderRequest (New k) service link quantity runs interval));
      [apply orderRequest_names|by eexists _, _|apply AddOrder_world].
  - apply (Hpost _ (statusBody (New k) orderID));
      [apply statusBody_names|by eexists _, _|apply GetOrderStatus_world].
  - apply (Hpost _ (balanceBody (New k)));
      [apply balanceBody_names|by eexists _, _|apply GetUserBalance_world].
  - apply (Hpost _ (orderRequest (New k) "6228" link quantity None None));
      [apply orderRequest_names|by eexists _, _|apply AddOrder_world].
Qed.

(** X20. Every object key and every string literal, at any depth, of a
    reply that the scanner accepts as valid JSON is one that [unquoteBytes]
    accepts: where the decoder unquotes a key or a string of the reply,
    whatever the type it decodes into, the unquoting does not fail. *)
Theorem scanned_literals_unquote (body : string) (n : json.node) :
  json.checkValid body = Some n -> unquotable n.
Proof. intros H. by apply wfNode_unquotable, (checkValid_wfNode body). Qed.

(** X21. The reply [null] is no error for any operation: ListServices
    returns a nil slice, AddOrder (and RedditUpvote) the order id "0",
    GetOrderStatus a nil map and GetUserBalance an empty balance and
    currency, each with a nil error. *)
Theorem null_reply (w : World) (body : string) :
  url_Parse (endpoint (client w)) = None ->
  (forall r, exists resp, Do r = inr resp /\ http.ReadAll resp = (body, None)) ->
  json.checkValid body = Some json.JNull ->
  fst (ListServices url_Parse Do w) = (None, None)
  /\ (forall service link quantity runs interval,
        fst (AddOrder url_Parse Do service link quantity runs interval w)
        = ("0", None))
  /\ (forall orderID,
        fst (GetOrderStatus url_Parse Do orderID w)
        = (mkOrderStatusResponse None, None))
  /\ fst (GetUserBalance url_Parse Do w)
     = (mkUserBalanceResponse EmptyString EmptyString, None)
  /\ (forall link quantity,
        fst (RedditUpvote url_Parse Do link quantity w) = ("0", None)).
Proof.
  intros Hurl Hdo Hnull.
  repeat split; intros; unfold RedditUpvote;
    rewrite ?ListServices_result, ?AddOrder_result, ?GetOrderStatus_result,
      ?GetUserBalance_result, post_result, Hurl;
    match goal with
    | |- context [Do ?r] => destruct (Hdo r) as (resp & -> & ->)
    end;
    unfold json.Unmarshal; rewrite Hnull; reflexivity.
Qed.

End Further.

(** * The further properties at concrete inputs *)

(** X1 for the balance request of the client with key "secret", the
    transport being down. *)
Lemma post_request_shape_witness :
  let w := mkWorld (New "secret") [] in
  let ok := fun _ : string => @None error in
  let Do := fun _ : http.Request => @inl error http.Response (EnvError "down") in
  ok (endpoint (client w)) = None
  /\ exists r,
       sent (snd (post ok Do (balanceBody (New "secret")) w)) = sent w ++ [r]
       /\ http.Method r = "POST"
       /\ http.URL r = endpoint (client w)
       /\ http.Header r = [("Content-Type", "application/json")]
       /\ http.Body r = fst (json.Marshal (balanceBody (New "secret")))
       /\ snd (json.Marshal (balanceBody (New "secret"))) = None.
Proof.
  intros w ok Do. split; [reflexivity|].
  exact (post_request_shape ok Do (balanceBody (New "secret")) w eq_refl).
Defined.

(** X2 with an endpoint that [url.Parse] refuses. *)
Lemma refused_endpoint_sends_nothing_witness :
  let w := mkWorld (mkJAPClient "secret" "://panel") [] in
  let e := EnvError "missing protocol scheme" in
  let bad := fun _ : string => Some e in
  let Do := fun _ : http.Request =>
              @inr error http.Response (http.mkResponse 200 ("[]", None)) in
  bad (endpoint (client w)) = Some e
  /\ ListServices bad Do w = ((None, Some e), w)
  /\ GetUserBalance bad Do w = ((UserBalanceResponse_zero, Some e), w).
Proof.
  intros w e bad Do.
  destruct (refused_endpoint_sends_nothing bad Do w e eq_refl)
    as (H1 & _ & _ & H4 & _).
  split; [reflexivity|split; [exact H1|exact H4]].
Defined.

(** X3 with a transport that refuses every connection. *)
Lemma transport_error_propagates_witness :
  let w := mkWorld (New "secret") [] in
  let ok := fun _ : string => @None error in
  let e := EnvError "connection refused" in
  let Do := fun _ : http.Request => @inl error http.Response e in
  ok (endpoint (client w)) = None
  /\ Do (requestOf (client w) (json.structEncoder (servicesBody (client w))))
     = inl e
  /\ fst (ListServices ok Do w) = (None, Some e)
  /\ fst (GetOrderStatus ok Do "42" w) = (OrderStatusResponse_zero, Some e).
Proof.
  intros w ok e Do.
  destruct (transport_error_propagates ok Do w e eq_refl)
    as (H1 & _ & H3 & _).
  split; [reflexivity|split; [reflexivity|split]].
  - exact (H1 (or_introl eq_refl)).
  - exact (H3 "42" (or_introl eq_refl)).
Defined.

(** X4 with a server that answers with a page of HTML. *)
Lemma invalid_reply_is_SyntaxError_witness :
  let w := mkWorld (New "secret") [] in
  let ok := fun _ : string => @None error in
  let Do := fun _ : http.Request =>
              @inr error http.Response
                (http.mkResponse 502 ("<html>Bad Gateway</html>", None)) in
  json.checkValid "<html>Bad Gateway</html>" = None
  /\ fst (ListServices ok Do w) = (None, Some SyntaxError)
  /\ fst (GetUserBalance ok Do w) = (UserBalanceResponse_zero, Some SyntaxError).
Proof.
  intros w ok Do.
  assert (Hbad : json.checkValid "<html>Bad Gateway</html>" = None)
    by reflexivity.
  destruct (invalid_reply_is_SyntaxError ok Do w "<html>Bad Gateway</html>"
              eq_refl
              (fun _ => ex_intro _
                          (http.mkResponse 502 ("<html>Bad Gateway</html>", None))
                          (conj eq_refl eq_refl))
              Hbad) as (H1 & _ & _ & H4 & _).
  split; [exact Hbad|split; [exact H1|exact H4]].
Defined.

(** X5: the same body with the status codes 200 and 500. *)
Lemma status_code_ignored_witness :
  let w := mkWorld (New "secret") [] in
  let ok := fun _ : string => @None error in
  let body := jtext "{'order': 555}" in
  let Do := fun _ : http.Request =>
              @inr error http.Response (http.mkResponse 200 (body, None)) in
  let Do' := fun _ : http.Request =>
               @inr error http.Response (http.mkResponse 500 (body, None)) in
  AddOrder ok Do "1" "l" 10 None None w = AddOrder ok Do' "1" "l" 10 None None w
  /\ fst (AddOrder ok Do' "1" "l" 10 None None w) = ("555", None).
Proof.
  intros w ok body Do Do'.
  destruct (status_code_ignored ok Do Do' w (fun _ => eq_refl))
    as (_ & H2 & _).
  split; [exact (H2 "1" "l" 10 None None)|reflexivity].
Defined.

(** X6 for the key "secret". *)
Lemma key_action_payloads_witness :
  let w := mkWorld (New "secret") [] in
  utf8.ValidString (key (client w)) = true
  /\ json.structEncoder (servicesBody (client w))
     = jtext "{'key':'secret','action':'services'}"
  /\ json.structEncoder (balanceBody (client w))
     = jtext "{'key':'secret','action':'balance'}"
  /\ json.unquote (json.appendString_loop (key (client w))) = Some "secret".
Proof.
  intros w.
  assert (Hv : utf8.ValidString (key (client w)) = true) by reflexivity.
  destruct (key_action_payloads (fun _ => None) (fun _ => inl (EnvError "down")) w)
    as (_ & _ & H3 & H4 & _ & _ & H7).
  split; [exact Hv|split; [exact H3|split; [exact H4|exact (H7 Hv)]]].
Defined.

(** X7 for the order id "23501". *)
Lemma GetOrderStatus_order_payload_witness :
  let w := mkWorld (New "secret") [] in
  utf8.ValidString "23501" = true
  /\ allDigits "23501" = true
  /\ json.structEncoder (statusBody (client w) "23501")
     = jtext "{'key':'secret','action':'status','order':'23501'}"
  /\ json.unquote (json.appendString_loop "23501") = Some "23501"
  /\ json.appendString "23501" = jtext "'23501'".
Proof.
  intros w.
  assert (Hv : utf8.ValidString "23501" = true) by reflexivity.
  assert (Hd : allDigits "23501" = true) by reflexivity.
  destruct (GetOrderStatus_order_payload (fun _ => None)
              (fun _ => inl (EnvError "down")) "23501" w)
    as (_ & H2 & _ & H4 & H5).
  split; [exact Hv|split; [exact Hd|split; [exact H2|]]].
  split; [exact (H4 Hv)|exact (H5 Hd)].
Defined.

(** X8 for an order with [runs] nil and [interval] pointing to zero, and a
    link with an ampersand, which is sent as the escape of U+0026. *)
Lemma AddOrder_request_members_witness :
  let w := mkWorld (New "secret") [] in
  let link := "https://example.com/p?a=1&b=2" in
  utf8.ValidString link = true
  /\ json.checkValid
       (json.structEncoder (orderRequest (client w) "7" link 10 None (Some 0)))
     = Some (json.JObject
               [ ("key", json.JString "secret"); ("action", json.JString "add");
                 ("service", json.JString "7");
                 ("link", json.JString "https://example.com/p?a=1\u0026b=2");
                 ("quantity", json.JNumber "10");
                 ("interval", json.JNumber "0") ])
  /\ json.unquote "https://example.com/p?a=1\u0026b=2" = Some link.
Proof.
  intros w link.
  assert (Hv : utf8.ValidString link = true) by reflexivity.
  destruct (AddOrder_request_members "7" link 10 None (Some 0) w)
    as (H1 & _ & H3).
  split; [exact Hv|split; [exact H1|exact (H3 Hv)]].
Defined.

(** X9 on the reply [{"order": 555}]. *)
Lemma AddOrder_id_is_decimal_witness :
  let w := mkWorld (New "secret") [] in
  let ok := fun _ : string => @None error in
  let Do := fun _ : http.Request =>
              @inr error http.Response
                (http.mkResponse 200 (jtext "{'order': 555}", None)) in
  snd (fst (AddOrder ok Do "1" "l" 10 None None w)) = None
  /\ exists n,
       int64 n
       /\ fst (fst (AddOrder ok Do "1" "l" 10 None None w)) = strconv.Itoa n
       /\ strconv.ParseInt (fst (fst (AddOrder ok Do "1" "l" 10 None None w)))
          = Some n
       /\ fst (fst (AddOrder ok Do "1" "l" 10 None None w)) <> EmptyString.
Proof.
  intros w ok Do. split; [reflexivity|].
  exact (AddOrder_id_is_decimal ok Do "1" "l" 10 None None w eq_refl).
Defined.

(** X10 on the reply [{"order": 555}] to both requests. *)
Lemma AddOrder_then_GetOrderStatus_witness :
  let w := mkWorld (New "secret") [] in
  let ok := fun _ : string => @None error in
  let Do := fun _ : http.Request =>
              @inr error http.Response
                (http.mkResponse 200 (jtext "{'order': 555}", None)) in
  let first := AddOrder ok Do "1" "l" 10 None None w in
  snd (fst first) = None
  /\ exists n,
       int64 n /\ fst (fst first) = strconv.Itoa n
       /\ client (snd (GetOrderStatus ok Do (fst (fst first)) (snd first)))
          = client w
       /\ sent (snd (GetOrderStatus ok Do (fst (fst first)) (snd first)))
          = sent w
            ++ [ requestOf (client w)
                   (json.structEncoder
                      (orderRequest (client w) "1" "l" 10 None None));
                 requestOf (client w)
                   (jtext "{'key':" +:+ json.appendString (key (client w))
                    +:+ jtext ",'action':'status','order':'" +:+ strconv.Itoa n
                    +:+ jtext "'}") ].
Proof.
  intros w ok Do first. split; [reflexivity|].
  exact (AddOrder_then_GetOrderStatus ok Do "1" "l" 10 None None w eq_refl).
Defined.

(** X11 on the panel's error object. *)
Lemma object_reply_without_fields_witness :
  let w := mkWorld (New "secret") [] in
  let ok := fun _ : string => @None error in
  let body := jtext "{'error':'Incorrect order ID'}" in
  let ms := [("error", json.JString "Incorrect order ID")] in
  let Do := fun _ : http.Request =>
              @inr error http.Response (http.mkResponse 200 (body, None)) in
  json.checkValid body = Some (json.JObject ms)
  /\ hasField "orderStatus" ms = false
  /\ hasField "balance" ms = false
  /\ hasField "currency" ms = false
  /\ fst (GetOrderStatus ok Do "42" w) = (mkOrderStatusResponse None, None)
  /\ fst (GetUserBalance ok Do w)
     = (mkUserBalanceResponse EmptyString EmptyString, None).
Proof.
  intros w ok body ms Do.
  assert (Hv : json.checkValid body = Some (json.JObject ms)) by reflexivity.
  assert (H1 : hasField "orderStatus" ms = false) by reflexivity.
  assert (H2 : hasField "balance" ms = false) by reflexivity.
  assert (H3 : hasField "currency" ms = false) by reflexivity.
  destruct (object_reply_without_fields ok Do w body ms eq_refl
              (fun _ => ex_intro _ (http.mkResponse 200 (body, None))
                          (conj eq_refl eq_refl)) Hv) as (Ha & Hb).
  split; [exact Hv|split; [exact H1|split; [exact H2|split; [exact H3|]]]].
  split; [exact (Ha H1 "42")|exact (Hb H2 H3)].
Defined.

(** X12 on the panel's error object. *)
Lemma ListServices_not_an_array_witness :
  let w := mkWorld (New "secret") [] in
  let ok := fun _ : string => @None error in
  let body := jtext "{'error':'Invalid API key'}" in
  let Do := fun _ : http.Request =>
              @inr error http.Response (http.mkResponse 200 (body, None)) in
  json.checkValid body
  = Some (json.JObject [("error", json.JString "Invalid API key")])
  /\ fst (ListServices ok Do w) = (None, Some (UnmarshalTypeError "object")).
Proof.
  intros w ok body Do.
  assert (Hv : json.checkValid body
               = Some (json.JObject [("error", json.JString "Invalid API key")]))
    by reflexivity.
  destruct (ListServices_not_an_array ok Do w (http.mkResponse 200 (body, None))
              body _ eq_refl eq_refl eq_refl Hv) as (_ & H2 & _).
  split; [exact Hv|exact (H2 _ eq_refl)].
Defined.

(** X13 on an array of an object and a number: the number is the error. *)
Lemma ListServices_elementwise_witness :
  let w := mkWorld (New "secret") [] in
  let ok := fun _ : string => @None error in
  let body := jtext "[{'service':'1'}, 7]" in
  let es := [json.JObject [("service", json.JString "1")]; json.JNumber "7"] in
  let Do := fun _ : http.Request =>
              @inr error http.Response (http.mkResponse 200 (body, None)) in
  json.checkValid body = Some (json.JArray es)
  /\ fst (ListServices ok Do w) = (None, Some (UnmarshalTypeError "number")).
Proof.
  intros w ok body es Do.
  assert (Hv : json.checkValid body = Some (json.JArray es)) by reflexivity.
  split; [exact Hv|].
  exact (proj1 (ListServices_elementwise ok Do w
                  (http.mkResponse 200 (body, None)) body es
                  eq_refl eq_refl eq_refl Hv)).
Defined.

(** X14 on a reply with the statuses of two orders. *)
Lemma GetOrderStatus_entries_witness :
  let w := mkWorld (New "secret") [] in
  let ok := fun _ : string => @None error in
  let body :=
    jtext "{'orderStatus':{'1':{'status':'Completed'},'2':{'error':'Incorrect order ID'}}}" in
  let ents :=
    [ ("1", json.JObject [("status", json.JString "Completed")]);
      ("2", json.JObject [("error", json.JString "Incorrect order ID")]) ] in
  let Do := fun _ : http.Request =>
              @inr error http.Response (http.mkResponse 200 (body, None)) in
  json.checkValid body
  = Some (json.JObject ([] ++ [("orderStatus", json.JObject ents)]))
  /\ exists m,
       fst (GetOrderStatus ok Do "1,2" w) = (mkOrderStatusResponse (Some m), None)
       /\ m !! "1" = Some (mkOrderStatus "" "" "Completed" "" "" "")
       /\ m !! "2" = Some (mkOrderStatus "" "" "" "" "" "Incorrect order ID")
       /\ m !! "3" = None.
Proof.
  intros w ok body ents Do.
  assert (Hv : json.checkValid body
               = Some (json.JObject ([] ++ [("orderStatus", json.JObject ents)])))
    by reflexivity.
  split; [exact Hv|].
  destruct (GetOrderStatus_entries ok Do "1,2" w
              (http.mkResponse 200 (body, None)) body [] [] "orderStatus" ents
              eq_refl eq_refl eq_refl Hv eq_refl eq_refl eq_refl
              ltac:(repeat constructor))
    as (m & Hm & Hlook).
  exists m. split; [exact Hm|].
  split; [exact (Hlook "1")|split; [exact (Hlook "2")|exact (Hlook "3")]].
Defined.

(** X15 on a reply with the order id as a string. *)
Lemma AddOrder_order_type_error_witness :
  let w := mkWorld (New "secret") [] in
  let ok := fun _ : string => @None error in
  let body := jtext "{'order':'555'}" in
  let Do := fun _ : http.Request =>
              @inr error http.Response (http.mkResponse 200 (body, None)) in
  json.checkValid body
  = Some (json.JObject ([] ++ ("order", json.JString "555") :: []))
  /\ hasField "order" [("order", json.JString "555")] = true
  /\ fst (AddOrder ok Do "1" "l" 10 None None w)
     = (EmptyString, Some (UnmarshalTypeError "string")).
Proof.
  intros w ok body Do.
  assert (Hv : json.checkValid body
               = Some (json.JObject ([] ++ ("order", json.JString "555") :: [])))
    by reflexivity.
  assert (Hk : hasField "order" [("order", json.JString "555")] = true)
    by reflexivity.
  destruct (AddOrder_order_type_error ok Do "1" "l" 10 None None w
              (http.mkResponse 200 (body, None)) body [] [] "order"
              (json.JString "555") eq_refl eq_refl eq_refl Hv eq_refl Hk)
    as (H1 & _).
  split; [exact Hv|split; [exact Hk|exact (H1 "555" eq_refl)]].
Defined.

(** X16 on the balance of the panel's documentation. *)
Lemma GetUserBalance_round_trip_witness :
  let w := mkWorld (New "secret") [] in
  let ok := fun _ : string => @None error in
  let r := mkUserBalanceResponse "100.84292" "USD" in
  let body := jtext "{'balance':'100.84292','currency':'USD'}" in
  let Do := fun _ : http.Request =>
              @inr error http.Response (http.mkResponse 200 (body, None)) in
  json.structEncoder (UserBalanceResponse_encode r) = body
  /\ fst (GetUserBalance ok Do w) = (r, None).
Proof.
  intros w ok r body Do.
  destruct (GetUserBalance_round_trip ok Do w (http.mkResponse 200 (body, None)) r
              eq_refl eq_refl eq_refl eq_refl eq_refl) as (H1 & H2).
  split; [exact H1|exact H2].
Defined.

(** X17 on the status of order 23501. *)
Lemma GetOrderStatus_round_trip_witness :
  let w := mkWorld (New "secret") [] in
  let ok := fun _ : string => @None error in
  let st := mkOrderStatus "0.27819" "3572" "Partial" "157" "USD" "" in
  let body :=
    jtext "{'orderStatus':{'23501':{'charge':'0.27819','start_count':'3572','status':'Partial','remains':'157','currency':'USD'}}}" in
  let Do := fun _ : http.Request =>
              @inr error http.Response (http.mkResponse 200 (body, None)) in
  orderStatusReply "23501" st = body
  /\ utf8.ValidString "23501" = true
  /\ OrderStatus_valid st = true
  /\ fst (GetOrderStatus ok Do "23501" w)
     = (mkOrderStatusResponse (Some {[ "23501" := st ]}), None).
Proof.
  intros w ok st body Do.
  split; [reflexivity|split; [reflexivity|split; [reflexivity|]]].
  exact (GetOrderStatus_round_trip ok Do "23501" w
           (http.mkResponse 200 (body, None)) "23501" st
           eq_refl eq_refl eq_refl eq_refl eq_refl).
Defined.

(** X18 on the listing example. *)
Lemma ListServices_round_trip_witness :
  let w := mkWorld (New "secret") [] in
  let ok := fun _ : string => @None error in
  let svc := mkService "1" "Test" "Default" "Test" "1.00" "10" "1000" true false in
  let Do := fun _ : http.Request =>
              @inr error http.Response
                (http.mkResponse 200 (cannedServices, None)) in
  json.checkValid cannedServices = Some (json.JArray (List.map serviceNode [svc]))
  /\ Service_valid svc = true
  /\ fst (ListServices ok Do w) = (Some [svc], None).
Proof.
  intros w ok svc Do.
  assert (Hv : json.checkValid cannedServices
               = Some (json.JArray (List.map serviceNode [svc])))
    by reflexivity.
  assert (Hs : Service_valid svc = true) by reflexivity.
  split; [exact Hv|split; [exact Hs|]].
  exact (ListServices_round_trip ok Do w
           (http.mkResponse 200 (cannedServices, None)) cannedServices [svc]
           eq_refl eq_refl eq_refl Hv ltac:(repeat constructor)).
Defined.

(** X19 for the balance request of a client made with the key "secret". *)
Lemma New_requests_witness :
  let ok := fun _ : string => @None error in
  let Do := fun _ : http.Request => @inl error http.Response (EnvError "down") in
  let w' := snd (GetUserBalance ok Do (mkWorld (New "secret") [])) in
  ok "https://justanotherpanel.com/api/v2" = None
  /\ client w' = New "secret"
  /\ exists r action ms,
       sent w' = [r]
       /\ http.Method r = "POST"
       /\ http.URL r = "https://justanotherpanel.com/api/v2"
       /\ http.Header r = [("Content-Type", "application/json")]
       /\ json.checkValid (http.Body r)
          = Some (json.JObject
                    (("key", json.JString (json.appendString_loop "secret"))
                     :: ("action", json.JString action) :: ms)).
Proof.
  intros ok Do w'. split; [reflexivity|].
  exact (New_requests ok Do "secret" w' eq_refl
           (or_intror (or_intror (or_intror (or_introl eq_refl))))).
Defined.

(** X20 on a reply with escapes in a key and in strings, two levels
    deep. *)
Lemma scanned_literals_unquote_witness :
  let body := jtext "{'k\u0041':['a\nb',{'x':'\ud83d\ude00'}]}" in
  let n :=
    json.JObject
      [ ("k\u0041",
         json.JArray
           [ json.JString "a\nb";
             json.JObject [("x", json.JString "\ud83d\ude00")] ]) ] in
  json.checkValid body = Some n
  /\ unquotable n
  /\ json.unquote "k\u0041" = Some "kA"
  /\ json.unquote "\ud83d\ude00" = Some (utf8.EncodeRune 128512).
Proof.
  intros body n.
  assert (Hv : json.checkValid body = Some n) by reflexivity.
  split; [exact Hv|split; [exact (scanned_literals_unquote body n Hv)|]].
  split; reflexivity.
Defined.

(** X21 on the reply [null]. *)
Lemma null_reply_witness :
  let w := mkWorld (New "secret") [] in
  let ok := fun _ : string => @None error in
  let Do := fun _ : http.Request =>
              @inr error http.Response (http.mkResponse 200 ("null", None)) in
  json.checkValid "null" = Some json.JNull
  /\ fst (ListServices ok Do w) = (None, None)
  /\ fst (AddOrder ok Do "1" "l" 10 None None w) = ("0", None)
  /\ fst (GetOrderStatus ok Do "42" w) = (mkOrderStatusResponse None, None)
  /\ fst (GetUserBalance ok Do w)
     = (mkUserBalanceResponse EmptyString EmptyString, None).
Proof.
  intros w ok Do.
  assert (Hv : json.checkValid "null" = Some json.JNull) by reflexivity.
  destruct (null_reply ok Do w "null" eq_refl
              (fun _ => ex_intro _ (http.mkResponse 200 ("null", None))
                          (conj eq_refl eq_refl)) Hv)
    as (H1 & H2 & H3 & H4 & _).
  split; [exact Hv|split; [exact H1|split; [exact (H2 "1" "l" 10 None None)|]]].
  split; [exact (H3 "42")|exact H4].
Defined.
